(** * pyhub: a unifying client for SMS-activation services

    Shallow embedding of [pyhub/sdk] (base client, provider clients and the
    [PyHub] factory) and the properties of its response normalisation,
    transport discipline and provider resolution.

    Conventions of the embedding:
    - Python [str] is [string]; the development covers ASCII text, which is
      what the vendors' wire formats use;
    - Python [dict] is an association list in insertion order ([dict]);
    - exceptions are values of [exn]; a computation that may raise is a
      [res]; a method that talks to the vendor is an [IO] computation: it
      reads the transport and extends the log of HTTP calls made so far. *)

From Stdlib Require Import ZArith List String Ascii Bool Lia.
From Stdlib Require Import Floats.SpecFloat.
From Stdlib Require Import Sorting.Permutation Sorting.Sorted.
Import ListNotations.

Local Open Scope string_scope.
Local Open Scope Z_scope.

(* ================================================================= *)
(** * Python strings *)

Module PyStr.

(** [s.startswith(p)] *)
Fixpoint startswith (p s : string) : bool :=
  match p, s with
  | EmptyString, _ => true
  | String a p', String b s' => Ascii.eqb a b && startswith p' s'
  | String _ _, EmptyString => false
  end.

(** [p in s]: [p] occurs somewhere in [s]. *)
Fixpoint contains (p s : string) : bool :=
  startswith p s ||
  match s with
  | EmptyString => false
  | String _ s' => contains p s'
  end.

(** [c in s] for a single character. *)
Fixpoint has_char (c : ascii) (s : string) : bool :=
  match s with
  | EmptyString => false
  | String a s' => Ascii.eqb a c || has_char c s'
  end.

(** [s.split(sep)] for a one-character separator: never empty. *)
Fixpoint split (sep : ascii) (s : string) : list string :=
  match s with
  | EmptyString => [EmptyString]
  | String a s' =>
      if Ascii.eqb a sep then EmptyString :: split sep s'
      else match split sep s' with
           | h :: t => String a h :: t
           | [] => [String a EmptyString]
           end
  end.

(** [s.split(sep, 1)] when [sep] occurs in [s]: the text before the first
    separator and the text after it; [None] when [sep] does not occur (Python
    then returns the one-element list [[s]]). *)
Fixpoint split1 (sep : ascii) (s : string) : option (string * string) :=
  match s with
  | EmptyString => None
  | String a s' =>
      if Ascii.eqb a sep then Some (EmptyString, s')
      else match split1 sep s' with
           | Some (h, t) => Some (String a h, t)
           | None => None
           end
  end.

(** [sep.join(l)] *)
Fixpoint join (sep : string) (l : list string) : string :=
  match l with
  | [] => EmptyString
  | [x] => x
  | x :: l' => x ++ sep ++ join sep l'
  end.

(** ASCII part of [str.lower]. *)
Definition lower_char (c : ascii) : ascii :=
  let n := nat_of_ascii c in
  if (Nat.leb 65 n && Nat.leb n 90)%bool then ascii_of_nat (n + 32) else c.

Fixpoint lower (s : string) : string :=
  match s with
  | EmptyString => EmptyString
  | String a s' => String (lower_char a) (lower s')
  end.

(** [s.replace(c, "")] for a single character [c]. *)
Fixpoint remove_char (c : ascii) (s : string) : string :=
  match s with
  | EmptyString => EmptyString
  | String a s' =>
      if Ascii.eqb a c then remove_char c s' else String a (remove_char c s')
  end.

(** Characters [str.strip()] removes: the ASCII ones of [str.isspace]. *)
Definition isspace (c : ascii) : bool :=
  let n := nat_of_ascii c in
  ((Nat.leb 9 n && Nat.leb n 13) || (Nat.leb 28 n && Nat.leb n 32))%bool.

Fixpoint lstrip (s : string) : string :=
  match s with
  | EmptyString => EmptyString
  | String a s' => if isspace a then lstrip s' else s
  end.

(** [s.rstrip()] when [drop] is [isspace], [s.rstrip("/")] when [drop]
    recognises the slash. *)
Fixpoint rstrip_by (drop : ascii -> bool) (s : string) : string :=
  match s with
  | EmptyString => EmptyString
  | String a s' =>
      match rstrip_by drop s' with
      | EmptyString => if drop a then EmptyString else String a EmptyString
      | r => String a r
      end
  end.

Definition strip (s : string) : string := lstrip (rstrip_by isspace s).

Definition rstrip_slash (s : string) : string :=
  rstrip_by (fun c => Ascii.eqb c "/"%char) s.

(** [s[:n]] *)
Fixpoint take (n : nat) (s : string) : string :=
  match n, s with
  | O, _ => EmptyString
  | S _, EmptyString => EmptyString
  | S n', String a s' => String a (take n' s')
  end.

(** Truth value of a string: [bool(s)]. *)
Definition truthy (s : string) : bool :=
  match s with EmptyString => false | _ => true end.

End PyStr.

(* ================================================================= *)
(** * Exceptions and results *)

(** The exceptions the SDK can raise.  [ValueError msg] is a [ValueError]
    raised by the SDK's own [raise ValueError(f"...")] with its exact
    message.  [ValueErrorFrom msg cause] is the SDK's
    [ValueError(f"{msg}{str(e)}")], where the interpreter's text of the inner
    exception [e] is kept as the exception itself.  The others are raised by
    the interpreter or by libraries; their messages are not modelled. *)
Inductive exn : Type :=
| HTTPStatusError                       (* httpx: raise_for_status / transport *)
| ValueError (msg : string)
| ValueErrorFrom (msg : string) (cause : exn)
| LiteralError                          (* ValueError of float() / int() *)
| JSONDecodeError
| TypeError
| AttributeError
| IndexError
| KeyError
| OverflowError.

Inductive res (A : Type) : Type :=
| Return (a : A)
| Raise (e : exn).
Arguments Return {A} a.
Arguments Raise {A} e.

Definition bind_res {A B} (m : res A) (k : A -> res B) : res B :=
  match m with
  | Return a => k a
  | Raise e => Raise e
  end.

Notation "'let!' x ':=' m 'in' k" := (bind_res m (fun x => k))
  (at level 10, x pattern, m at level 100, k at level 200).

(** [for x in l: s = body(s, x)], stopping at the first exception. *)
Fixpoint for_each {A S : Type} (l : list A) (body : S -> A -> res S) (s : S)
  : res S :=
  match l with
  | [] => Return s
  | x :: l' => let! s' := body s x in for_each l' body s'
  end.

(** [try: m  except Exception as e: raise handler(e)] *)
Definition try_except {A} (m : res A) (handler : exn -> exn) : res A :=
  match m with
  | Return a => Return a
  | Raise e => Raise (handler e)
  end.

(* ================================================================= *)
(** * Python dictionaries (insertion ordered) *)

Section Assoc.
Context {K V : Type} (eqb : K -> K -> bool).

Fixpoint assoc_get (d : list (K * V)) (k : K) : option V :=
  match d with
  | [] => None
  | (k', v) :: d' => if eqb k' k then Some v else assoc_get d' k
  end.

(** [d[k] = v]: overwrite in place when [k] is present, append otherwise. *)
Fixpoint assoc_set (d : list (K * V)) (k : K) (v : V) : list (K * V) :=
  match d with
  | [] => [(k, v)]
  | (k', v') :: d' =>
      if eqb k' k then (k', v) :: d' else (k', v') :: assoc_set d' k v
  end.
End Assoc.

(** [Dict[str, V]] *)
Definition dict (V : Type) : Type := list (string * V).
Definition dict_get {V} (d : dict V) (k : string) : option V :=
  assoc_get String.eqb d k.
Definition dict_set {V} (d : dict V) (k : string) (v : V) : dict V :=
  assoc_set String.eqb d k v.

(** [Dict[int, V]] *)
Definition int_dict (V : Type) : Type := list (Z * V).
Definition int_dict_get {V} (d : int_dict V) (k : Z) : option V :=
  assoc_get Z.eqb d k.
Definition int_dict_set {V} (d : int_dict V) (k : Z) (v : V) : int_dict V :=
  assoc_set Z.eqb d k v.

(** [{**d, **extra}] *)
Definition dict_update {V} (d extra : dict V) : dict V :=
  fold_left (fun acc kv => dict_set acc (fst kv) (snd kv)) extra d.

Definition dict_keys {V} (d : dict V) : list string := map fst d.
Definition dict_values {V} (d : dict V) : list V := map snd d.

(* ================================================================= *)
(** * Transport: HTTP GET with query parameters *)

(** Values of query parameters. *)
Inductive pval : Type :=
| PStr (s : string)
| PInt (n : Z)
| PBool (b : bool).

Record request : Type := mkRequest {
  req_url : string;
  req_query : dict pval
}.

(** What [client.get(...)] followed by [raise_for_status()] gives: an
    exception, or the body text of a 2xx response. *)
Inductive http_reply : Type :=
| HttpFailure
| HttpBody (text : string).

(** The vendor and the network: the reply to a request may depend on the
    requests made before it. *)
Definition transport : Type := list request -> request -> http_reply.

(** A method of a client: reads the transport, extends the log of calls. *)
Definition IO (A : Type) : Type :=
  transport -> list request -> res A * list request.

Definition ret {A} (a : A) : IO A := fun _ log => (Return a, log).
Definition raise {A} (e : exn) : IO A := fun _ log => (Raise e, log).
Definition lift {A} (m : res A) : IO A := fun _ log => (m, log).

Definition bind {A B} (m : IO A) (k : A -> IO B) : IO B :=
  fun net log =>
    match m net log with
    | (Return a, log') => k a net log'
    | (Raise e, log') => (Raise e, log')
    end.

Notation "'do' x '<-' m ';' k" := (bind m (fun x => k))
  (at level 10, x pattern, m at level 100, k at level 200).

Definition http_get (url : string) (query : dict pval) : IO http_reply :=
  fun net log =>
    let r := mkRequest url query in
    (Return (net log r), (log ++ [r])%list).

(** Running a method on a fresh log. *)
Definition run {A} (m : IO A) (net : transport) : res A * list request :=
  m net [].

Definition outcome {A} (m : IO A) (net : transport) : res A := fst (run m net).
Definition calls {A} (m : IO A) (net : transport) : list request :=
  snd (run m net).

(* ================================================================= *)
(** * Python numbers *)

(** Python's [float] is IEEE 754 binary64; it is modelled by the Standard
    Library's specification of floating-point numbers at precision 53.  A
    float is a canonical value of that type ([valid_binary]); the conversions
    below return canonical values, and the comparisons are the numeric ones on
    them. *)
Module PyFloat.

Definition float : Type := spec_float.
Definition prec : Z := 53.
Definition emax : Z := 1024.

Definition nan : float := S754_nan.
Definition zero : float := S754_zero false.

Definition is_nan (x : float) : bool :=
  match x with S754_nan => true | _ => false end.

(** [x < y], [x <= y], [x == y] *)
Definition ltb (x y : float) : bool := SFltb x y.
Definition leb (x y : float) : bool := SFleb x y.
Definition eqb (x y : float) : bool := SFeqb x y.

(** [bool(x)]: every float but the two zeros is true. *)
Definition truthy (x : float) : bool :=
  match x with S754_zero _ => false | _ => true end.

(** The binary64 nearest to [(-1)^s * m * 10^e] (ties to even), for [m >= 0]:
    what a correctly rounded decimal-to-binary conversion returns. *)
Definition of_decimal (s : bool) (m e : Z) : float :=
  if m <=? 0 then S754_zero s
  else if 0 <=? e then binary_normalize prec emax (cond_Zopp s (m * 10 ^ e)) 0 s
  else
    let '(q, e', l) := SFdiv_core_binary prec emax m 0 (10 ^ (- e)) 0 in
    binary_round_aux prec emax s q e' l.

(** [float(n)] for a Python [int]. *)
Definition of_int (n : Z) : res float :=
  match binary_normalize prec emax n 0 false with
  | S754_infinity _ => Raise OverflowError
  | x => Return x
  end.

(** [int(x)] for a float: truncation toward zero. *)
Definition to_int (x : float) : res Z :=
  match x with
  | S754_zero _ => Return 0
  | S754_nan => Raise LiteralError
  | S754_infinity _ => Raise OverflowError
  | S754_finite s m e =>
      let a := if 0 <=? e then Z.shiftl (Zpos m) e else Z.shiftr (Zpos m) (- e) in
      Return (cond_Zopp s a)
  end.

(** Whether the value of [x] is exactly the decimal [(-1)^s * m * 10^e], for
    [m >= 0]: the comparison is made on integers, after clearing the powers
    of two and ten with negative exponents. *)
Definition exactly (x : float) (s : bool) (m e : Z) : bool :=
  match x with
  | S754_zero _ => m =? 0
  | S754_finite s' m' e' =>
      (Bool.eqb s s' &&
       (Zpos m' * 2 ^ Z.max e' 0 * 10 ^ Z.max (- e) 0
        =? m * 10 ^ Z.max e 0 * 2 ^ Z.max (- e') 0))%bool
  | S754_infinity _ | S754_nan => false
  end.

End PyFloat.

(** Reading numerals: the grammar of [float(str)] and [int(str)]. *)
Module PyLiteral.

Definition is_digit (c : ascii) : bool :=
  let n := nat_of_ascii c in (Nat.leb 48 n && Nat.leb n 57)%bool.

Definition digit_value (c : ascii) : Z := Z.of_nat (nat_of_ascii c) - 48.

Definition next_is_digit (s : string) : bool :=
  match s with
  | String c _ => is_digit c
  | EmptyString => false
  end.

(** An underscore is accepted only between two digits, and is then ignored. *)
Fixpoint drop_underscores (after_digit : bool) (s : string) : option string :=
  match s with
  | EmptyString => Some EmptyString
  | String c s' =>
      if Ascii.eqb c "_"%char then
        if (after_digit && next_is_digit s')%bool then drop_underscores false s'
        else None
      else option_map (String c) (drop_underscores (is_digit c) s')
  end.

(** [s] consists of decimal digits only. *)
Fixpoint all_digits (s : string) : bool :=
  match s with
  | EmptyString => true
  | String c s' => (is_digit c && all_digits s')%bool
  end.

(** The longest prefix of digits and what follows it. *)
Fixpoint span_digits (s : string) : string * string :=
  match s with
  | EmptyString => (EmptyString, EmptyString)
  | String c s' =>
      if is_digit c then let '(d, r) := span_digits s' in (String c d, r)
      else (EmptyString, s)
  end.

Fixpoint digits_value (acc : Z) (ds : string) : Z :=
  match ds with
  | EmptyString => acc
  | String c ds' => digits_value (10 * acc + digit_value c) ds'
  end.

(** An optional sign: [true] for minus. *)
Definition read_sign (s : string) : bool * string :=
  match s with
  | String c s' =>
      if Ascii.eqb c "-"%char then (true, s')
      else if Ascii.eqb c "+"%char then (false, s')
      else (false, s)
  | EmptyString => (false, s)
  end.

(** The whitespace [float] and [int] skip around a numeral: tab, line feed,
    vertical tab, form feed, carriage return and space.  This is the C
    locale's [isspace], a narrower set than the one of [str.strip]: the
    separators 0x1C to 0x1F are not skipped. *)
Definition is_space (c : ascii) : bool :=
  let n := nat_of_ascii c in
  ((Nat.leb 9 n && Nat.leb n 13) || Nat.eqb n 32)%bool.

Fixpoint skip_spaces (s : string) : string :=
  match s with
  | EmptyString => EmptyString
  | String a s' => if is_space a then skip_spaces s' else s
  end.

(** The numeral between the whitespace before and after it.  Underscores
    are checked against their neighbours, which the whitespace removed never
    changes: it is no digit, and neither is the end of the text. *)
Definition strip (s : string) : string :=
  skip_spaces (PyStr.rstrip_by is_space s).

(** The most digits [int] converts ([sys.int_info.default_max_str_digits]);
    a longer numeral is refused with [ValueError], leading zeros counted. *)
Definition max_str_digits : Z := 4300.

(** [int(s)] in base 10. *)
Definition int_of_str (s : string) : res Z :=
  match drop_underscores false (strip s) with
  | None => Raise LiteralError
  | Some t =>
      let '(neg, t1) := read_sign t in
      match span_digits t1 with
      | (String c ds, EmptyString) =>
          if max_str_digits <? Z.of_nat (String.length (String c ds))
          then Raise LiteralError
          else Return (cond_Zopp neg (digits_value 0 (String c ds)))
      | _ => Raise LiteralError
      end
  end.

(** The exponent part: [None] when malformed, else its value (0 when the
    numeral has none). *)
Definition read_exponent (s : string) : option Z :=
  match s with
  | EmptyString => Some 0
  | String c s' =>
      if (Ascii.eqb c "e"%char || Ascii.eqb c "E"%char)%bool then
        let '(neg, s1) := read_sign s' in
        match span_digits s1 with
        | (String d ds, EmptyString) =>
            Some (cond_Zopp neg (digits_value 0 (String d ds)))
        | _ => None
        end
      else None
  end.

(** [float(s)]: surrounding whitespace, a sign, then [inf], [infinity],
    [nan] in any case, or digits with an optional point and exponent. *)
Definition float_of_str (s : string) : res PyFloat.float :=
  match drop_underscores false (strip s) with
  | None => Raise LiteralError
  | Some t =>
      let '(neg, t1) := read_sign t in
      let word := PyStr.lower t1 in
      if (String.eqb word "inf" || String.eqb word "infinity")%bool
      then Return (S754_infinity neg)
      else if String.eqb word "nan" then Return PyFloat.nan
      else
        let '(ip, r1) := span_digits t1 in
        let '(fp, r2) :=
          match r1 with
          | String c r =>
              if Ascii.eqb c "."%char then span_digits r else (EmptyString, r1)
          | EmptyString => (EmptyString, r1)
          end in
        if (PyStr.truthy ip || PyStr.truthy fp)%bool then
          match read_exponent r2 with
          | Some e =>
              Return (PyFloat.of_decimal neg (digits_value 0 (ip ++ fp))
                        (e - Z.of_nat (String.length fp)))
          | None => Raise LiteralError
          end
        else Raise LiteralError
  end.

End PyLiteral.

(* ================================================================= *)
(** * Python values read from JSON *)

(** What [json.loads] returns: [None], [bool], [int], [float] (the decoder
    also accepts [NaN] and [Infinity]), [str], [list] and [dict] with string
    keys. *)
#[warnings="-register-all"]
Inductive json : Type :=
| JNull
| JBool (b : bool)
| JInt (n : Z)
| JFloat (x : PyFloat.float)
| JStr (s : string)
| JList (l : list json)
| JDict (d : list (string * json)).

Module PyVal.

(** [bool(v)] *)
Definition truthy (v : json) : bool :=
  match v with
  | JNull => false
  | JBool b => b
  | JInt n => negb (n =? 0)
  | JFloat x => PyFloat.truthy x
  | JStr s => PyStr.truthy s
  | JList l => match l with [] => false | _ => true end
  | JDict d => match d with [] => false | _ => true end
  end.

(** [a or b] *)
Definition or_else (a b : json) : json := if truthy a then a else b.

(** [float(v)] *)
Definition to_float (v : json) : res PyFloat.float :=
  match v with
  | JFloat x => Return x
  | JInt n => PyFloat.of_int n
  | JBool b => PyFloat.of_int (if b then 1 else 0)
  | JStr s => PyLiteral.float_of_str s
  | JNull | JList _ | JDict _ => Raise TypeError
  end.

(** [int(v)] *)
Definition to_int (v : json) : res Z :=
  match v with
  | JInt n => Return n
  | JBool b => Return (if b then 1 else 0)
  | JFloat x => PyFloat.to_int x
  | JStr s => PyLiteral.int_of_str s
  | JNull | JList _ | JDict _ => Raise TypeError
  end.

(** [isinstance(v, dict)] *)
Definition is_dict (v : json) : bool :=
  match v with JDict _ => true | _ => false end.

(** [v.items()]: only a [dict] has the method. *)
Definition items (v : json) : res (dict json) :=
  match v with
  | JDict d => Return d
  | _ => Raise AttributeError
  end.

(** [v.values()] *)
Definition values (v : json) : res (list json) :=
  match v with
  | JDict d => Return (dict_values d)
  | _ => Raise AttributeError
  end.

(** [d.get(k, default)] on a [dict]. *)
Definition dget (d : dict json) (k : string) (default : json) : json :=
  match dict_get d k with
  | Some v => v
  | None => default
  end.

(** [v.get(k, default)]: only a [dict] has the method. *)
Definition get (v : json) (k : string) (default : json) : res json :=
  match v with
  | JDict d => Return (dget d k default)
  | _ => Raise AttributeError
  end.

End PyVal.

(* ================================================================= *)
(** * Python lists of floats *)

Module PyList.

(** [[f(x) for x in l]], stopping at the first exception. *)
Fixpoint comprehension {A B} (f : A -> res B) (l : list A) : res (list B) :=
  match l with
  | [] => Return []
  | x :: l' =>
      let! y := f x in
      let! ys := comprehension f l' in
      Return (y :: ys)
  end.

(** Insertion of [x] after the elements it is not less than. *)
Fixpoint insert (x : PyFloat.float) (l : list PyFloat.float) : list PyFloat.float :=
  match l with
  | [] => [x]
  | y :: l' => if PyFloat.ltb x y then x :: y :: l' else y :: insert x l'
  end.

(** [sorted(l)] and [l.sort()]: a stable sort that compares with [<] only.
    On lists without NaN every such sort returns the same list, which is what
    this insertion sort computes; on a list of at most two elements it does
    what Python does whatever the elements (one comparison, of the second
    with the first).  With NaN among three or more elements the order Python
    returns depends on the steps of its merge sort and is not modelled. *)
Definition sorted (l : list PyFloat.float) : list PyFloat.float :=
  fold_left (fun acc x => insert x acc) l [].

(** [l[0]] *)
Definition first {A} (l : list A) : res A :=
  match l with
  | x :: _ => Return x
  | [] => Raise IndexError
  end.

(** [l[-1]] *)
Fixpoint last {A} (l : list A) : res A :=
  match l with
  | [] => Raise IndexError
  | [x] => Return x
  | _ :: l' => last l'
  end.

(** The lists on which [sorted] is what Python returns: those without NaN
    and those of at most two elements. *)
Definition sort_modelled (l : list PyFloat.float) : bool :=
  (forallb (fun x => negb (PyFloat.is_nan x)) l || (List.length l <=? 2)%nat)%bool.

End PyList.

(* ================================================================= *)
(** * Schemas (base/schemas.py) *)

(** The fields no method of the SDK ever sets ([NumberActivation.cost] and
    [ActivationStatus.full_text], both left at [None]) are omitted. *)

Record Balance : Type := mkBalance {
  amount : PyFloat.float;
  currency : string
}.

(** [Balance(amount=a)]: the currency defaults to RUB. *)
Definition Balance_of (a : PyFloat.float) : Balance := mkBalance a "RUB".

Record NumberActivation : Type := mkNumberActivation {
  activation_id : string;
  phone_number : string;
  service : string
}.

Record ActivationStatus : Type := mkActivationStatus {
  status : string;
  code : option string
}.

(** [Union[float, List[float]]] *)
Inductive cost_t : Type :=
| Scalar (p : PyFloat.float)
| Prices (l : list PyFloat.float).

Record ServicePrice : Type := mkServicePrice {
  sp_service : string;
  cost : cost_t;
  min_price : PyFloat.float;
  max_price : PyFloat.float;
  count : Z
}.

Record CountryPrices : Type := mkCountryPrices {
  country_id : Z;
  services : dict ServicePrice
}.

(* ================================================================= *)
(** * Clients *)

(** The client classes; all inherit every method of [ClientBase] except
    where noted ([HeroSMSClient] and [SMSBowerClient] override
    [get_prices]). *)
Inductive client_class : Type :=
| SMSHubClient
| HeroSMSClient
| SMSActivateClient
| SMSBowerClient
| SMS24HClient.

Record client : Type := mkClient {
  cls : client_class;
  api_key : string;
  base_url : string;
  proxy : option string;
  timeout : Z
}.

(** [ClientBase.__init__].  The keyword arguments it prepares for the HTTP
    session (timeout, redirects, proxy) configure the transport and do not
    appear in the requests. *)
Definition ClientBase_init (c : client_class) (api_key base_url : string)
    (proxy : option string) (timeout : Z) : client :=
  mkClient c api_key (PyStr.rstrip_slash base_url) proxy timeout.

Module ClientBase.

Definition errors : list string :=
  ["BAD_KEY"; "ERROR_SQL"; "BAD_ACTION"; "WRONG_ACTIVATION_ID"; "NO_KEY"; "BANNED"].

(** [for err in errors: if err in text: raise ValueError(f"API Error: {text}")] *)
Fixpoint check_errors (errs : list string) (text : string) : res unit :=
  match errs with
  | [] => Return tt
  | err :: errs' =>
      if PyStr.contains err text then Raise (ValueError ("API Error: " ++ text))
      else check_errors errs' text
  end.

(** The request [_request] sends: [query_params] on the client's URL. *)
Definition query (self : client) (action : string) (params : dict pval) : request :=
  let query_params :=
    dict_update [("api_key", PStr (api_key self)); ("action", PStr action)] params in
  mkRequest (base_url self) query_params.

(** [response.raise_for_status()], then the scan of [response.text]. *)
Definition read_reply (reply : http_reply) : res string :=
  match reply with
  | HttpFailure => Raise HTTPStatusError
  | HttpBody text =>
      let! _ := check_errors errors text in
      Return text
  end.

(** [_request]; [params=None] is the empty dictionary.  The debug log line
    has no effect on the result. *)
Definition _request (self : client) (action : string) (params : dict pval)
  : IO string :=
  let r := query self action params in
  do reply <- http_get (req_url r) (req_query r);
  lift (read_reply reply).

(** [parts[i]] *)
Definition item (parts : list string) (i : nat) : res string :=
  match nth_error parts i with
  | Some x => Return x
  | None => Raise IndexError
  end.

(** The part of [get_balance] after the request. *)
Definition parse_balance (response : string) : res Balance :=
  if PyStr.has_char ":" response then
    let! field := item (PyStr.split ":" response) 1 in
    let! amount := PyLiteral.float_of_str field in
    Return (Balance_of amount)
  else Raise (ValueError ("Unexpected balance response: " ++ response)).

Definition get_balance (self : client) : IO Balance :=
  do response <- _request self "getBalance" [];
  lift (parse_balance response).

(** The query parameters [get_number] builds. *)
Definition get_number_params (service : string) (country : option Z)
    (operator : option string) : dict pval :=
  let params := [("service", PStr service)] in
  let params :=
    match country with
    | Some c => dict_set params "country" (PInt c)
    | None => params
    end in
  match operator with
  | Some op =>
      if PyStr.truthy op then
        let op :=
          match country with
          | Some c => if negb (c =? 73) then "any" else op
          | None => op
          end in
        dict_set params "operator" (PStr op)
      else params
  | None => params
  end.

(** The part of [get_number] after the request: reading the response. *)
Definition parse_number (service response : string) : res NumberActivation :=
  if PyStr.startswith "ACCESS_NUMBER" response then
    let parts := PyStr.split ":" response in
    let! id := item parts 1 in
    let! number := item parts 2 in
    Return (mkNumberActivation id number service)
  else Raise (ValueError ("Error getting number: " ++ response)).

Definition get_number (self : client) (service : string) (country : option Z)
    (operator : option string) : IO NumberActivation :=
  do response <- _request self "getNumber" (get_number_params service country operator);
  lift (parse_number service response).

Definition set_status (self : client) (activation_id : string) (status : Z)
  : IO string :=
  _request self "setStatus" [("id", PStr activation_id); ("status", PInt status)].

Definition active_status (self : client) (activation_id : string) : IO string :=
  set_status self activation_id 1.

Definition reactivation_number (self : client) (activation_id : string)
  : IO NumberActivation :=
  do response <- _request self "getExtraActivation" [("activationId", PStr activation_id)];
  if PyStr.startswith "ACCESS_NUMBER" response then
    let parts := PyStr.split ":" response in
    do new_id <- lift (item parts 1);
    do new_number <- lift (item parts 2);
    do _ <- active_status self new_id;
    ret (mkNumberActivation new_id new_number "reactivation")
  else raise (ValueError ("Error reactivating number: " ++ response)).

Definition parse_status (response : string) : ActivationStatus :=
  if PyStr.has_char ":" response then
    match PyStr.split1 ":" response with
    | Some (status, code) => mkActivationStatus status (Some code)
    | None => mkActivationStatus response None
    end
  else mkActivationStatus response None.

Definition get_status (self : client) (activation_id : string)
  : IO ActivationStatus :=
  do response <- _request self "getStatus" [("id", PStr activation_id)];
  ret (parse_status response).

(** Parameters of [get_sms] after [self]. *)
Definition get_sms_signature : list string := ["activation_id"].

Definition get_sms (self : client) (activation_id : string) : IO (option string) :=
  do st <- get_status self activation_id;
  if String.eqb (status st) "STATUS_OK" then ret (code st)
  else if existsb (String.eqb (status st)) ["STATUS_CANCEL"; "NO_ACTIVATION"; "ACCESS_CANCEL"]
  then ret None
  else ret None.

(** Python binds the arguments of a call before the body runs: with [npos]
    positional arguments given, a keyword must name one of the remaining
    parameters, else the call raises [TypeError]. *)
Definition keywords_accepted (signature : list string) (npos : nat)
    (keywords : list string) : bool :=
  forallb (fun kw => existsb (String.eqb kw) (skipn npos signature)) keywords.

(** The call [self.get_sms(activation_id, **keywords)]. *)
Definition call_get_sms (self : client) (activation_id : string)
    (keywords : dict pval) : IO (option string) :=
  if keywords_accepted get_sms_signature 1 (dict_keys keywords)
  then get_sms self activation_id
  else raise TypeError.

Definition get_new_sms (self : client) (activation_id : string)
    (timeout interval : Z) : IO (option string) :=
  do _ <- set_status self activation_id 3;
  call_get_sms self activation_id
    [("timeout", PInt timeout); ("interval", PInt interval)].

(** ** Prices *)

(** [prices = sorted([float(p) for p in free_price_map.keys()])] and what the
    two price parsers derive from it when [free_price_map] is a non-empty
    [dict]; [base_cost] alone otherwise. *)
Definition derive_cost (base_cost : PyFloat.float) (free_price_map : json)
  : res (cost_t * PyFloat.float * PyFloat.float) :=
  match free_price_map with
  | JDict (kv :: fpm) =>
      let! ps := PyList.comprehension PyLiteral.float_of_str (dict_keys (kv :: fpm)) in
      let prices := PyList.sorted ps in
      match prices with
      | [] => Return (Scalar base_cost, base_cost, base_cost)
      | _ =>
          let! lo := PyList.first prices in
          let! hi := PyList.last prices in
          Return (Prices prices, lo, hi)
      end
  | _ => Return (Scalar base_cost, base_cost, base_cost)
  end.

(** The body of the inner loop of [get_prices] for a [dict] entry. *)
Definition service_price (srv_code : string) (srv_data : dict json)
  : res ServicePrice :=
  let! base_cost :=
    PyVal.to_float (PyVal.or_else (PyVal.dget srv_data "cost" (JInt 0))
                                  (PyVal.dget srv_data "price" (JInt 0))) in
  let! (cost, min_p, max_p) := derive_cost base_cost (PyVal.dget srv_data "freePriceMap" JNull) in
  let! count :=
    PyVal.to_int (PyVal.or_else (PyVal.dget srv_data "count" (JInt 0)) (JInt 0)) in
  Return (mkServicePrice srv_code cost min_p max_p count).

(** The part of [get_prices] between [json.loads] and [return result]
    (the [print(data)] it starts with only writes to the standard output). *)
Definition parse_prices (data : json) : res (list CountryPrices) :=
  let data :=
    match data with
    | JList (JDict d0 :: _) => JDict d0
    | _ => data
    end in
  match data with
  | JDict d =>
      for_each d (fun result '(country_id, services) =>
        match services with
        | JDict services =>
            let! service_map :=
              for_each services (fun service_map '(srv_code, srv_data) =>
                match srv_data with
                | JDict srv_data =>
                    let! sp := service_price srv_code srv_data in
                    Return (dict_set service_map srv_code sp)
                | _ => Return service_map
                end) [] in
            match service_map with
            | [] => Return result
            | _ =>
                let! cid := PyLiteral.int_of_str country_id in
                Return (result ++ [mkCountryPrices cid service_map])%list
            end
        | _ => Return result
        end) []
  | _ => Return []
  end.

(** [process_entry] of [get_top_countries_by_service]; [country_map] is the
    dictionary the closure updates. *)
Definition process_entry (country_map : int_dict (dict ServicePrice))
    (srv_code : string) (entry : json) : res (int_dict (dict ServicePrice)) :=
  let! c_id := PyVal.get entry "country" JNull in
  match c_id with
  | JNull => Return country_map
  | _ =>
      let! c_id := PyVal.to_int c_id in
      let country_map :=
        match int_dict_get country_map c_id with
        | None => int_dict_set country_map c_id []
        | Some _ => country_map
        end in
      let! price := PyVal.get entry "price" (JInt 0) in
      let! cost0 := PyVal.get entry "cost" (JInt 0) in
      let! base_cost :=
        PyVal.to_float (PyVal.or_else (PyVal.or_else price cost0) (JInt 0)) in
      let! free_price_map := PyVal.get entry "freePriceMap" JNull in
      let! (cost, min_p, max_p) := derive_cost base_cost free_price_map in
      let! cnt0 := PyVal.get entry "count" (JInt 0) in
      let! count := PyVal.to_int (PyVal.or_else cnt0 (JInt 0)) in
      match int_dict_get country_map c_id with
      | Some srvs =>
          Return (int_dict_set country_map c_id
                    (dict_set srvs srv_code (mkServicePrice srv_code cost min_p max_p count)))
      | None => Raise KeyError
      end
  end.

(** [for entry in entries: (if isinstance(entry, dict):) process_entry(...)],
    where [entries] is a list, or the values of a dict; anything else is
    passed over. *)
Definition process_entries (guarded : bool) (srv_code : string) (entries : json)
    (country_map : int_dict (dict ServicePrice))
  : res (int_dict (dict ServicePrice)) :=
  let body := fun cm entry =>
    if (guarded && negb (PyVal.is_dict entry))%bool then Return cm
    else process_entry cm srv_code entry in
  match entries with
  | JList l => for_each l body country_map
  | JDict d => for_each (dict_values d) body country_map
  | _ => Return country_map
  end.

(** The part of [get_top_countries_by_service] between [json.loads] and the
    [return]. *)
Definition parse_top_countries (service : option string) (data : json)
  : res (list CountryPrices) :=
  let! country_map :=
    match service with
    | Some (String c s) =>
        let service := String c s in
        let entries :=
          match data with
          | JDict d =>
              match dict_get d service with
              | Some v => v
              | None => data
              end
          | _ => data
          end in
        process_entries true service entries []
    | _ =>
        let per_service := fun cm '(srv_code, entries) =>
          process_entries false srv_code entries cm in
        match data with
        | JList l =>
            for_each l (fun cm item =>
              match item with
              | JDict d => for_each d per_service cm
              | _ => Return cm
              end) []
        | JDict d => for_each d per_service []
        | _ => Return []
        end
    end in
  Return (map (fun '(cid, srvs) => mkCountryPrices cid srvs) country_map).

Section WithJSONDecoder.

(** [json.loads] of the standard library. *)
Variable json_loads : string -> res json.

Definition get_prices (self : client) (service : option string)
    (country : option Z) (free_price : bool) : IO (list CountryPrices) :=
  let params := [] in
  let params :=
    match service with
    | Some (String c s) => dict_set params "service" (PStr (String c s))
    | _ => params
    end in
  let params :=
    match country with
    | Some c => dict_set params "country" (PInt c)
    | None => params
    end in
  let params :=
    if free_price then dict_set params "freePrice" (PBool true) else params in
  do response <- _request self "getPrices" params;
  lift (try_except
          (let! data := json_loads response in parse_prices data)
          (fun _ => ValueError ("Error parsing prices or received error: " ++ response))).

Definition get_top_countries_by_service (self : client) (service : option string)
    (free_price : bool) : IO (list CountryPrices) :=
  let params := [] in
  let params :=
    match service with
    | Some (String c s) => dict_set params "service" (PStr (String c s))
    | _ => params
    end in
  let params :=
    if free_price then dict_set params "freePrice" (PBool true) else params in
  do response <- _request self "getTopCountriesByService" params;
  lift (try_except
          (let! data := json_loads response in parse_top_countries service data)
          (fun e => ValueErrorFrom
                      ("Error parsing top countries: " ++ PyStr.take 200 response
                         ++ "... Internal error: ") e)).

End WithJSONDecoder.

End ClientBase.

(* ================================================================= *)
(** * SMSBower (smsbower/client.py) *)

Module SMSBowerClient.

Definition default_base_url : string := "https://smsbower.page/stubs/handler_api.php".

(** The v2 loop over [srv_data.items()]: prices and total count. *)
Definition collect_v2 (srv_data : json) : res (list PyFloat.float * Z) :=
  let! kv := PyVal.items srv_data in
  for_each kv (fun '(prices, total_count) '(price_str, count) =>
    let! p := PyLiteral.float_of_str price_str in
    let! c := PyVal.to_int count in
    Return ((prices ++ [p])%list, total_count + c)) ([], 0).

(** The v3 loop over [srv_data.values()]. *)
Definition collect_v3 (srv_data : json) : res (list PyFloat.float * Z) :=
  let! providers := PyVal.values srv_data in
  for_each providers (fun '(prices, total_count) provider_data =>
    let! price := PyVal.get provider_data "price" (JInt 0) in
    let! p := PyVal.to_float price in
    let! cnt := PyVal.get provider_data "count" (JInt 0) in
    let! c := PyVal.to_int cnt in
    Return ((prices ++ [p])%list, total_count + c)) ([], 0).

Definition collect (version : string) (srv_data : json)
  : res (list PyFloat.float * Z) :=
  if String.eqb version "v2" then collect_v2 srv_data else collect_v3 srv_data.

(** [prices.sort()] and the [ServicePrice(...)] built from the sorted list. *)
Definition service_price (srv_code : string) (prices : list PyFloat.float)
    (total_count : Z) : res ServicePrice :=
  let prices := PyList.sorted prices in
  let! lo := PyList.first prices in
  let! hi := PyList.last prices in
  let cost := if (1 <? List.length prices)%nat then Prices prices else Scalar lo in
  Return (mkServicePrice srv_code cost lo hi total_count).

(** [if prices: ...; service_map[srv_code] = ServicePrice(...)] *)
Definition record_service (service_map : dict ServicePrice) (srv_code : string)
    (prices : list PyFloat.float) (total_count : Z) : res (dict ServicePrice) :=
  match prices with
  | [] => Return service_map
  | _ =>
      let! sp := service_price srv_code prices total_count in
      Return (dict_set service_map srv_code sp)
  end.

(** The loop over [services.items()] of one country. *)
Definition build_service_map (version : string) (services : json)
  : res (dict ServicePrice) :=
  let! services := PyVal.items services in
  for_each services (fun service_map '(srv_code, srv_data) =>
    let! (prices, total_count) := collect version srv_data in
    record_service service_map srv_code prices total_count) [].

(** [if service_map: result.append(CountryPrices(...))] *)
Definition record_country (result : list CountryPrices) (country_id : string)
    (service_map : dict ServicePrice) : res (list CountryPrices) :=
  match service_map with
  | [] => Return result
  | _ =>
      let! cid := PyLiteral.int_of_str country_id in
      Return (result ++ [mkCountryPrices cid service_map])%list
  end.

Definition _parse_complex_prices (data : json) (version : string)
  : res (list CountryPrices) :=
  let! countries := PyVal.items data in
  for_each countries (fun result '(country_id, services) =>
    let! service_map := build_service_map version services in
    record_country result country_id service_map) [].

Section WithJSONDecoder.

Variable json_loads : string -> res json.

Definition price_params (service : option string) (country : option Z)
  : dict pval :=
  let params := [] in
  let params :=
    match service with
    | Some (String c s) => dict_set params "service" (PStr (String c s))
    | _ => params
    end in
  match country with
  | Some c => dict_set params "country" (PInt c)
  | None => params
  end.

Definition get_prices_v2 (self : client) (service : option string)
    (country : option Z) : IO (list CountryPrices) :=
  do response <- ClientBase._request self "getPricesV2" (price_params service country);
  lift (try_except
          (let! data := json_loads response in _parse_complex_prices data "v2")
          (fun e => ValueErrorFrom
                      ("Error parsing prices V2: " ++ PyStr.take 200 response
                         ++ "... Internal error: ") e)).

Definition get_prices_v3 (self : client) (service : option string)
    (country : option Z) : IO (list CountryPrices) :=
  do response <- ClientBase._request self "getPricesV3" (price_params service country);
  lift (try_except
          (let! data := json_loads response in _parse_complex_prices data "v3")
          (fun e => ValueErrorFrom
                      ("Error parsing prices V3: " ++ PyStr.take 200 response
                         ++ "... Internal error: ") e)).

(** Override: the standard price call goes to v2. *)
Definition get_prices (self : client) (service : option string)
    (country : option Z) (free_price : bool) : IO (list CountryPrices) :=
  get_prices_v2 self service country.

End WithJSONDecoder.

End SMSBowerClient.

(* ================================================================= *)
(** * HeroSMS (herosms/client.py) *)

Module HeroSMSClient.

Definition default_base_url : string := "https://hero-sms.com/stubs/handler_api.php".

Section WithJSONDecoder.

Variable json_loads : string -> res json.

(** Override: the standard price call goes to the top-countries call,
    filtered afterwards to [country] when one is given. *)
Definition get_prices (self : client) (service : option string)
    (country : option Z) (free_price : bool) : IO (list CountryPrices) :=
  do results <- ClientBase.get_top_countries_by_service json_loads self service free_price;
  match country with
  | Some c => ret (filter (fun r => country_id r =? c) results)
  | None => ret results
  end.

End WithJSONDecoder.

End HeroSMSClient.


(* ================================================================= *)
(** * The factory (api.py) *)

Module PyHub.

Definition _providers : dict client_class :=
  [ ("smshub", SMSHubClient);
    ("herosms", HeroSMSClient);
    ("smsactivate", SMSActivateClient);
    ("smsbower", SMSBowerClient);
    ("hero", HeroSMSClient);
    ("bower", SMSBowerClient) ].

Definition _url_patterns : dict string :=
  [ ("smshub.org", "smshub");
    ("hero-sms.com", "herosms");
    ("sms-activate", "smsactivate");
    ("smsbower", "smsbower") ].

(** The default [base_url] of each class's [__init__]. *)
Definition default_base_url (c : client_class) : string :=
  match c with
  | SMSHubClient => "https://smshub.org/stubs/handler_api.php"
  | HeroSMSClient => HeroSMSClient.default_base_url
  | SMSActivateClient => "https://api.sms-activate.ae/stubs/handler_api.php"
  | SMSBowerClient => SMSBowerClient.default_base_url
  | SMS24HClient => "https://api.sms24h.org/stubs/handler_api"
  end.

(** [client_class(api_key=api_key, proxy=proxy, timeout=timeout, **kwargs)]:
    every [__init__] takes [api_key], [proxy], [timeout] and [base_url], so
    the only further keyword a call may carry is [base_url]. *)
Definition instantiate (c : client_class) (api_key : string)
    (proxy : option string) (timeout : Z) (kwargs : dict pval) : res client :=
  if forallb (fun k => String.eqb k "base_url") (dict_keys kwargs) then
    match dict_get kwargs "base_url" with
    | Some (PStr url) => Return (ClientBase_init c api_key url proxy timeout)
    | Some _ => Raise AttributeError
    | None => Return (ClientBase_init c api_key (default_base_url c) proxy timeout)
    end
  else Raise TypeError.

(** [for pattern, key in _url_patterns.items(): if pattern in url_lower: ...
    break], with the [else] branch of the loop. *)
Fixpoint detect (patterns : dict string) (url_lower : string) : string :=
  match patterns with
  | [] => "smshub"
  | (pattern, key) :: rest =>
      if PyStr.contains pattern url_lower then key else detect rest url_lower
  end.

(** [provider.lower().replace("-", "").replace("_", "").strip()] *)
Definition normalize (provider : string) : string :=
  PyStr.strip (PyStr.remove_char "_" (PyStr.remove_char "-" (PyStr.lower provider))).

(** Step 1 of [get_client]: the provider key, [None] when neither argument
    is usable. *)
Definition provider_key (provider base_url : option string) : option string :=
  match provider with
  | Some (String c p) => Some (normalize (String c p))
  | _ =>
      match base_url with
      | Some (String c u) => Some (detect _url_patterns (PyStr.lower (String c u)))
      | _ => None
      end
  end.

Definition missing_provider_message : string :=
  "Could not identify provider. Please provide 'provider' name or 'base_url'.".

Definition unsupported_provider_message (provider_key : string) : string :=
  let supported := PyStr.join ", " (dict_keys _providers) in
  "Provider '" ++ provider_key ++ "' is not supported. "
    ++ "Available providers: " ++ supported.

Definition get_client (api_key : string) (provider base_url proxy : option string)
    (timeout : Z) (kwargs : dict pval) : res client :=
  match provider_key provider base_url with
  | Some (String c k) =>
      let key := String c k in
      match dict_get _providers key with
      | Some client_class =>
          let kwargs :=
            match base_url with
            | Some (String c u) => dict_set kwargs "base_url" (PStr (String c u))
            | _ => kwargs
            end in
          instantiate client_class api_key proxy timeout kwargs
      | None => Raise (ValueError (unsupported_provider_message key))
      end
  | _ => Raise (ValueError missing_provider_message)
  end.

End PyHub.

(* ================================================================= *)
(** * The operations of a client *)

(** Every public method of a client, with its arguments. *)
Inductive operation : Type :=
| GetBalance
| GetNumber (service : string) (country : option Z) (operator : option string)
| SetStatus (activation_id : string) (status : Z)
| ActiveStatus (activation_id : string)
| ReactivationNumber (activation_id : string)
| GetStatus (activation_id : string)
| GetSms (activation_id : string)
| GetNewSms (activation_id : string) (timeout interval : Z)
| GetPrices (service : option string) (country : option Z) (free_price : bool)
| GetTopCountriesByService (service : option string) (free_price : bool)
| GetPricesV2 (service : option string) (country : option Z)
| GetPricesV3 (service : option string) (country : option Z).

(** What an operation returns. *)
Inductive answer : Type :=
| ABalance (b : Balance)
| ANumber (n : NumberActivation)
| AText (t : string)
| AStatus (s : ActivationStatus)
| ACode (c : option string)
| APrices (l : list CountryPrices).

Definition fmap {A B} (f : A -> B) (m : IO A) : IO B :=
  do a <- m; ret (f a).

(** Whether the class of a client has the method. *)
Definition has_method (c : client_class) (op : operation) : bool :=
  match op with
  | GetPricesV2 _ _ | GetPricesV3 _ _ =>
      match c with SMSBowerClient => true | _ => false end
  | _ => true
  end.

Section Dispatch.

Variable json_loads : string -> res json.

(** Method resolution: the subclass's override when there is one. *)
Definition get_prices (self : client) (service : option string)
    (country : option Z) (free_price : bool) : IO (list CountryPrices) :=
  match cls self with
  | HeroSMSClient => HeroSMSClient.get_prices json_loads self service country free_price
  | SMSBowerClient => SMSBowerClient.get_prices json_loads self service country free_price
  | _ => ClientBase.get_prices json_loads self service country free_price
  end.

Definition perform (self : client) (op : operation) : IO answer :=
  if has_method (cls self) op then
    match op with
    | GetBalance => fmap ABalance (ClientBase.get_balance self)
    | GetNumber s c o => fmap ANumber (ClientBase.get_number self s c o)
    | SetStatus i st => fmap AText (ClientBase.set_status self i st)
    | ActiveStatus i => fmap AText (ClientBase.active_status self i)
    | ReactivationNumber i => fmap ANumber (ClientBase.reactivation_number self i)
    | GetStatus i => fmap AStatus (ClientBase.get_status self i)
    | GetSms i => fmap ACode (ClientBase.get_sms self i)
    | GetNewSms i t n => fmap ACode (ClientBase.get_new_sms self i t n)
    | GetPrices s c f => fmap APrices (get_prices self s c f)
    | GetTopCountriesByService s f =>
        fmap APrices (ClientBase.get_top_countries_by_service json_loads self s f)
    | GetPricesV2 s c => fmap APrices (SMSBowerClient.get_prices_v2 json_loads self s c)
    | GetPricesV3 s c => fmap APrices (SMSBowerClient.get_prices_v3 json_loads self s c)
    end
  else raise AttributeError.

End Dispatch.

(* ================================================================= *)
(** * Concrete scenarios *)

Module Scenario.

(** The client of the test suite: [PyHub.get_client(provider="smshub",
    api_key="test_key")]. *)
Definition hub : client :=
  ClientBase_init SMSHubClient "test_key" (PyHub.default_base_url SMSHubClient) None 30.

(** The SMSBower client of the test suite. *)
Definition bower : client :=
  ClientBase_init SMSBowerClient "test_key" (PyHub.default_base_url SMSBowerClient) None 30.

(** A vendor that answers every request with the same text. *)
Definition always (text : string) : transport := fun _ _ => HttpBody text.

(** A vendor that answers the first request with [first] and every later
    request with [later]. *)
Definition first_then (first later : string) : transport :=
  fun log _ =>
    match log with
    | [] => HttpBody first
    | _ => HttpBody later
    end.

(** The payload of the SMSBower v2 test: two prices for one service. *)
Definition v2_payload : json :=
  JDict [("0", JDict [("tg", JDict [("10.5", JInt 100); ("15.0", JInt 50)])])].

(** Two price strings that denote the same price. *)
Definition same_price_payload : json :=
  JDict [("0", JDict [("tg", JDict [("10.5", JInt 100); ("10.50", JInt 50)])])].

(** A price string that [float] reads as NaN. *)
Definition nan_payload : json :=
  JDict [("0", JDict [("tg", JDict [("nan", JInt 1)])])].

(** NaN followed by a number. *)
Definition nan_first_payload : json :=
  JDict [("0", JDict [("tg", JDict [("nan", JInt 1); ("1.0", JInt 1)])])].

(** [json.loads] on the one text of a scenario, whose value is [data]. *)
Definition decodes_to (data : json) : string -> res json := fun _ => Return data.

End Scenario.

(* ================================================================= *)
(** * Facts about strings *)

Module PyStrFacts.
Import PyStr.

Lemma startswith_app (p t : string) : startswith p (p ++ t) = true.
Proof.
  induction p as [|a p IH]; simpl; [reflexivity|].
  now rewrite Ascii.eqb_refl.
Qed.

Lemma startswith_inv (p s : string) :
  startswith p s = true -> exists t, s = p ++ t.
Proof.
  revert s; induction p as [|a p IH]; intros s H.
  - now exists s.
  - destruct s as [|b s]; simpl in H; [discriminate|].
    apply andb_true_iff in H as [Hab Hps].
    apply Ascii.eqb_eq in Hab; subst b.
    destruct (IH _ Hps) as [t ->]. now exists t.
Qed.

Lemma contains_intro (a p b : string) : contains p (a ++ p ++ b) = true.
Proof.
  induction a as [|c a IH]; simpl.
  - destruct (p ++ b) eqn:E; simpl.
    + rewrite <- E, startswith_app. reflexivity.
    + rewrite <- E, startswith_app. reflexivity.
  - rewrite IH. apply orb_true_r.
Qed.

Lemma contains_inv (p s : string) :
  contains p s = true -> exists a b, s = a ++ p ++ b.
Proof.
  induction s as [|c s IH]; simpl; intros H.
  - rewrite orb_false_r in H. apply startswith_inv in H as [t ->].
    now exists EmptyString, t.
  - apply orb_true_iff in H as [H|H].
    + apply startswith_inv in H as [t ->]. now exists EmptyString, t.
    + destruct (IH H) as (a & b & ->). now exists (String c a), b.
Qed.

Lemma contains_app_r (p a b : string) :
  contains p b = true -> contains p (a ++ b) = true.
Proof.
  intros H. apply contains_inv in H as (x & y & ->).
  replace (a ++ x ++ p ++ y) with ((a ++ x) ++ p ++ y).
  - apply contains_intro.
  - induction a; simpl; congruence.
Qed.

Lemma has_char_app (c : ascii) (a b : string) :
  has_char c (a ++ b) = has_char c a || has_char c b.
Proof.
  induction a as [|x a IH]; simpl; [reflexivity|].
  now rewrite IH, orb_assoc.
Qed.

Lemma split_plain (sep : ascii) (s : string) :
  has_char sep s = false -> split sep s = [s].
Proof.
  induction s as [|a s IH]; simpl; intros H; [reflexivity|].
  apply orb_false_iff in H as [Ha Hs].
  now rewrite Ha, (IH Hs).
Qed.

Lemma split_field (sep : ascii) (a b : string) :
  has_char sep a = false -> split sep (a ++ String sep b) = a :: split sep b.
Proof.
  induction a as [|x a IH]; simpl; intros H.
  - now rewrite Ascii.eqb_refl.
  - apply orb_false_iff in H as [Hx Ha].
    now rewrite Hx, (IH Ha).
Qed.

Lemma split1_field (sep : ascii) (a b : string) :
  has_char sep a = false -> split1 sep (a ++ String sep b) = Some (a, b).
Proof.
  induction a as [|x a IH]; simpl; intros H.
  - now rewrite Ascii.eqb_refl.
  - apply orb_false_iff in H as [Hx Ha].
    now rewrite Hx, (IH Ha).
Qed.

Lemma split1_plain (sep : ascii) (s : string) :
  has_char sep s = false -> split1 sep s = None.
Proof.
  induction s as [|a s IH]; simpl; intros H; [reflexivity|].
  apply orb_false_iff in H as [Ha Hs].
  now rewrite Ha, (IH Hs).
Qed.

Lemma app_assoc (a b c : string) : (a ++ b) ++ c = a ++ b ++ c.
Proof. induction a; simpl; congruence. Qed.

Lemma app_nil_r (a : string) : a ++ "" = a.
Proof. induction a; simpl; congruence. Qed.

End PyStrFacts.

(* ================================================================= *)
(** * Facts about the transport *)

Section RequestFacts.
Variables (self : client) (net : transport).

Lemma request_run (action : string) (params : dict pval) (log : list request) :
  ClientBase._request self action params net log =
  (ClientBase.read_reply (net log (ClientBase.query self action params)),
   (log ++ [ClientBase.query self action params])%list).
Proof.
  unfold ClientBase._request, bind, http_get, lift. reflexivity.
Qed.

End RequestFacts.

(** Case analysis on the condition of a conditional in the goal. *)
Ltac case_if :=
  match goal with
  | |- context [if ?b then _ else _] => destruct b
  end.

(** A method that makes one request and reads the response. *)
Lemma single_request_run {A : Type} (self : client) (action : string)
    (params : dict pval) (f : string -> IO A) (net : transport) :
  run (do response <- ClientBase._request self action params; f response) net =
  match ClientBase.read_reply (net [] (ClientBase.query self action params)) with
  | Return response => f response net [ClientBase.query self action params]
  | Raise e => (Raise e, [ClientBase.query self action params])
  end.
Proof.
  unfold run, bind. rewrite request_run. simpl.
  destruct (ClientBase.read_reply _); reflexivity.
Qed.

(* ================================================================= *)
(** * Number activation *)

(** [get_number] is its one request followed by the reading of the
    response. *)
Lemma get_number_run (self : client) (service : string) (country : option Z)
    (operator : option string) (net : transport) :
  run (ClientBase.get_number self service country operator) net
  = (let! response :=
       ClientBase.read_reply
         (net [] (ClientBase.query self "getNumber"
                    (ClientBase.get_number_params service country operator))) in
     ClientBase.parse_number service response,
     [ClientBase.query self "getNumber"
        (ClientBase.get_number_params service country operator)]).
Proof.
  unfold ClientBase.get_number. rewrite single_request_run.
  destruct (ClientBase.read_reply _); reflexivity.
Qed.

Lemma get_number_outcome (self : client) (service : string) (country : option Z)
    (operator : option string) (net : transport) (response : string) :
  ClientBase.read_reply
    (net [] (ClientBase.query self "getNumber"
               (ClientBase.get_number_params service country operator)))
  = Return response ->
  outcome (ClientBase.get_number self service country operator) net
  = ClientBase.parse_number service response.
Proof.
  intros H. unfold outcome. rewrite get_number_run, H. reflexivity.
Qed.

(** Reading a response with the prefix: the second and third fields. *)
Lemma parse_number_fields (service head id tail : string) :
  PyStr.startswith "ACCESS_NUMBER" head = true ->
  PyStr.has_char ":" head = false ->
  PyStr.has_char ":" id = false ->
  ClientBase.parse_number service (head ++ ":" ++ id ++ ":" ++ tail)
  = (let! number := ClientBase.item (PyStr.split ":" tail) 0 in
     Return (mkNumberActivation id number service)).
Proof.
  intros Hpre Hhead Hid. unfold ClientBase.parse_number.
  change (head ++ ":" ++ id ++ ":" ++ tail)
    with (head ++ String ":" (id ++ String ":" tail)).
  assert (Hstart : PyStr.startswith "ACCESS_NUMBER"
                     (head ++ String ":" (id ++ String ":" tail)) = true).
  { apply PyStrFacts.startswith_inv in Hpre as (t & ->).
    rewrite PyStrFacts.app_assoc. apply PyStrFacts.startswith_app. }
  rewrite Hstart.
  rewrite !PyStrFacts.split_field by assumption.
  reflexivity.
Qed.

(** C4 (amended).  [get_number] sends one request, and an error of that
    request is its outcome.  When the response is
    [ACCESS_NUMBER:<id>:<phone>], with no colon inside [id] or [phone], it
    returns the activation [(id, phone)] of the service asked for; when the
    response does not start with the text [ACCESS_NUMBER] it raises the SDK's
    [ValueError] (the parse error) carrying the response.  A response whose
    first field only starts with [ACCESS_NUMBER] is not refused: it is read
    like a well-formed one. *)
Theorem get_number_reads_response (self : client) (service : string)
    (country : option Z) (operator : option string) (net : transport) :
  let q := ClientBase.query self "getNumber"
             (ClientBase.get_number_params service country operator) in
  calls (ClientBase.get_number self service country operator) net = [q]
  /\ (forall id phone : string,
        PyStr.has_char ":" id = false ->
        PyStr.has_char ":" phone = false ->
        ClientBase.read_reply (net [] q)
        = Return ("ACCESS_NUMBER:" ++ id ++ ":" ++ phone) ->
        outcome (ClientBase.get_number self service country operator) net
        = Return (mkNumberActivation id phone service))
  /\ (forall response : string,
        ClientBase.read_reply (net [] q) = Return response ->
        PyStr.startswith "ACCESS_NUMBER" response = false ->
        outcome (ClientBase.get_number self service country operator) net
        = Raise (ValueError ("Error getting number: " ++ response)))
  /\ (forall e : exn,
        ClientBase.read_reply (net [] q) = Raise e ->
        outcome (ClientBase.get_number self service country operator) net = Raise e)
  /\ (forall head id phone : string,
        PyStr.startswith "ACCESS_NUMBER" head = true ->
        PyStr.has_char ":" head = false ->
        PyStr.has_char ":" id = false ->
        PyStr.has_char ":" phone = false ->
        ClientBase.read_reply (net [] q) = Return (head ++ ":" ++ id ++ ":" ++ phone) ->
        outcome (ClientBase.get_number self service country operator) net
        = Return (mkNumberActivation id phone service)).
Proof.
  intros q. split; [|split; [|split; [|split]]]; cycle 4.
  - intros head id phone Hpre Hhead Hid Hphone Hreply.
    rewrite (get_number_outcome _ _ _ _ _ _ Hreply).
    rewrite parse_number_fields by assumption.
    now rewrite PyStrFacts.split_plain by assumption.
  - unfold calls. now rewrite get_number_run.
  - intros id phone Hid Hphone Hreply.
    rewrite (get_number_outcome _ _ _ _ _ _ Hreply).
    change ("ACCESS_NUMBER:" ++ id ++ ":" ++ phone)
      with ("ACCESS_NUMBER" ++ ":" ++ id ++ ":" ++ phone).
    rewrite (parse_number_fields service "ACCESS_NUMBER" id phone)
      by (reflexivity || assumption).
    now rewrite PyStrFacts.split_plain by assumption.
  - intros response Hreply Hpre.
    rewrite (get_number_outcome _ _ _ _ _ _ Hreply).
    unfold ClientBase.parse_number. now rewrite Hpre.
  - intros e Hreply. unfold outcome. rewrite get_number_run. fold q.
    now rewrite Hreply.
Qed.

(** The response of the test suite, and a refusal. *)
Lemma get_number_reads_response_witness :
  outcome (ClientBase.get_number Scenario.hub "tg" None None)
          (Scenario.always "ACCESS_NUMBER:12345:79991234567")
  = Return (mkNumberActivation "12345" "79991234567" "tg")
  /\ outcome (ClientBase.get_number Scenario.hub "tg" (Some 0) None)
             (Scenario.always "NO_NUMBERS")
     = Raise (ValueError "Error getting number: NO_NUMBERS").
Proof.
  split.
  - apply (proj1 (proj2 (get_number_reads_response Scenario.hub "tg" None None
                           (Scenario.always "ACCESS_NUMBER:12345:79991234567")))
             "12345" "79991234567"); reflexivity.
  - apply (proj1 (proj2 (proj2 (get_number_reads_response Scenario.hub "tg" (Some 0) None
                                  (Scenario.always "NO_NUMBERS"))))
             "NO_NUMBERS"); reflexivity.
Defined.

(** C4 (counterexample).  The first field of [ACCESS_NUMBERS:1:2] is
    [ACCESS_NUMBERS], a prefix other than [ACCESS_NUMBER]; the response
    starts with the text [ACCESS_NUMBER] all the same, so [get_number] does
    not refuse it and returns the activation [(1, 2)]. *)
Lemma longer_prefix_is_accepted :
  PyStr.split ":" "ACCESS_NUMBERS:1:2" = ["ACCESS_NUMBERS"; "1"; "2"]
  /\ String.eqb "ACCESS_NUMBERS" "ACCESS_NUMBER" = false
  /\ outcome (ClientBase.get_number Scenario.hub "tg" None None)
             (Scenario.always "ACCESS_NUMBERS:1:2")
     = Return (mkNumberActivation "1" "2" "tg").
Proof. repeat split; reflexivity. Qed.

(* ================================================================= *)
(** * The operator parameter of [get_number] *)

(** C9.  When a non-empty operator is passed to [get_number], the single
    request it sends carries the literal operator [any] whenever a country
    other than 73 is given, and the caller's operator when the country is 73
    or is omitted; so the caller's value goes out unchanged only in those two
    cases (or when it is itself [any]). *)
Theorem get_number_operator_sent (self : client) (service operator : string)
    (country : option Z) (net : transport) :
  PyStr.truthy operator = true ->
  exists q : dict pval,
    calls (ClientBase.get_number self service country (Some operator)) net
    = [mkRequest (base_url self) q]
    /\ dict_get q "action" = Some (PStr "getNumber")
    /\ (forall c, country = Some c -> c <> 73 ->
        dict_get q "operator" = Some (PStr "any"))
    /\ (country = Some 73 \/ country = None ->
        dict_get q "operator" = Some (PStr operator))
    /\ (dict_get q "operator" = Some (PStr operator) ->
        country = Some 73 \/ country = None \/ operator = "any").
Proof.
  intros Hop.
  exists (req_query (ClientBase.query self "getNumber"
                       (ClientBase.get_number_params service country (Some operator)))).
  split.
  - unfold calls, ClientBase.get_number. rewrite single_request_run.
    destruct (ClientBase.read_reply _); reflexivity.
  - unfold ClientBase.get_number_params. rewrite Hop.
    destruct country as [c|]; [destruct (Z.eqb_spec c 73) as [->|Hc]|]; cbn;
      (split; [reflexivity|split; [|split]]).
    + intros c H Hc. injection H as <-. contradiction.
    + reflexivity.
    + auto.
    + reflexivity.
    + intros [H|H]; congruence.
    + intros H. injection H as <-. auto.
    + intros c H. discriminate.
    + reflexivity.
    + auto.
Qed.

(** Operator [mts] with country 0: the request carries [any]. *)
Lemma get_number_operator_sent_witness :
  exists q : dict pval,
    calls (ClientBase.get_number
             (ClientBase_init SMSHubClient "test_key" "https://smshub.org/stubs/handler_api.php" None 30)
             "tg" (Some 0) (Some "mts")) (fun _ _ => HttpBody "NO_NUMBERS")
    = [mkRequest "https://smshub.org/stubs/handler_api.php" q]
    /\ dict_get q "operator" = Some (PStr "any").
Proof.
  destruct (get_number_operator_sent
              (ClientBase_init SMSHubClient "test_key" "https://smshub.org/stubs/handler_api.php" None 30)
              "tg" "mts" (Some 0) (fun _ _ => HttpBody "NO_NUMBERS") eq_refl)
    as (q & Hcalls & _ & Hany & _).
  exists q. split; [exact Hcalls|].
  apply (Hany 0); [reflexivity|lia].
Defined.

(* ================================================================= *)
(** * Reading the SMS code *)

(** C10.  [get_sms] sends exactly one request, the [getStatus] query for the
    activation, and never a second one.  On a response it returns the code
    when the status read from it is exactly [STATUS_OK], and [None] for any
    other status; the status is the text before the first colon, the code
    the text after it. *)
Theorem get_sms_single_check (self : client) (activation_id : string)
    (net : transport) :
  let q := ClientBase.query self "getStatus" [("id", PStr activation_id)] in
  calls (ClientBase.get_sms self activation_id) net = [q]
  /\ outcome (ClientBase.get_sms self activation_id) net
     = (let! response := ClientBase.read_reply (net [] q) in
        let st := ClientBase.parse_status response in
        Return (if String.eqb (status st) "STATUS_OK" then code st else None))
  /\ (forall st sms : string,
        PyStr.has_char ":" st = false ->
        ClientBase.parse_status (st ++ ":" ++ sms) = mkActivationStatus st (Some sms))
  /\ (forall response : string,
        PyStr.has_char ":" response = false ->
        ClientBase.parse_status response = mkActivationStatus response None).
Proof.
  intros q. unfold calls, outcome, ClientBase.get_sms, ClientBase.get_status.
  assert (Hrun : forall k : ActivationStatus -> IO (option string),
             run (do st <- (do response <- ClientBase._request self "getStatus"
                                             [("id", PStr activation_id)];
                            ret (ClientBase.parse_status response)); k st) net
             = match ClientBase.read_reply (net [] q) with
               | Return response => k (ClientBase.parse_status response) net [q]
               | Raise e => (Raise e, [q])
               end).
  { intros k. unfold run, bind at 1 2. rewrite request_run. simpl. fold q.
    destruct (ClientBase.read_reply _); reflexivity. }
  rewrite Hrun. repeat split.
  - destruct (ClientBase.read_reply _) as [response|e]; [|reflexivity].
    destruct (String.eqb _ _); [reflexivity|].
    case_if; reflexivity.
  - destruct (ClientBase.read_reply _) as [response|e]; [|reflexivity].
    simpl. destruct (String.eqb _ _); [reflexivity|].
    case_if; reflexivity.
  - intros st sms Hst. unfold ClientBase.parse_status.
    change (st ++ ":" ++ sms) with (st ++ String ":" sms).
    rewrite PyStrFacts.split1_field by assumption.
    rewrite PyStrFacts.has_char_app. simpl. rewrite orb_true_r. reflexivity.
  - intros response H. unfold ClientBase.parse_status. now rewrite H.
Qed.

(** A delivered code and a pending activation. *)
Lemma get_sms_single_check_witness :
  ClientBase.parse_status "STATUS_OK:123456" = mkActivationStatus "STATUS_OK" (Some "123456")
  /\ ClientBase.parse_status "STATUS_WAIT_CODE" = mkActivationStatus "STATUS_WAIT_CODE" None.
Proof.
  pose proof (get_sms_single_check
                (ClientBase_init SMSHubClient "k" "u" None 30) "1" (fun _ _ => HttpFailure))
    as (_ & _ & Hcolon & Hplain).
  split.
  - apply (Hcolon "STATUS_OK" "123456"). reflexivity.
  - apply Hplain. reflexivity.
Defined.

(* ================================================================= *)
(** * Requesting another SMS *)

(** C1 (what the code does).  [get_new_sms] sends the [setStatus] request
    with status 3 and nothing else: the call [self.get_sms(activation_id,
    timeout=..., interval=...)] that follows names two parameters [get_sms]
    does not have, so it raises [TypeError] before any status query is made,
    and [get_new_sms] never returns a code. *)
Theorem get_new_sms_stops_after_resend (self : client) (activation_id : string)
    (timeout interval : Z) (net : transport) :
  let q := ClientBase.query self "setStatus"
             [("id", PStr activation_id); ("status", PInt 3)] in
  calls (ClientBase.get_new_sms self activation_id timeout interval) net = [q]
  /\ outcome (ClientBase.get_new_sms self activation_id timeout interval) net
     = (let! _ := ClientBase.read_reply (net [] q) in Raise TypeError).
Proof.
  intros q. unfold calls, outcome, ClientBase.get_new_sms, ClientBase.set_status.
  rewrite single_request_run. fold q.
  destruct (ClientBase.read_reply _); split; reflexivity.
Qed.

(* ================================================================= *)
(** * Reactivation *)

(** C2 (amended).  When the vendor answers the [getExtraActivation] request
    with [ACCESS_NUMBER:<id>:<phone>] (no colon inside [id] or [phone], no
    error token in the text), [reactivation_number] sends exactly two
    requests, [getExtraActivation] and then [setStatus] with status 1 for the
    new id; it returns the activation [(id, phone)] when that second request
    succeeds too, and raises the second request's error otherwise. *)
Theorem reactivation_two_calls (self : client) (activation_id id phone : string)
    (net : transport) :
  let q1 := ClientBase.query self "getExtraActivation"
              [("activationId", PStr activation_id)] in
  let q2 := ClientBase.query self "setStatus" [("id", PStr id); ("status", PInt 1)] in
  PyStr.has_char ":" id = false ->
  PyStr.has_char ":" phone = false ->
  ClientBase.read_reply (net [] q1) = Return ("ACCESS_NUMBER:" ++ id ++ ":" ++ phone) ->
  calls (ClientBase.reactivation_number self activation_id) net = [q1; q2]
  /\ outcome (ClientBase.reactivation_number self activation_id) net
     = (let! _ := ClientBase.read_reply (net [q1] q2) in
        Return (mkNumberActivation id phone "reactivation")).
Proof.
  intros q1 q2 Hid Hphone Hreply.
  unfold calls, outcome, ClientBase.reactivation_number.
  rewrite single_request_run. fold q1. rewrite Hreply.
  change ("ACCESS_NUMBER:" ++ id ++ ":" ++ phone)
    with ("ACCESS_NUMBER" ++ String ":" (id ++ String ":" phone)).
  rewrite PyStrFacts.startswith_app.
  rewrite PyStrFacts.split_field by reflexivity.
  rewrite PyStrFacts.split_field by assumption.
  rewrite PyStrFacts.split_plain by assumption.
  unfold bind, lift, ClientBase.item, ClientBase.active_status, ClientBase.set_status.
  simpl nth_error. cbv iota beta.
  rewrite request_run. fold q2. simpl.
  destruct (ClientBase.read_reply (net [q1] q2)); split; reflexivity.
Qed.

(** The reactivation of the test suite: two requests, then the activation. *)
Lemma reactivation_two_calls_witness :
  calls (ClientBase.reactivation_number Scenario.hub "12345")
        (Scenario.always "ACCESS_NUMBER:67890:79990000000")
  = [ClientBase.query Scenario.hub "getExtraActivation" [("activationId", PStr "12345")];
     ClientBase.query Scenario.hub "setStatus" [("id", PStr "67890"); ("status", PInt 1)]]
  /\ outcome (ClientBase.reactivation_number Scenario.hub "12345")
             (Scenario.always "ACCESS_NUMBER:67890:79990000000")
     = Return (mkNumberActivation "67890" "79990000000" "reactivation").
Proof.
  apply (reactivation_two_calls Scenario.hub "12345" "67890" "79990000000"
           (Scenario.always "ACCESS_NUMBER:67890:79990000000"));
    reflexivity.
Defined.

(** C2 (counterexample).  The vendor answers [getExtraActivation] with a
    well-formed [ACCESS_NUMBER:67890:79990000000] and the [setStatus] request
    that follows with [ERROR_SQL]: both requests are sent, and
    [reactivation_number] raises instead of returning the activation. *)
Lemma reactivation_lost_on_status_error :
  ClientBase.read_reply
    (Scenario.first_then "ACCESS_NUMBER:67890:79990000000" "ERROR_SQL" []
       (ClientBase.query Scenario.hub "getExtraActivation" [("activationId", PStr "12345")]))
  = Return "ACCESS_NUMBER:67890:79990000000"
  /\ run (ClientBase.reactivation_number Scenario.hub "12345")
         (Scenario.first_then "ACCESS_NUMBER:67890:79990000000" "ERROR_SQL")
     = (Raise (ValueError "API Error: ERROR_SQL"),
        [ClientBase.query Scenario.hub "getExtraActivation" [("activationId", PStr "12345")];
         ClientBase.query Scenario.hub "setStatus" [("id", PStr "67890"); ("status", PInt 1)]]).
Proof. split; reflexivity. Qed.

(* ================================================================= *)
(** * Vendor error tokens *)

(** A text that carries one of the vendor's error tokens. *)
Definition has_error_token (text : string) : Prop :=
  exists tok pre post, In tok ClientBase.errors /\ text = pre ++ tok ++ post.

Lemma check_errors_raises (errs : list string) (text tok pre post : string) :
  In tok errs -> text = pre ++ tok ++ post ->
  ClientBase.check_errors errs text = Raise (ValueError ("API Error: " ++ text)).
Proof.
  intros Hin ->. induction errs as [|err errs IH]; [contradiction|].
  simpl. destruct (PyStr.contains err _) eqn:E; [reflexivity|].
  destruct Hin as [->|Hin]; [|auto].
  now rewrite PyStrFacts.contains_intro in E.
Qed.

Lemma read_reply_error (text : string) :
  has_error_token text ->
  ClientBase.read_reply (HttpBody text) = Raise (ValueError ("API Error: " ++ text)).
Proof.
  intros (tok & pre & post & Hin & E). unfold ClientBase.read_reply.
  now rewrite (check_errors_raises _ _ _ _ _ Hin E).
Qed.

(** A method is transparent to vendor errors when it only ever extends the
    log and, whichever of its requests is answered with a text carrying an
    error token, ends by raising the error with that text. *)
Definition transparent {A : Type} (m : IO A) : Prop :=
  forall (net : transport) (log : list request),
  exists rs : list request,
    snd (m net log) = (log ++ rs)%list
    /\ forall (i : nat) (r : request) (text : string),
        nth_error rs i = Some r ->
        net (log ++ firstn i rs)%list r = HttpBody text ->
        has_error_token text ->
        fst (m net log) = Raise (ValueError ("API Error: " ++ text)).

(** A method that sends a request before anything else. *)
Definition starts_with_request {A : Type} (m : IO A) : Prop :=
  forall (net : transport) (log : list request),
  exists (r : request) (rs : list request), snd (m net log) = (log ++ r :: rs)%list.

Section Transparency.
Context {A B : Type}.

Lemma transparent_pure (x : res A) : transparent (lift x).
Proof.
  intros net log. exists []. split; [now rewrite app_nil_r|].
  intros [|i] r text H; discriminate.
Qed.

Lemma transparent_ret (a : A) : transparent (ret a).
Proof. exact (transparent_pure (Return a)). Qed.

Lemma transparent_raise (e : exn) : transparent (@raise A e).
Proof. exact (transparent_pure (Raise e)). Qed.

Lemma transparent_bind (m : IO A) (k : A -> IO B) :
  transparent m -> (forall a, transparent (k a)) -> transparent (bind m k).
Proof.
  intros Hm Hk net log. unfold bind.
  destruct (Hm net log) as (rs1 & Hlog1 & Herr1).
  destruct (m net log) as [[a|e] log1] eqn:Em; simpl in *; subst log1.
  - destruct (Hk a net (log ++ rs1)%list) as (rs2 & Hlog2 & Herr2).
    exists (rs1 ++ rs2)%list. split; [now rewrite Hlog2, <- List.app_assoc|].
    intros i r text Hnth Hnet Htok.
    destruct (Nat.lt_ge_cases i (List.length rs1)) as [Hlt|Hge].
    + rewrite nth_error_app1 in Hnth by assumption.
      rewrite firstn_app in Hnet.
      replace (i - List.length rs1)%nat with 0%nat in Hnet by lia.
      simpl in Hnet. rewrite app_nil_r in Hnet.
      specialize (Herr1 i r text Hnth Hnet Htok). discriminate.
    + rewrite nth_error_app2 in Hnth by assumption.
      rewrite firstn_app, firstn_all2, List.app_assoc in Hnet by assumption.
      exact (Herr2 _ r text Hnth Hnet Htok).
  - exists rs1. split; [reflexivity|].
    intros i r text Hnth Hnet Htok.
    specialize (Herr1 i r text Hnth Hnet Htok). congruence.
Qed.

Lemma starts_bind (m : IO A) (k : A -> IO B) :
  starts_with_request m -> (forall a, transparent (k a)) ->
  starts_with_request (bind m k).
Proof.
  intros Hm Hk net log. unfold bind.
  destruct (Hm net log) as (r & rs1 & Hlog1).
  destruct (m net log) as [[a|e] log1]; simpl in *; subst log1.
  - destruct (Hk a net (log ++ r :: rs1)%list) as (rs2 & Hlog2 & _).
    exists r, (rs1 ++ rs2)%list. rewrite Hlog2, <- List.app_assoc. reflexivity.
  - now exists r, rs1.
Qed.

End Transparency.

Lemma transparent_request (self : client) (action : string) (params : dict pval) :
  transparent (ClientBase._request self action params).
Proof.
  intros net log. rewrite request_run. simpl.
  exists [ClientBase.query self action params]. split; [reflexivity|].
  intros [|[|i]] r text Hnth Hnet Htok; try discriminate.
  injection Hnth as <-. simpl in Hnet. rewrite app_nil_r in Hnet.
  rewrite Hnet. now apply read_reply_error.
Qed.

Lemma starts_request (self : client) (action : string) (params : dict pval) :
  starts_with_request (ClientBase._request self action params).
Proof.
  intros net log. rewrite request_run. simpl.
  now exists (ClientBase.query self action params), [].
Qed.

(** Methods are built from requests with [bind], conditionals and pure
    steps. *)
Ltac transparency :=
  repeat first
    [ apply transparent_request
    | apply transparent_ret
    | apply transparent_raise
    | apply transparent_pure
    | apply transparent_bind; [|intros ?]
    | match goal with
      | |- transparent (match ?x with _ => _ end) => destruct x
      end ].

Ltac starting :=
  first [ apply starts_request
        | apply starts_bind; [starting | intros ?; transparency] ].

Section Operations.
Variable json_loads : string -> res json.

Lemma perform_transparent (self : client) (op : operation) :
  transparent (perform json_loads self op).
Proof.
  unfold perform. destruct (has_method (cls self) op); [|apply transparent_raise].
  destruct op; unfold fmap, get_prices;
    unfold ClientBase.get_balance, ClientBase.get_number, ClientBase.active_status,
      ClientBase.set_status, ClientBase.reactivation_number, ClientBase.get_status,
      ClientBase.get_sms, ClientBase.get_new_sms, ClientBase.call_get_sms,
      ClientBase.get_sms, ClientBase.get_status,
      HeroSMSClient.get_prices, SMSBowerClient.get_prices,
      SMSBowerClient.get_prices_v2, SMSBowerClient.get_prices_v3,
      ClientBase.get_prices, ClientBase.get_top_countries_by_service;
    transparency.
Qed.

Lemma perform_starts (self : client) (op : operation) :
  has_method (cls self) op = true ->
  starts_with_request (perform json_loads self op).
Proof.
  unfold perform. intros ->.
  destruct op; unfold fmap, get_prices;
    unfold ClientBase.get_balance, ClientBase.get_number, ClientBase.active_status,
      ClientBase.set_status, ClientBase.reactivation_number, ClientBase.get_status,
      ClientBase.get_sms, ClientBase.get_new_sms, ClientBase.call_get_sms,
      ClientBase.get_sms, ClientBase.get_status,
      HeroSMSClient.get_prices, SMSBowerClient.get_prices,
      SMSBowerClient.get_prices_v2, SMSBowerClient.get_prices_v3,
      ClientBase.get_prices, ClientBase.get_top_countries_by_service;
    try (destruct (cls self)); starting.
Qed.

(** C3.  Whatever the operation and its arguments, if the text answering any
    request it sends contains one of the six error tokens anywhere, the
    operation ends by raising the SDK's [ValueError] whose message is
    [API Error: ] followed by that raw text; and every operation the client
    has starts by sending a request. *)
Theorem vendor_error_fails_every_operation (self : client) (op : operation)
    (net : transport) :
  (has_method (cls self) op = true -> calls (perform json_loads self op) net <> [])
  /\ forall (i : nat) (r : request) (tok pre post : string),
      nth_error (calls (perform json_loads self op) net) i = Some r ->
      In tok ClientBase.errors ->
      net (firstn i (calls (perform json_loads self op) net)) r
      = HttpBody (pre ++ tok ++ post) ->
      outcome (perform json_loads self op) net
      = Raise (ValueError ("API Error: " ++ pre ++ tok ++ post)).
Proof.
  split.
  - intros Hm. destruct (perform_starts self op Hm net []) as (r & rs & E).
    unfold calls, run. rewrite E. discriminate.
  - intros i r tok pre post Hnth Hin Hnet.
    destruct (perform_transparent self op net []) as (rs & E & Herr).
    unfold calls, outcome, run in *. rewrite E in Hnth, Hnet. simpl in *.
    apply (Herr i r _ Hnth Hnet). now exists tok, pre, post.
Qed.

End Operations.

(** The error test of the test suite: [get_balance] answered with
    [BAD_KEY]. *)
Lemma vendor_error_fails_every_operation_witness :
  calls (perform (fun _ => Raise JSONDecodeError) Scenario.hub GetBalance)
        (Scenario.always "BAD_KEY") <> []
  /\ outcome (perform (fun _ => Raise JSONDecodeError) Scenario.hub GetBalance)
             (Scenario.always "BAD_KEY")
     = Raise (ValueError "API Error: BAD_KEY").
Proof.
  pose proof (vendor_error_fails_every_operation (fun _ => Raise JSONDecodeError)
                Scenario.hub GetBalance (Scenario.always "BAD_KEY")) as [Hcall Herr].
  split.
  - apply Hcall. reflexivity.
  - apply (Herr 0%nat (ClientBase.query Scenario.hub "getBalance" []) "BAD_KEY" "" "").
    + reflexivity.
    + simpl. auto.
    + reflexivity.
Defined.

(* ================================================================= *)
(** * Reading decimal numerals *)

Module LiteralFacts.
Import PyStr PyLiteral.

(** What being a digit excludes. *)
Lemma digit_plain (c : ascii) :
  is_digit c = true ->
  is_space c = false /\ Ascii.eqb c "_" = false /\ Ascii.eqb c "-" = false
  /\ Ascii.eqb c "+" = false /\ Ascii.eqb c "." = false
  /\ Ascii.eqb (lower_char c) "i" = false /\ Ascii.eqb (lower_char c) "n" = false.
Proof.
  destruct c as [[] [] [] [] [] [] [] []]; intros H; try discriminate H;
    repeat split; reflexivity.
Qed.

(** No whitespace and no underscore: digits and the point. *)
Fixpoint plain (s : string) : bool :=
  match s with
  | EmptyString => true
  | String c s' => (negb (is_space c) && negb (Ascii.eqb c "_") && plain s')%bool
  end.

Lemma all_digits_plain (s : string) : all_digits s = true -> plain s = true.
Proof.
  induction s as [|c s IH]; simpl; [reflexivity|].
  intros H. apply andb_true_iff in H as [Hc Hs].
  destruct (digit_plain c Hc) as (-> & -> & _). simpl. auto.
Qed.

Lemma plain_app (a b : string) : plain (a ++ b) = (plain a && plain b)%bool.
Proof.
  induction a as [|c a IH]; simpl; [reflexivity|].
  now rewrite IH, !andb_assoc.
Qed.

Lemma strip_plain (s : string) : plain s = true -> strip s = s.
Proof.
  intros H. unfold strip.
  assert (Hr : rstrip_by is_space s = s).
  { induction s as [|c s IH]; simpl in *; [reflexivity|].
    apply andb_true_iff in H as [Hc Hs]. apply andb_true_iff in Hc as [Hc _].
    rewrite (IH Hs). destruct s; [|reflexivity].
    now destruct (is_space c). }
  rewrite Hr. destruct s as [|c s]; simpl in *; [reflexivity|].
  apply andb_true_iff in H as [Hc _]. apply andb_true_iff in Hc as [Hc _].
  now destruct (is_space c).
Qed.

Lemma drop_underscores_plain (s : string) (b : bool) :
  plain s = true -> drop_underscores b s = Some s.
Proof.
  revert b; induction s as [|c s IH]; intros b H; simpl in *; [reflexivity|].
  apply andb_true_iff in H as [Hc Hs]. apply andb_true_iff in Hc as [_ Hc].
  destruct (Ascii.eqb c "_"); [discriminate|].
  now rewrite (IH _ Hs).
Qed.

Lemma span_digits_all (ds rest : string) :
  all_digits ds = true -> next_is_digit rest = false ->
  span_digits (ds ++ rest) = (ds, rest).
Proof.
  intros Hds Hrest. induction ds as [|c ds IH]; simpl in *.
  - destruct rest as [|r rest]; [reflexivity|].
    simpl in *. now rewrite Hrest.
  - apply andb_true_iff in Hds as [Hc Hds]. now rewrite Hc, (IH Hds).
Qed.

(** A numeral [ip.fp] made of digits, with at least one before the point,
    is read as the decimal whose digits are [ip] followed by [fp], scaled by
    the number of digits after the point. *)
Lemma float_of_decimal_numeral (ip fp : string) :
  all_digits ip = true -> all_digits fp = true -> ip <> "" ->
  float_of_str (ip ++ "." ++ fp)
  = Return (PyFloat.of_decimal false (digits_value 0 (ip ++ fp))
              (- Z.of_nat (String.length fp))).
Proof.
  intros Hip Hfp Hne. unfold float_of_str.
  assert (Hplain : plain (ip ++ "." ++ fp) = true).
  { rewrite plain_app, (all_digits_plain _ Hip). simpl.
    now rewrite (all_digits_plain _ Hfp). }
  rewrite (strip_plain _ Hplain), (drop_underscores_plain _ _ Hplain).
  destruct ip as [|c ip]; [contradiction|].
  simpl in Hip. apply andb_true_iff in Hip as [Hc Hip].
  destruct (digit_plain c Hc) as (_ & _ & Hminus & Hplus & _ & Hi & Hn).
  cbn [read_sign append]. rewrite Hminus, Hplus.
  cbn [lower]. unfold String.eqb at 1 2 3; fold String.eqb.
  rewrite Hi, Hn. cbn [orb].
  assert (Hs1 : span_digits (String c (ip ++ String "." fp))
                = (String c ip, String "." fp)).
  { apply (span_digits_all (String c ip) (String "." fp)); [|reflexivity].
    simpl. now rewrite Hc, Hip. }
  assert (Hs2 : span_digits fp = (fp, "")).
  { pose proof (span_digits_all fp "" Hfp eq_refl) as H.
    now rewrite PyStrFacts.app_nil_r in H. }
  rewrite Hs1. rewrite Ascii.eqb_refl, Hs2.
  cbn [truthy orb read_exponent append]. reflexivity.
Qed.

End LiteralFacts.

(* ================================================================= *)
(** * Balance *)

(** [get_balance] is its one request followed by the reading of the
    response. *)
Lemma get_balance_run (self : client) (net : transport) :
  run (ClientBase.get_balance self) net
  = (let! response :=
       ClientBase.read_reply (net [] (ClientBase.query self "getBalance" [])) in
     ClientBase.parse_balance response,
     [ClientBase.query self "getBalance" []]).
Proof.
  unfold ClientBase.get_balance. rewrite single_request_run.
  destruct (ClientBase.read_reply _); reflexivity.
Qed.

Lemma get_balance_outcome (self : client) (net : transport) (response : string) :
  ClientBase.read_reply (net [] (ClientBase.query self "getBalance" []))
  = Return response ->
  outcome (ClientBase.get_balance self) net = ClientBase.parse_balance response.
Proof.
  intros H. unfold outcome. rewrite get_balance_run, H. reflexivity.
Qed.

(** The field read from a response with a colon: the text between the
    first colon and the next one, or the end. *)
Lemma parse_balance_field (head tail : string) :
  PyStr.has_char ":" head = false ->
  ClientBase.parse_balance (head ++ ":" ++ tail)
  = (let! field := ClientBase.item (PyStr.split ":" tail) 0 in
     let! a := PyLiteral.float_of_str field in
     Return (Balance_of a)).
Proof.
  intros Hhead. unfold ClientBase.parse_balance.
  change (head ++ ":" ++ tail) with (head ++ String ":" tail).
  rewrite PyStrFacts.has_char_app. simpl PyStr.has_char at 2.
  rewrite orb_true_r.
  rewrite PyStrFacts.split_field by assumption.
  reflexivity.
Qed.

Lemma digits_no_colon (s : string) :
  PyLiteral.all_digits s = true -> PyStr.has_char ":" s = false.
Proof.
  induction s as [|c s IH]; simpl; [reflexivity|]. intros H.
  apply andb_true_iff in H as [Hc Hs]. rewrite (IH Hs), orb_false_r.
  destruct c as [[] [] [] [] [] [] [] []]; try discriminate Hc; reflexivity.
Qed.

(** C5 (amended).  [get_balance] sends one request, and an error of that
    request is its outcome.  The amount it returns for the response
    [ACCESS_BALANCE:<x>] is [float(x)]: for a decimal numeral [x] the
    binary64 nearest to it, which equals [x] only when [x] is representable
    in binary.  It fails with the SDK's [ValueError] when the response has no
    colon, and with the [ValueError] of [float] when the field between the
    first colon and the next one (or the end) is not a numeral; what follows
    a second colon is ignored. *)
Theorem get_balance_reads_float (self : client) (net : transport) :
  let q := ClientBase.query self "getBalance" [] in
  calls (ClientBase.get_balance self) net = [q]
  /\ (forall x : string,
        PyStr.has_char ":" x = false ->
        ClientBase.read_reply (net [] q) = Return ("ACCESS_BALANCE:" ++ x) ->
        outcome (ClientBase.get_balance self) net
        = (let! a := PyLiteral.float_of_str x in Return (Balance_of a)))
  /\ (forall ip fp : string,
        PyLiteral.all_digits ip = true -> PyLiteral.all_digits fp = true ->
        ip <> "" ->
        ClientBase.read_reply (net [] q)
        = Return ("ACCESS_BALANCE:" ++ ip ++ "." ++ fp) ->
        outcome (ClientBase.get_balance self) net
        = Return (Balance_of (PyFloat.of_decimal false
                                (PyLiteral.digits_value 0 (ip ++ fp))
                                (- Z.of_nat (String.length fp)))))
  /\ (forall response : string,
        PyStr.has_char ":" response = false ->
        ClientBase.read_reply (net [] q) = Return response ->
        outcome (ClientBase.get_balance self) net
        = Raise (ValueError ("Unexpected balance response: " ++ response)))
  /\ (forall head field rest : string,
        PyStr.has_char ":" head = false ->
        PyStr.has_char ":" field = false ->
        ClientBase.read_reply (net [] q)
        = Return (head ++ ":" ++ field ++ ":" ++ rest) ->
        outcome (ClientBase.get_balance self) net
        = (let! a := PyLiteral.float_of_str field in Return (Balance_of a)))
  /\ (forall x : string,
        PyStr.has_char ":" x = false ->
        PyLiteral.float_of_str x = Raise LiteralError ->
        ClientBase.read_reply (net [] q) = Return ("ACCESS_BALANCE:" ++ x) ->
        outcome (ClientBase.get_balance self) net = Raise LiteralError)
  /\ (forall e : exn,
        ClientBase.read_reply (net [] q) = Raise e ->
        outcome (ClientBase.get_balance self) net = Raise e).
Proof.
  intros q.
  assert (Hfield : forall x : string,
             PyStr.has_char ":" x = false ->
             ClientBase.read_reply (net [] q) = Return ("ACCESS_BALANCE:" ++ x) ->
             outcome (ClientBase.get_balance self) net
             = (let! a := PyLiteral.float_of_str x in Return (Balance_of a))).
  { intros x Hx Hreply. rewrite (get_balance_outcome _ _ _ Hreply).
    change ("ACCESS_BALANCE:" ++ x) with ("ACCESS_BALANCE" ++ ":" ++ x).
    rewrite parse_balance_field by reflexivity.
    now rewrite PyStrFacts.split_plain by assumption. }
  split; [|split; [exact Hfield|split; [|split; [|split; [|split]]]]].
  - unfold calls. now rewrite get_balance_run.
  - intros ip fp Hip Hfp Hne Hreply.
    rewrite (Hfield (ip ++ "." ++ fp)); [|..|exact Hreply].
    + now rewrite LiteralFacts.float_of_decimal_numeral.
    + rewrite !PyStrFacts.has_char_app. simpl.
      now rewrite (digits_no_colon _ Hip), (digits_no_colon _ Hfp).
  - intros response Hplain Hreply. rewrite (get_balance_outcome _ _ _ Hreply).
    unfold ClientBase.parse_balance. now rewrite Hplain.
  - intros head field rest Hhead Hf Hreply.
    rewrite (get_balance_outcome _ _ _ Hreply).
    rewrite parse_balance_field by assumption.
    change (field ++ ":" ++ rest) with (field ++ String ":" rest).
    now rewrite PyStrFacts.split_field by assumption.
  - intros x Hx Hfloat Hreply. rewrite (Hfield x Hx Hreply), Hfloat. reflexivity.
  - intros e Hreply. unfold outcome. rewrite get_balance_run. fold q.
    now rewrite Hreply.
Qed.

(** The balance of the test suite, which is representable, and a response
    without colon. *)
Lemma get_balance_reads_float_witness :
  outcome (ClientBase.get_balance Scenario.hub) (Scenario.always "ACCESS_BALANCE:100.50")
  = Return (Balance_of (PyFloat.of_decimal false 10050 (-2)))
  /\ PyFloat.exactly (PyFloat.of_decimal false 10050 (-2)) false 10050 (-2) = true
  /\ outcome (ClientBase.get_balance Scenario.hub) (Scenario.always "ACCESS_DENIED")
     = Raise (ValueError "Unexpected balance response: ACCESS_DENIED").
Proof.
  split; [|split].
  - apply (proj1 (proj2 (proj2 (get_balance_reads_float Scenario.hub
                                  (Scenario.always "ACCESS_BALANCE:100.50"))))
             "100" "50"); [reflexivity|reflexivity|discriminate|reflexivity].
  - reflexivity.
  - apply (proj1 (proj2 (proj2 (proj2 (get_balance_reads_float Scenario.hub
                                         (Scenario.always "ACCESS_DENIED")))))
             "ACCESS_DENIED"); reflexivity.
Defined.

(** C5 (counterexample).  The amount [get_balance] returns for
    [ACCESS_BALANCE:0.1] is the binary64 [7205759403792794 * 2^-56], which
    is not the decimal 0.1; and [ACCESS_BALANCE:12:34], whose text after the
    first colon, [12:34], is not a number, is read as the balance 12 instead
    of being rejected. *)
Lemma balance_round_trip_fails :
  outcome (ClientBase.get_balance Scenario.hub) (Scenario.always "ACCESS_BALANCE:0.1")
  = Return (Balance_of (S754_finite false 7205759403792794 (-56)))
  /\ PyFloat.exactly (S754_finite false 7205759403792794 (-56)) false 1 (-1) = false
  /\ PyLiteral.float_of_str "12:34" = Raise LiteralError
  /\ outcome (ClientBase.get_balance Scenario.hub) (Scenario.always "ACCESS_BALANCE:12:34")
     = Return (Balance_of (S754_finite false 6755399441055744 (-49)))
  /\ PyFloat.exactly (S754_finite false 6755399441055744 (-49)) false 12 0 = true.
Proof. repeat split; vm_compute; reflexivity. Qed.

(* ================================================================= *)
(** * Provider resolution *)

(** The message for an unsupported provider names every key of the
    registry. *)
Lemma unsupported_message_lists_providers (key name : string) :
  In name (dict_keys PyHub._providers) ->
  PyStr.contains name (PyHub.unsupported_provider_message key) = true.
Proof.
  intros Hin. unfold PyHub.unsupported_provider_message.
  apply (PyStrFacts.contains_app_r name "Provider '").
  apply PyStrFacts.contains_app_r.
  simpl in Hin.
  repeat (destruct Hin as [<-|Hin]; [reflexivity|]). contradiction.
Qed.

(** C7 (amended).  [get_client] resolves the provider without any request
    (it is a pure function of its arguments):
    - a name whose normalised form is not empty and is not a key of the
      registry is refused with the message that lists every registered name;
    - a name whose normalised form is empty is refused with the
      missing-provider message, whether a base URL is given or not;
    - with neither a name nor a base URL the call is refused with the
      missing-provider message;
    - with a base URL only, containing none of the known patterns, the
      client is an SMSHub client on that URL. *)
Theorem provider_resolution (api_key : string) (proxy : option string)
    (timeout : Z) :
  (forall (provider : string) (base_url : option string) (kwargs : dict pval),
      provider <> "" ->
      PyHub.normalize provider <> "" ->
      dict_get PyHub._providers (PyHub.normalize provider) = None ->
      PyHub.get_client api_key (Some provider) base_url proxy timeout kwargs
      = Raise (ValueError (PyHub.unsupported_provider_message (PyHub.normalize provider)))
      /\ forall name, In name (dict_keys PyHub._providers) ->
           PyStr.contains name
             (PyHub.unsupported_provider_message (PyHub.normalize provider)) = true)
  /\ (forall (provider : string) (base_url : option string) (kwargs : dict pval),
      provider <> "" ->
      PyHub.normalize provider = "" ->
      PyHub.get_client api_key (Some provider) base_url proxy timeout kwargs
      = Raise (ValueError PyHub.missing_provider_message))
  /\ (forall (provider base_url : option string) (kwargs : dict pval),
      provider = None \/ provider = Some "" ->
      base_url = None \/ base_url = Some "" ->
      PyHub.get_client api_key provider base_url proxy timeout kwargs
      = Raise (ValueError PyHub.missing_provider_message))
  /\ (forall (provider : option string) (base_url : string),
      provider = None \/ provider = Some "" ->
      base_url <> "" ->
      (forall pattern, In pattern (dict_keys PyHub._url_patterns) ->
                       PyStr.contains pattern (PyStr.lower base_url) = false) ->
      PyHub.get_client api_key provider (Some base_url) proxy timeout []
      = Return (ClientBase_init SMSHubClient api_key base_url proxy timeout)).
Proof.
  split; [|split; [|split]].
  - intros provider base_url kwargs Hp Hkey Hreg. split.
    + unfold PyHub.get_client, PyHub.provider_key.
      destruct provider as [|c p]; [contradiction|].
      destruct (PyHub.normalize (String c p)) as [|k key]; [contradiction|].
      now rewrite Hreg.
    + intros name. apply unsupported_message_lists_providers.
  - intros provider base_url kwargs Hp Hkey.
    unfold PyHub.get_client, PyHub.provider_key.
    destruct provider as [|c p]; [contradiction|]. now rewrite Hkey.
  - intros provider base_url kwargs [-> | ->] [-> | ->]; reflexivity.
  - intros provider base_url Hp Hu Hpat.
    assert (Hkey : PyHub.provider_key provider (Some base_url) = Some "smshub").
    { destruct base_url as [|c u]; [contradiction|].
      assert (Hdet : PyHub.detect PyHub._url_patterns (PyStr.lower (String c u)) = "smshub").
      { unfold PyHub._url_patterns, PyHub.detect.
        rewrite !Hpat by (simpl; auto 10). reflexivity. }
      unfold PyHub.provider_key.
      destruct Hp as [-> | ->]; now rewrite Hdet. }
    unfold PyHub.get_client. rewrite Hkey.
    destruct base_url as [|c u]; [contradiction|]. reflexivity.
Qed.

(** One input for each of the four cases. *)
Lemma provider_resolution_witness :
  PyHub.get_client "test_key" (Some "sms-hub2") None None 30 []
  = Raise (ValueError
             "Provider 'smshub2' is not supported. Available providers: smshub, herosms, smsactivate, smsbower, hero, bower")
  /\ PyHub.get_client "test_key" (Some "_") (Some "https://smshub.org/api") None 30 []
     = Raise (ValueError PyHub.missing_provider_message)
  /\ PyHub.get_client "test_key" None None None 30 []
     = Raise (ValueError PyHub.missing_provider_message)
  /\ PyHub.get_client "test_key" None (Some "https://example.com/api/") None 30 []
     = Return (mkClient SMSHubClient "test_key" "https://example.com/api" None 30).
Proof.
  destruct (provider_resolution "test_key" None 30) as (Hunknown & Hblank & Hnone & Hurl).
  split; [|split; [|split]].
  - apply (Hunknown "sms-hub2" None []); [discriminate|discriminate|reflexivity].
  - apply (Hblank "_" (Some "https://smshub.org/api") []); [discriminate|reflexivity].
  - apply (Hnone None None []); auto.
  - apply (Hurl None "https://example.com/api/"); [auto|discriminate|].
    intros pattern Hin. simpl in Hin.
    repeat (destruct Hin as [<-|Hin]; [reflexivity|]). contradiction.
Defined.

(** C7 (counterexample).  The name [-] normalises to the empty string, which
    is not a key of the registry; [get_client] refuses it with the
    missing-provider message, which names no provider, and not with the
    message for an unsupported provider. *)
Lemma blank_name_is_reported_missing :
  PyHub.normalize "-" = ""
  /\ dict_get PyHub._providers (PyHub.normalize "-") = None
  /\ PyHub.get_client "test_key" (Some "-") None None 30 []
     = Raise (ValueError PyHub.missing_provider_message)
  /\ PyStr.contains "smshub" PyHub.missing_provider_message = false.
Proof. repeat split; reflexivity. Qed.

(* ================================================================= *)
(** * The order of floats *)

Module FloatOrder.
Import PyFloat.

(** [x <= y] holds. *)
Definition le (x y : float) : Prop := leb x y = true.

(** The outcome of a comparison, once every comparison of exponents and
    mantissas in sight has been decided. *)
Ltac decide_comparisons :=
  repeat match goal with
    | H : context [Z.compare ?a ?b] |- _ => destruct (Z.compare_spec a b); subst
    | H : context [Pos.compare ?a ?b] |- _ => destruct (Pos.compare_spec a b); subst
    | |- context [Z.compare ?a ?b] => destruct (Z.compare_spec a b); subst
    | |- context [Pos.compare ?a ?b] => destruct (Pos.compare_spec a b); subst
    end;
  simpl in *; try discriminate; try reflexivity; try lia.

Ltac unfold_order :=
  unfold le, leb, ltb, eqb, SFleb, SFltb, SFeqb, SFcompare, is_nan in *;
  change (Pos.compare_cont Eq) with Pos.compare in *.

Lemma leb_refl (x : float) : is_nan x = false -> leb x x = true.
Proof.
  destruct x as [s|s| |s m e]; unfold_order; intros H; try discriminate;
    destruct s; try reflexivity; rewrite Z.compare_refl, Pos.compare_refl;
    reflexivity.
Qed.

Lemma eqb_refl (x : float) : is_nan x = false -> eqb x x = true.
Proof.
  destruct x as [s|s| |s m e]; unfold_order; intros H; try discriminate;
    destruct s; try reflexivity; rewrite Z.compare_refl, Pos.compare_refl;
    reflexivity.
Qed.

Lemma leb_not_nan (x y : float) :
  leb x y = true -> is_nan x = false /\ is_nan y = false.
Proof.
  destruct x, y; unfold_order; intros H; try discriminate; split; reflexivity.
Qed.

Lemma ltb_leb (x y : float) : ltb x y = true -> leb x y = true.
Proof.
  unfold leb, ltb, SFleb, SFltb. destruct (SFcompare x y) as [[]|]; easy.
Qed.

Lemma not_ltb_leb (x y : float) :
  is_nan x = false -> is_nan y = false -> ltb x y = false -> leb y x = true.
Proof.
  destruct x as [sx|sx| |sx mx ex], y as [sy|sy| |sy my ey]; unfold_order;
    intros Hx Hy H; try discriminate; try reflexivity;
    try (destruct sx); try (destruct sy); try discriminate; try reflexivity;
    decide_comparisons.
Qed.

Lemma leb_trans (x y z : float) :
  leb x y = true -> leb y z = true -> leb x z = true.
Proof.
  destruct x as [sx|sx| |sx mx ex], y as [sy|sy| |sy my ey],
           z as [sz|sz| |sz mz ez]; unfold_order;
    intros Hxy Hyz; try discriminate; try reflexivity;
    try (destruct sx); try (destruct sy); try (destruct sz);
    try discriminate; try reflexivity;
    decide_comparisons.
Qed.

End FloatOrder.

(* ================================================================= *)
(** * Sorting prices *)

Module SortFacts.
Import PyFloat PyList FloatOrder.

(** No element is NaN. *)
Definition no_nan (l : list float) : Prop := Forall (fun p => is_nan p = false) l.

Lemma insert_perm (x : float) (l : list float) : Permutation (insert x l) (x :: l).
Proof.
  induction l as [|y l IH]; simpl; [reflexivity|].
  destruct (ltb x y); [reflexivity|].
  rewrite IH. apply perm_swap.
Qed.

Lemma sort_into_perm (l acc : list float) :
  Permutation (fold_left (fun acc x => insert x acc) l acc) (acc ++ l).
Proof.
  revert acc; induction l as [|x l IH]; intros acc; simpl.
  - now rewrite List.app_nil_r.
  - rewrite IH, insert_perm. apply Permutation_middle.
Qed.

Lemma sorted_perm (l : list float) : Permutation (sorted l) l.
Proof. exact (sort_into_perm l []). Qed.

Lemma sorted_length (l : list float) : List.length (sorted l) = List.length l.
Proof. apply Permutation_length, sorted_perm. Qed.

Lemma no_nan_perm (l l' : list float) : Permutation l l' -> no_nan l -> no_nan l'.
Proof. intros Hp H. unfold no_nan in *. now rewrite <- Hp. Qed.

Lemma insert_sorted (x : float) (l : list float) :
  is_nan x = false -> no_nan l ->
  StronglySorted le l -> StronglySorted le (insert x l).
Proof.
  intros Hx Hl Hs. induction Hs as [|y l Hs IH Hy]; simpl.
  - constructor; constructor.
  - apply Forall_cons_iff in Hl as [Hny Hl].
    destruct (ltb x y) eqn:E.
    + constructor; [now constructor|].
      apply ltb_leb in E. constructor; [exact E|].
      eapply Forall_impl; [|exact Hy]. intros z Hz. exact (leb_trans _ _ _ E Hz).
    + constructor; [auto|].
      assert (Hall : Forall (le y) (x :: l)).
      { constructor; [|exact Hy]. now apply not_ltb_leb. }
      now rewrite (insert_perm x l).
Qed.

Lemma sort_into_sorted (l acc : list float) :
  no_nan l -> no_nan acc -> StronglySorted le acc ->
  StronglySorted le (fold_left (fun acc x => insert x acc) l acc).
Proof.
  revert acc; induction l as [|x l IH]; intros acc Hl Hacc Hs; simpl; [exact Hs|].
  apply Forall_cons_iff in Hl as [Hx Hl].
  apply IH; [exact Hl| |now apply insert_sorted].
  apply (no_nan_perm (x :: acc)); [symmetry; apply insert_perm|now constructor].
Qed.

(** Without NaN the result of [sorted] is ascending. *)
Lemma sorted_ascending (l : list float) : no_nan l -> StronglySorted le (sorted l).
Proof. intros H. apply sort_into_sorted; [exact H|constructor|constructor]. Qed.

Lemma last_in {A : Type} (l : list A) :
  l <> [] -> exists x, PyList.last l = Return x /\ In x l.
Proof.
  induction l as [|a l IH]; [contradiction|]. intros _.
  destruct l as [|b l]; [exists a; simpl; auto|].
  destruct IH as (x & Hx & Hin); [discriminate|].
  exists x. split; [exact Hx|now right].
Qed.

Lemma below_last (l : list float) (hi p : float) :
  StronglySorted le l -> no_nan l ->
  PyList.last l = Return hi -> In p l -> le p hi.
Proof.
  induction l as [|a l IH]; [contradiction|]. intros Hs Hn Hhi Hp.
  apply StronglySorted_inv in Hs as [Hs Ha].
  apply Forall_cons_iff in Hn as [Hna Hn].
  destruct l as [|b l].
  - injection Hhi as <-. destruct Hp as [<-|[]]. now apply leb_refl.
  - destruct Hp as [<-|Hp]; [|now apply IH].
    destruct (last_in (b :: l)) as (x & Hx & Hin); [discriminate|].
    change (PyList.last (b :: l) = Return hi) in Hhi.
    rewrite Hx in Hhi. injection Hhi as <-.
    now apply (proj1 (Forall_forall _ _) Ha).
Qed.

(** In an ascending list without NaN the first element is below and the
    last element above every element. *)
Lemma ascending_bounds (l : list float) (lo hi p : float) :
  StronglySorted le l -> no_nan l ->
  PyList.first l = Return lo -> PyList.last l = Return hi ->
  In p l -> le lo p /\ le p hi.
Proof.
  intros Hs Hn Hlo Hhi Hp. split; [|now apply (below_last l)].
  destruct l as [|a l]; [discriminate|]. injection Hlo as <-.
  apply StronglySorted_inv in Hs as [_ Ha].
  destruct Hp as [<-|Hp].
  - apply leb_refl. now apply Forall_inv in Hn.
  - now apply (proj1 (Forall_forall _ _) Ha).
Qed.

End SortFacts.

(* ================================================================= *)
(** * Loops and dictionaries *)

Lemma bind_res_returns {A B : Type} (m : res A) (k : A -> res B) (b : B) :
  bind_res m k = Return b -> exists a, m = Return a /\ k a = Return b.
Proof. destruct m as [a|e]; simpl; [eauto|discriminate]. Qed.

(** Unfolding a successful sequence of steps. *)
Tactic Notation "returns" hyp(H) "as" ident(a) ident(Ha) :=
  apply bind_res_returns in H as (a & Ha & H).

Tactic Notation "returns" hyp(H) :=
  let a := fresh "v" in
  let Ha := fresh "Hv" in
  apply bind_res_returns in H as (a & Ha & H).

(** A property that holds before a loop and is kept by every iteration that
    does not raise holds after the loop, when the loop does not raise. *)
Lemma for_each_invariant {A S : Type} (P : S -> Prop) (l : list A)
    (body : S -> A -> res S) (s s' : S) :
  P s ->
  (forall s0 x s1, In x l -> P s0 -> body s0 x = Return s1 -> P s1) ->
  for_each l body s = Return s' -> P s'.
Proof.
  revert s; induction l as [|x l IH]; intros s Hs Hbody H; simpl in H.
  - now injection H as <-.
  - returns H. apply (IH v).
    + apply (Hbody s x v); simpl; auto.
    + intros s0 y s1 Hy. apply Hbody. now right.
    + exact H.
Qed.

Lemma assoc_set_in {K V : Type} (eqb : K -> K -> bool) (d : list (K * V))
    (k0 k : K) (v0 v : V) :
  In (k, v) (assoc_set eqb d k0 v0) -> In (k, v) d \/ v = v0.
Proof.
  induction d as [|[k' v'] d IH]; simpl.
  - intros [H|[]]. injection H as _ <-. now right.
  - destruct (eqb k' k0); simpl.
    + intros [H|H]; [injection H as _ <-; now right|auto].
    + intros [H|H]; [auto|]. destruct (IH H); auto.
Qed.

Lemma assoc_get_in {K V : Type} (eqb : K -> K -> bool) (d : list (K * V))
    (k : K) (v : V) :
  assoc_get eqb d k = Some v -> exists k', In (k', v) d.
Proof.
  induction d as [|[k' v'] d IH]; simpl; [discriminate|].
  destruct (eqb k' k).
  - intros H. injection H as <-. eauto.
  - intros H. destruct (IH H) as (k'' & Hin). eauto.
Qed.

(* ================================================================= *)
(** * The price invariant *)

(** The values of [cost]: the scalar, or the elements of the list. *)
Definition cost_values (c : cost_t) : list PyFloat.float :=
  match c with
  | Scalar p => [p]
  | Prices l => l
  end.

(** [min_price <= p <= max_price] for every value [p] of [cost], and
    [min_price == max_price == cost] when [cost] is a scalar. *)
Definition price_invariant (sp : ServicePrice) : Prop :=
  (forall p, In p (cost_values (cost sp)) ->
             PyFloat.leb (min_price sp) p = true /\ PyFloat.leb p (max_price sp) = true)
  /\ (forall p, cost sp = Scalar p ->
                PyFloat.eqb (min_price sp) (max_price sp) = true
                /\ PyFloat.eqb (max_price sp) p = true).

(** The invariant holds unless a NaN is among the values of [cost]. *)
Definition sound_price (sp : ServicePrice) : Prop :=
  SortFacts.no_nan (cost_values (cost sp)) -> price_invariant sp.

Definition sound_services (d : dict ServicePrice) : Prop :=
  forall code sp, In (code, sp) d -> sound_price sp.

Definition sound_countries (l : list CountryPrices) : Prop :=
  forall cp, In cp l -> sound_services (services cp).

Definition sound_country_map (m : int_dict (dict ServicePrice)) : Prop :=
  forall cid srvs, In (cid, srvs) m -> sound_services srvs.

Lemma sound_scalar (code : string) (p : PyFloat.float) (n : Z) :
  sound_price (mkServicePrice code (Scalar p) p p n).
Proof.
  intros Hn. apply Forall_inv in Hn. split; simpl.
  - intros q [<-|[]]. split; now apply FloatOrder.leb_refl.
  - intros q H. injection H as <-. split; now apply FloatOrder.eqb_refl.
Qed.

Lemma sound_sorted (code : string) (ps : list PyFloat.float)
    (lo hi : PyFloat.float) (n : Z) :
  PyList.first (PyList.sorted ps) = Return lo ->
  PyList.last (PyList.sorted ps) = Return hi ->
  sound_price (mkServicePrice code (Prices (PyList.sorted ps)) lo hi n).
Proof.
  intros Hlo Hhi Hn. simpl in Hn. split; simpl; [|discriminate].
  intros p Hp.
  apply (SortFacts.ascending_bounds (PyList.sorted ps)); auto.
  apply SortFacts.sorted_ascending.
  apply (SortFacts.no_nan_perm (PyList.sorted ps)); [apply SortFacts.sorted_perm|exact Hn].
Qed.

Lemma derive_cost_sound (code : string) (base : PyFloat.float) (fpm : json)
    (c : cost_t) (lo hi : PyFloat.float) (n : Z) :
  ClientBase.derive_cost base fpm = Return (c, lo, hi) ->
  sound_price (mkServicePrice code c lo hi n).
Proof.
  unfold ClientBase.derive_cost. intros H.
  assert (Hscalar : Return (Scalar base, base, base) = Return (c, lo, hi) ->
                    sound_price (mkServicePrice code c lo hi n)).
  { intros E. injection E as <- <- <-. apply sound_scalar. }
  destruct fpm as [| | | | | |[|kv d]]; auto.
  returns H. destruct (PyList.sorted v) eqn:E; [auto|].
  rewrite <- E in H. returns H. returns H. injection H as <- <- <-.
  now apply sound_sorted.
Qed.

Lemma bower_service_price_sound (code : string) (ps : list PyFloat.float)
    (total : Z) (sp : ServicePrice) :
  SMSBowerClient.service_price code ps total = Return sp -> sound_price sp.
Proof.
  unfold SMSBowerClient.service_price. intros H. returns H. returns H.
  injection H as <-.
  destruct (1 <? List.length (PyList.sorted ps))%nat eqn:E.
  - now apply sound_sorted.
  - destruct (PyList.sorted ps) as [|a [|b l]]; try discriminate.
    injection Hv as <-. injection Hv0 as <-. apply sound_scalar.
Qed.

Lemma sound_services_set (d : dict ServicePrice) (code : string) (sp : ServicePrice) :
  sound_services d -> sound_price sp -> sound_services (dict_set d code sp).
Proof.
  intros Hd Hsp k sp' Hin. apply assoc_set_in in Hin as [Hin | ->]; eauto.
Qed.

Lemma sound_countries_add (l : list CountryPrices) (cid : Z) (d : dict ServicePrice) :
  sound_countries l -> sound_services d ->
  sound_countries (l ++ [mkCountryPrices cid d]).
Proof.
  intros Hl Hd cp Hin. apply in_app_or in Hin as [Hin|[<-|[]]]; auto.
Qed.

Lemma sound_nil_services : sound_services [].
Proof. intros k sp []. Qed.

Lemma sound_nil_countries : sound_countries [].
Proof. intros cp []. Qed.

(** ** Standard prices *)

Lemma parse_prices_sound (data : json) (result : list CountryPrices) :
  ClientBase.parse_prices data = Return result -> sound_countries result.
Proof.
  unfold ClientBase.parse_prices.
  set (data' := match data with JList (JDict d0 :: _) => JDict d0 | _ => data end).
  destruct data' as [| | | | | |d];
    try (intros H; injection H as <-; apply sound_nil_countries).
  apply for_each_invariant; [apply sound_nil_countries|].
  intros result0 [country services] result1 _ Hres H.
  destruct services as [| | | | | |services]; try (injection H as <-; exact Hres).
  returns H.
  assert (Hmap : sound_services v).
  { revert Hv. apply for_each_invariant; [apply sound_nil_services|].
    intros sm [code srv_data] sm' _ Hsm Hbody.
    destruct srv_data as [| | | | | |srv_data]; try (injection Hbody as <-; exact Hsm).
    returns Hbody as sp Hsp. injection Hbody as <-.
    apply sound_services_set; [exact Hsm|].
    unfold ClientBase.service_price in Hsp. returns Hsp as base Hbase.
    returns Hsp as derived Hderived. destruct derived as [[c lo] hi].
    returns Hsp as n Hn. injection Hsp as <-.
    eapply derive_cost_sound; eassumption. }
  destruct v as [|entry v]; [injection H as <-; exact Hres|].
  returns H. injection H as <-. now apply sound_countries_add.
Qed.

(** ** Top countries *)

Lemma process_entry_sound (cm : int_dict (dict ServicePrice)) (code : string)
    (entry : json) (cm' : int_dict (dict ServicePrice)) :
  sound_country_map cm ->
  ClientBase.process_entry cm code entry = Return cm' ->
  sound_country_map cm'.
Proof.
  intros Hcm H. unfold ClientBase.process_entry in H. returns H.
  assert (Hgo : forall c_id : json,
    (let! c_id := PyVal.to_int c_id in
     let country_map :=
       match int_dict_get cm c_id with
       | None => int_dict_set cm c_id []
       | Some _ => cm
       end in
     let! price := PyVal.get entry "price" (JInt 0) in
     let! cost0 := PyVal.get entry "cost" (JInt 0) in
     let! base_cost :=
       PyVal.to_float (PyVal.or_else (PyVal.or_else price cost0) (JInt 0)) in
     let! free_price_map := PyVal.get entry "freePriceMap" JNull in
     let! (cost, min_p, max_p) := ClientBase.derive_cost base_cost free_price_map in
     let! cnt0 := PyVal.get entry "count" (JInt 0) in
     let! count := PyVal.to_int (PyVal.or_else cnt0 (JInt 0)) in
     match int_dict_get country_map c_id with
     | Some srvs =>
         Return (int_dict_set country_map c_id
                   (dict_set srvs code (mkServicePrice code cost min_p max_p count)))
     | None => Raise KeyError
     end) = Return cm' -> sound_country_map cm').
  { clear H. intros c_id H. returns H.
    set (cm1 := match int_dict_get cm v0 with
                | None => int_dict_set cm v0 []
                | Some _ => cm
                end) in H.
    assert (Hcm1 : sound_country_map cm1).
    { subst cm1. destruct (int_dict_get cm v0); [exact Hcm|].
      intros cid srvs Hin. apply assoc_set_in in Hin as [Hin | ->]; eauto.
      apply sound_nil_services. }
    returns H as price Hprice. returns H as cost0 Hcost0.
    returns H as base Hbase. returns H as fpm Hfpm.
    returns H as derived Hderived. destruct derived as [[c lo] hi].
    returns H as cnt0 Hcnt0. returns H as n Hn.
    destruct (int_dict_get cm1 v0) as [srvs|] eqn:Eget; [|discriminate].
    injection H as <-.
    intros cid srvs' Hin. apply assoc_set_in in Hin as [Hin | ->]; eauto.
    apply sound_services_set.
    - apply assoc_get_in in Eget as (k' & Hk'). eauto.
    - eapply derive_cost_sound; eassumption. }
  destruct v as [|b|n|x|s|l|d];
    [ now injection H as <-
    | apply (Hgo (JBool b)) | apply (Hgo (JInt n)) | apply (Hgo (JFloat x))
    | apply (Hgo (JStr s)) | apply (Hgo (JList l)) | apply (Hgo (JDict d)) ];
    exact H.
Qed.

Lemma process_entries_sound (guarded : bool) (code : string) (entries : json)
    (cm cm' : int_dict (dict ServicePrice)) :
  sound_country_map cm ->
  ClientBase.process_entries guarded code entries cm = Return cm' ->
  sound_country_map cm'.
Proof.
  intros Hcm. unfold ClientBase.process_entries.
  assert (Hbody : forall (s0 : int_dict (dict ServicePrice)) (x : json)
                         (s1 : int_dict (dict ServicePrice)),
             sound_country_map s0 ->
             (if (guarded && negb (PyVal.is_dict x))%bool then Return s0
              else ClientBase.process_entry s0 code x) = Return s1 ->
             sound_country_map s1).
  { intros s0 x s1 Hs0 H. destruct (guarded && negb (PyVal.is_dict x))%bool.
    - now injection H as <-.
    - eapply process_entry_sound; eassumption. }
  destruct entries; try (intros H; injection H as <-; exact Hcm);
    apply for_each_invariant; eauto.
Qed.

Lemma parse_top_countries_sound (service : option string) (data : json)
    (result : list CountryPrices) :
  ClientBase.parse_top_countries service data = Return result ->
  sound_countries result.
Proof.
  unfold ClientBase.parse_top_countries. intros H. returns H.
  injection H as <-.
  assert (Hcm : sound_country_map v).
  { assert (Hnil : sound_country_map []) by (intros cid srvs []).
    assert (Hper : forall (cm : int_dict (dict ServicePrice)) (x : string * json)
                          (cm' : int_dict (dict ServicePrice)),
               sound_country_map cm ->
               (let '(srv_code, entries) := x in
                ClientBase.process_entries false srv_code entries cm) = Return cm' ->
               sound_country_map cm').
    { intros cm [code entries] cm' Hcm H. eapply process_entries_sound; eassumption. }
    destruct service as [[|c s]|].
    - destruct data; try (injection Hv as <-; exact Hnil);
        revert Hv; apply for_each_invariant; eauto.
      intros cm item cm' _ Hcm H.
      destruct item; try (injection H as <-; exact Hcm).
      revert H. apply for_each_invariant; eauto.
    - eapply process_entries_sound; eassumption.
    - destruct data; try (injection Hv as <-; exact Hnil);
        revert Hv; apply for_each_invariant; eauto.
      intros cm item cm' _ Hcm H.
      destruct item; try (injection H as <-; exact Hcm).
      revert H. apply for_each_invariant; eauto. }
  intros cp Hin. apply in_map_iff in Hin as ([cid srvs] & <- & Hin).
  simpl. eauto.
Qed.

(** ** SMSBower prices *)

Lemma build_service_map_sound (version : string) (services : json)
    (sm : dict ServicePrice) :
  SMSBowerClient.build_service_map version services = Return sm -> sound_services sm.
Proof.
  unfold SMSBowerClient.build_service_map. intros H. returns H. revert H.
  apply for_each_invariant; [apply sound_nil_services|].
  intros sm0 [code srv_data] sm1 _ Hsm H.
  returns H as collected Hcollected. destruct collected as [prices total].
  unfold SMSBowerClient.record_service in H.
  destruct prices as [|p prices]; [now injection H as <-|].
  returns H as sp Hsp. injection H as <-.
  apply sound_services_set; [exact Hsm|].
  eapply bower_service_price_sound; eassumption.
Qed.

Lemma parse_complex_prices_sound (data : json) (version : string)
    (result : list CountryPrices) :
  SMSBowerClient._parse_complex_prices data version = Return result ->
  sound_countries result.
Proof.
  unfold SMSBowerClient._parse_complex_prices. intros H. returns H. revert H.
  apply for_each_invariant; [apply sound_nil_countries|].
  intros result0 [country services] result1 _ Hres H.
  returns H as sm Hsm. unfold SMSBowerClient.record_country in H.
  destruct sm as [|entry sm]; [now injection H as <-|].
  returns H as cid Hcid. injection H as <-.
  apply sound_countries_add; [exact Hres|].
  eapply build_service_map_sound; eassumption.
Qed.

(** ** The price operations *)

Lemma bind_returns {A B : Type} (m : IO A) (k : A -> IO B) (net : transport)
    (log log' : list request) (b : B) :
  bind m k net log = (Return b, log') ->
  exists a log1, m net log = (Return a, log1) /\ k a net log1 = (Return b, log').
Proof.
  unfold bind. destruct (m net log) as [[a|e] log1]; [eauto|discriminate].
Qed.

(** A method that decodes the response of one request and parses the data
    returns only what the parser returns. *)
Lemma decoded_result {A : Type} (json_loads : string -> res json) (self : client)
    (action : string) (params : dict pval) (parse : json -> res A)
    (handler : string -> exn -> exn) (net : transport) (log log' : list request)
    (result : A) :
  (do response <- ClientBase._request self action params;
   lift (try_except (let! data := json_loads response in parse data)
                    (handler response))) net log = (Return result, log') ->
  exists data, parse data = Return result.
Proof.
  intros H. apply bind_returns in H as (response & log1 & _ & H).
  unfold lift in H. injection H as H _.
  destruct (json_loads response) as [data|e]; [|discriminate].
  exists data. simpl in H. now destruct (parse data).
Qed.

Section PriceOperations.
Variable json_loads : string -> res json.

Lemma perform_prices_sound (self : client) (op : operation) (net : transport)
    (result : list CountryPrices) :
  outcome (perform json_loads self op) net = Return (APrices result) ->
  sound_countries result.
Proof.
  intros H. unfold outcome, run in H.
  destruct (perform json_loads self op net []) as [out log'] eqn:E.
  simpl in H. subst out. unfold perform in E.
  destruct (has_method (cls self) op); [|discriminate].
  destruct op; unfold fmap in E; apply bind_returns in E as (a & log1 & Hm & Hret);
    unfold ret in Hret; try discriminate Hret; injection Hret as -> _.
  - (* get_prices *)
    unfold get_prices in Hm. destruct (cls self).
    + apply decoded_result in Hm as (data & Hp). eapply parse_prices_sound; eauto.
    + apply bind_returns in Hm as (all & log2 & Hm & Hret).
      apply decoded_result in Hm as (data & Hp).
      apply parse_top_countries_sound in Hp.
      destruct country; unfold ret in Hret; injection Hret as <- _; [|exact Hp].
      intros cp Hin. apply filter_In in Hin as [Hin _]. auto.
    + apply decoded_result in Hm as (data & Hp). eapply parse_prices_sound; eauto.
    + apply decoded_result in Hm as (data & Hp).
      eapply parse_complex_prices_sound; eauto.
    + apply decoded_result in Hm as (data & Hp). eapply parse_prices_sound; eauto.
  - apply decoded_result in Hm as (data & Hp).
    eapply parse_top_countries_sound; eauto.
  - apply decoded_result in Hm as (data & Hp).
    eapply parse_complex_prices_sound; eauto.
  - apply decoded_result in Hm as (data & Hp).
    eapply parse_complex_prices_sound; eauto.
Qed.

(** C8 (amended).  Whatever price operation produced it (the standard
    [get_prices], its HeroSMS and SMSBower overrides,
    [get_top_countries_by_service], [get_prices_v2], [get_prices_v3]), every
    [ServicePrice] of every [CountryPrices] returned, none of whose cost
    values is NaN, has [min_price <= p <= max_price] for every value [p] of
    its cost, and [min_price == max_price == cost] when its cost is a
    scalar. *)
Theorem prices_within_bounds (self : client) (op : operation) (net : transport)
    (result : list CountryPrices) (cp : CountryPrices) (code : string)
    (sp : ServicePrice) :
  outcome (perform json_loads self op) net = Return (APrices result) ->
  In cp result ->
  In (code, sp) (services cp) ->
  SortFacts.no_nan (cost_values (cost sp)) ->
  price_invariant sp.
Proof.
  intros Hout Hcp Hsp Hnan.
  exact (perform_prices_sound self op net result Hout cp Hcp code sp Hsp Hnan).
Qed.

End PriceOperations.

(** The SMSBower v2 test of the test suite: prices 10.5 and 15.0. *)
Lemma prices_within_bounds_witness :
  price_invariant
    (mkServicePrice "tg"
       (Prices [PyFloat.of_decimal false 105 (-1); PyFloat.of_decimal false 150 (-1)])
       (PyFloat.of_decimal false 105 (-1)) (PyFloat.of_decimal false 150 (-1)) 150).
Proof.
  apply (prices_within_bounds (Scenario.decodes_to Scenario.v2_payload)
           Scenario.bower (GetPricesV2 (Some "tg") None) (Scenario.always "payload")
           [mkCountryPrices 0
              [("tg", mkServicePrice "tg"
                        (Prices [PyFloat.of_decimal false 105 (-1);
                                 PyFloat.of_decimal false 150 (-1)])
                        (PyFloat.of_decimal false 105 (-1))
                        (PyFloat.of_decimal false 150 (-1)) 150)]]
           (mkCountryPrices 0
              [("tg", mkServicePrice "tg"
                        (Prices [PyFloat.of_decimal false 105 (-1);
                                 PyFloat.of_decimal false 150 (-1)])
                        (PyFloat.of_decimal false 105 (-1))
                        (PyFloat.of_decimal false 150 (-1)) 150)])
           "tg").
  - reflexivity.
  - simpl. auto.
  - simpl. auto.
  - repeat constructor.
Defined.

(** C8 (counterexample).  SMSBower's v2 parser on
    [{"0": {"tg": {"nan": 1}}}]: the one price is NaN, so the service price
    returned has the scalar cost NaN with [min_price] and [max_price] NaN,
    and neither [min_price <= cost] nor [min_price == max_price] holds. *)
Lemma nan_price_breaks_bounds :
  outcome (perform (Scenario.decodes_to Scenario.nan_payload) Scenario.bower
             (GetPricesV2 (Some "tg") None)) (Scenario.always "payload")
  = Return (APrices
              [mkCountryPrices 0
                 [("tg", mkServicePrice "tg" (Scalar PyFloat.nan) PyFloat.nan PyFloat.nan 1)]])
  /\ PyFloat.leb PyFloat.nan PyFloat.nan = false
  /\ PyFloat.eqb PyFloat.nan PyFloat.nan = false.
Proof. repeat split; reflexivity. Qed.

(* ================================================================= *)
(** * SMSBower price payloads *)

Module BowerFacts.
Import SMSBowerClient.

(** The sum of a list of counts. *)
Definition total (counts : list Z) : Z := fold_right Z.add 0 counts.

(** [float(provider_data.get("price", 0))] and
    [int(provider_data.get("count", 0))] of a v3 provider. *)
Definition provider_price (provider_data : json) : res PyFloat.float :=
  let! price := PyVal.get provider_data "price" (JInt 0) in PyVal.to_float price.
Definition provider_count (provider_data : json) : res Z :=
  let! cnt := PyVal.get provider_data "count" (JInt 0) in PyVal.to_int cnt.

Lemma comprehension_map {A B C : Type} (g : A -> B) (f : B -> res C) (l : list A) :
  PyList.comprehension f (map g l) = PyList.comprehension (fun x => f (g x)) l.
Proof. induction l as [|x l IH]; simpl; [reflexivity|now rewrite IH]. Qed.

Lemma comprehension_cons {A B : Type} (f : A -> res B) (x : A) (l : list A)
    (ys : list B) :
  PyList.comprehension f (x :: l) = Return ys ->
  exists y ys', ys = y :: ys' /\ f x = Return y /\ PyList.comprehension f l = Return ys'.
Proof.
  simpl. intros H. returns H as y Hy. returns H as ys' Hys. injection H as <-.
  eauto.
Qed.

Lemma v2_loop (kv : dict json) (prices ps0 : list PyFloat.float)
    (counts : list Z) (t0 : Z) :
  PyList.comprehension PyLiteral.float_of_str (dict_keys kv) = Return prices ->
  PyList.comprehension PyVal.to_int (dict_values kv) = Return counts ->
  for_each kv (fun '(prices, total_count) '(price_str, count) =>
    let! p := PyLiteral.float_of_str price_str in
    let! c := PyVal.to_int count in
    Return ((prices ++ [p])%list, total_count + c)) (ps0, t0)
  = Return ((ps0 ++ prices)%list, t0 + total counts).
Proof.
  revert prices counts ps0 t0.
  induction kv as [|[k c] kv IH]; intros prices counts ps0 t0 Hp Hc.
  - injection Hp as <-. injection Hc as <-. simpl.
    now rewrite List.app_nil_r, Z.add_0_r.
  - apply comprehension_cons in Hp as (p & prices' & -> & Hp & Hps).
    apply comprehension_cons in Hc as (n & counts' & -> & Hn & Hcs).
    simpl in Hp, Hn. simpl. rewrite Hp, Hn. simpl.
    rewrite (IH prices' counts') by assumption.
    now rewrite <- List.app_assoc, Z.add_assoc.
Qed.

Lemma v3_loop (providers : list json) (prices ps0 : list PyFloat.float)
    (counts : list Z) (t0 : Z) :
  PyList.comprehension provider_price providers = Return prices ->
  PyList.comprehension provider_count providers = Return counts ->
  for_each providers (fun '(prices, total_count) provider_data =>
    let! price := PyVal.get provider_data "price" (JInt 0) in
    let! p := PyVal.to_float price in
    let! cnt := PyVal.get provider_data "count" (JInt 0) in
    let! c := PyVal.to_int cnt in
    Return ((prices ++ [p])%list, total_count + c)) (ps0, t0)
  = Return ((ps0 ++ prices)%list, t0 + total counts).
Proof.
  revert prices counts ps0 t0.
  induction providers as [|pd l IH]; intros prices counts ps0 t0 Hp Hc.
  - injection Hp as <-. injection Hc as <-. simpl.
    now rewrite List.app_nil_r, Z.add_0_r.
  - apply comprehension_cons in Hp as (p & prices' & -> & Hp & Hps).
    apply comprehension_cons in Hc as (n & counts' & -> & Hn & Hcs).
    unfold provider_price in Hp. returns Hp as price Hprice.
    unfold provider_count in Hn. returns Hn as cnt Hcnt.
    simpl. rewrite Hprice. simpl. rewrite Hp. simpl. rewrite Hcnt. simpl.
    rewrite Hn. simpl.
    rewrite (IH prices' counts') by assumption.
    now rewrite <- List.app_assoc, Z.add_assoc.
Qed.

(** What [service_price] builds from a non-empty list of prices. *)
Lemma service_price_built (srv_code : string) (prices : list PyFloat.float)
    (total_count : Z) :
  prices <> [] ->
  exists lo hi,
    PyList.first (PyList.sorted prices) = Return lo
    /\ PyList.last (PyList.sorted prices) = Return hi
    /\ service_price srv_code prices total_count
       = Return (mkServicePrice srv_code
                   (if (List.length prices =? 1)%nat then Scalar lo
                    else Prices (PyList.sorted prices))
                   lo hi total_count).
Proof.
  intros Hne. unfold service_price.
  assert (Hlen : List.length (PyList.sorted prices) = List.length prices)
    by apply SortFacts.sorted_length.
  destruct (PyList.sorted prices) as [|lo l] eqn:E.
  - destruct prices; [contradiction|discriminate].
  - destruct (SortFacts.last_in (lo :: l)) as (hi & Hhi & _); [discriminate|].
    exists lo, hi. split; [reflexivity|]. split; [exact Hhi|].
    cbn [PyList.first bind_res]. rewrite Hhi. cbn [bind_res].
    rewrite Hlen.
    destruct prices as [|a [|b prices]]; [contradiction|reflexivity|reflexivity].
Qed.

Lemma dict_set_in {V : Type} (d : dict V) (k0 k : string) (v0 v : V) :
  In (k, v) (dict_set d k0 v0) -> In (k, v) d \/ (k = k0 /\ v = v0).
Proof.
  unfold dict_set. induction d as [|[k' v'] d IH]; simpl.
  - intros [H|[]]. injection H as <- <-. auto.
  - destruct (String.eqb_spec k' k0) as [->|Hk]; simpl.
    + intros [H|H]; [injection H as <- <-; auto|auto].
    + intros [H|H]; [auto|]. destruct (IH H); auto.
Qed.

(** Where an entry of a service map comes from. *)
Definition from_payload (version : string) (services : dict json)
    (code : string) (sp : ServicePrice) : Prop :=
  exists srv_data prices total_count,
    In (code, srv_data) services
    /\ collect version srv_data = Return (prices, total_count)
    /\ prices <> []
    /\ service_price code prices total_count = Return sp.

Lemma build_service_map_provenance (version : string) (services : dict json)
    (sm : dict ServicePrice) :
  build_service_map version (JDict services) = Return sm ->
  forall code sp, In (code, sp) sm -> from_payload version services code sp.
Proof.
  unfold build_service_map. cbn [PyVal.items bind_res].
  apply (for_each_invariant
           (fun sm => forall code sp, In (code, sp) sm ->
                                      from_payload version services code sp)).
  - intros code sp [].
  - intros sm0 [code0 srv_data] sm1 Hin Hsm H.
    returns H as collected Hcollected. destruct collected as [prices total_count].
    unfold record_service in H.
    destruct prices as [|p prices]; [now injection H as <-|].
    returns H as sp0 Hsp0. injection H as <-.
    intros code sp Hin'. apply dict_set_in in Hin' as [Hin'|[-> ->]]; [auto|].
    exists srv_data, (p :: prices), total_count. repeat split; auto. discriminate.
Qed.

Lemma parse_complex_prices_provenance (data : dict json) (version : string)
    (result : list CountryPrices) :
  _parse_complex_prices (JDict data) version = Return result ->
  forall cp, In cp result ->
    services cp <> []
    /\ exists cid svs,
         In (cid, JDict svs) data
         /\ PyLiteral.int_of_str cid = Return (country_id cp)
         /\ forall code sp, In (code, sp) (services cp) ->
              from_payload version svs code sp.
Proof.
  unfold _parse_complex_prices. cbn [PyVal.items bind_res].
  apply (for_each_invariant
           (fun result => forall cp, In cp result ->
              services cp <> []
              /\ exists cid svs,
                   In (cid, JDict svs) data
                   /\ PyLiteral.int_of_str cid = Return (country_id cp)
                   /\ forall code sp, In (code, sp) (services cp) ->
                        from_payload version svs code sp)).
  - intros cp [].
  - intros result0 [cid srvs] result1 Hin Hres H.
    returns H as sm Hsm. unfold record_country in H.
    destruct sm as [|entry sm]; [now injection H as <-|].
    returns H as n Hn. injection H as <-.
    intros cp Hcp. apply in_app_or in Hcp as [Hcp|[<-|[]]]; [auto|].
    split; [discriminate|].
    destruct srvs as [| | | | | |svs];
      try (unfold build_service_map in Hsm; discriminate Hsm).
    exists cid, svs. repeat split; auto.
    now apply build_service_map_provenance.
Qed.

(** A loop whose body returns on every element returns. *)
Lemma for_each_total {A S : Type} (l : list A) (body : S -> A -> res S) (s : S) :
  (forall s0 x, In x l -> exists s1, body s0 x = Return s1) ->
  exists s', for_each l body s = Return s'.
Proof.
  revert s; induction l as [|x l IH]; intros s Hbody; simpl; [eauto|].
  destruct (Hbody s x) as (s1 & ->); [now left|]. simpl.
  apply IH. intros s0 y Hy. apply Hbody. now right.
Qed.

(** A payload every part of which can be read. *)
Definition readable (version : string) (data : dict json) : Prop :=
  forall cid services, In (cid, services) data ->
    (exists n, PyLiteral.int_of_str cid = Return n)
    /\ exists svs, services = JDict svs
         /\ forall code srv_data, In (code, srv_data) svs ->
              exists prices total_count,
                collect version srv_data = Return (prices, total_count).

Lemma parse_complex_prices_total (data : dict json) (version : string) :
  readable version data ->
  exists result, _parse_complex_prices (JDict data) version = Return result.
Proof.
  intros Hdata. unfold _parse_complex_prices. cbn [PyVal.items bind_res].
  apply for_each_total. intros result0 [cid services] Hin.
  destruct (Hdata cid services Hin) as ((n & Hn) & svs & -> & Hsvs).
  assert (Hsm : exists sm, build_service_map version (JDict svs) = Return sm).
  { unfold build_service_map. cbn [PyVal.items bind_res].
    apply for_each_total. intros sm0 [code srv_data] Hin'.
    destruct (Hsvs code srv_data Hin') as (prices & total_count & ->).
    cbn [bind_res]. unfold record_service.
    destruct prices as [|p prices]; [eauto|].
    destruct (service_price_built code (p :: prices) total_count) as (lo & hi & _ & _ & ->);
      [discriminate|]. cbn [bind_res]. eauto. }
  destruct Hsm as (sm & ->). cbn [bind_res]. unfold record_country.
  destruct sm; [eauto|]. rewrite Hn. cbn [bind_res]. eauto.
Qed.

End BowerFacts.

(* ================================================================= *)
(** * The result of the SMSBower parser *)

(** A loop over two lists in a row. *)
Lemma for_each_app {A S : Type} (l1 l2 : list A) (body : S -> A -> res S) (s : S) :
  for_each (l1 ++ l2) body s
  = (let! s1 := for_each l1 body s in for_each l2 body s1).
Proof.
  revert s; induction l1 as [|x l1 IH]; intros s; simpl; [reflexivity|].
  destruct (body s x); simpl; auto.
Qed.

(** A loop whose body changes nothing. *)
Lemma for_each_idle {A S : Type} (l : list A) (body : S -> A -> res S) (s : S) :
  (forall x, In x l -> body s x = Return s) -> for_each l body s = Return s.
Proof.
  induction l as [|x l IH]; intros H; simpl; [reflexivity|].
  rewrite (H x) by now left. simpl. apply IH. intros y Hy. apply H. now right.
Qed.

Lemma forall2_in_right {A B : Type} (R : A -> B -> Prop) (l1 : list A) (l2 : list B)
    (y : B) :
  Forall2 R l1 l2 -> In y l2 -> exists x, In x l1 /\ R x y.
Proof.
  induction 1 as [|a b l1 l2 Hab _ IH]; intros Hin; [contradiction|].
  destruct Hin as [<-|Hin].
  - exists a. split; [now left|exact Hab].
  - destruct (IH Hin) as (x & Hx & HR). exists x. split; [now right|exact HR].
Qed.

(** A new key goes to the end of a dictionary. *)
Lemma dict_set_fresh {V : Type} (d : dict V) (k : string) (v : V) :
  ~ In k (dict_keys d) -> dict_set d k v = (d ++ [(k, v)])%list.
Proof.
  unfold dict_set, dict_keys. induction d as [|[k' v'] d IH]; simpl; intros H.
  - reflexivity.
  - destruct (String.eqb_spec k' k) as [->|Hne]; [exfalso; auto|].
    rewrite IH; auto.
Qed.

Lemma dict_get_in {V : Type} (d : dict V) (k : string) (v : V) :
  NoDup (dict_keys d) -> In (k, v) d -> dict_get d k = Some v.
Proof.
  unfold dict_get, dict_keys. induction d as [|[k' v'] d IH]; simpl; intros Hd Hin.
  - contradiction.
  - apply NoDup_cons_iff in Hd as [Hk' Hd]. destruct Hin as [H|H].
    + injection H as -> ->. now rewrite String.eqb_refl.
    + destruct (String.eqb_spec k' k) as [->|Hne]; [|auto].
      exfalso. apply Hk'. now apply (in_map fst) in H.
Qed.

Lemma nodup_keys_filter {V : Type} (f : string * V -> bool) (d : dict V) :
  NoDup (dict_keys d) -> NoDup (dict_keys (filter f d)).
Proof.
  unfold dict_keys. induction d as [|a d IH]; simpl; [auto|].
  intros H. apply NoDup_cons_iff in H as [Ha Hd].
  destruct (f a); simpl; [|auto].
  constructor; [|auto]. intros Hin. apply Ha.
  apply in_map_iff in Hin as (x & Hx & Hin). apply filter_In in Hin as [Hin _].
  apply in_map_iff. eauto.
Qed.

Module BowerResult.
Import SMSBowerClient.

(** Whether the data of a service can be read and holds a price. *)
Definition priced (version : string) (kv : string * json) : bool :=
  match collect version (snd kv) with
  | Return (_ :: _, _) => true
  | _ => false
  end.

(** Whether a country has a service with a price. *)
Definition kept (version : string) (kv : string * json) : bool :=
  match snd kv with
  | JDict svs => existsb (priced version) svs
  | _ => false
  end.

(** The service price [sp] presents the prices [prices] and the count
    [total] under [code]: its cost holds these prices, each as often as
    [prices] does, as a scalar when there is one price and as a list
    otherwise; [min_price] and [max_price] are the first and the last of
    them; they are in ascending order when none is NaN, and in the order of
    [sorted] wherever that is what Python computes. *)
Definition presents (sp : ServicePrice) (code : string)
    (prices : list PyFloat.float) (total : Z) : Prop :=
  sp_service sp = code
  /\ count sp = total
  /\ Permutation (cost_values (cost sp)) prices
  /\ PyList.first (cost_values (cost sp)) = Return (min_price sp)
  /\ PyList.last (cost_values (cost sp)) = Return (max_price sp)
  /\ (forall p, cost sp = Scalar p -> prices = [p])
  /\ (forall l, cost sp = Prices l -> (1 < List.length prices)%nat)
  /\ (SortFacts.no_nan prices ->
      StronglySorted FloatOrder.le (cost_values (cost sp)))
  /\ (PyList.sort_modelled prices = true ->
      cost_values (cost sp) = PyList.sorted prices).

(** The service map [sm] holds, in the order of the payload, one entry for
    each service of [svs] with a price, under the code of the service. *)
Definition service_map_of (version : string) (svs : dict json)
    (sm : dict ServicePrice) : Prop :=
  Forall2 (fun (entry : string * ServicePrice) (kv : string * json) =>
             fst entry = fst kv
             /\ exists prices total,
                  collect version (snd kv) = Return (prices, total)
                  /\ presents (snd entry) (fst kv) prices total)
          sm (filter (priced version) svs).

(** The result holds, in the order of the payload, one entry for each
    country of [data] that has a service with a price: its id is the
    integer read from the key, its service map the one of its services. *)
Definition countries_of (version : string) (data : dict json)
    (result : list CountryPrices) : Prop :=
  Forall2 (fun (cp : CountryPrices) (kv : string * json) =>
             PyLiteral.int_of_str (fst kv) = Return (country_id cp)
             /\ exists svs,
                  snd kv = JDict svs
                  /\ (NoDup (dict_keys svs) ->
                      service_map_of version svs (services cp)))
          result (filter (kept version) data).

Lemma service_price_presents (code : string) (prices : list PyFloat.float)
    (total : Z) :
  prices <> [] ->
  exists sp, service_price code prices total = Return sp
             /\ presents sp code prices total.
Proof.
  intros Hne.
  destruct (BowerFacts.service_price_built code prices total Hne)
    as (lo & hi & Hlo & Hhi & Hsp).
  eexists. split; [exact Hsp|].
  destruct prices as [|p [|p' prices]]; [contradiction| |].
  - injection Hlo as <-. injection Hhi as <-. unfold presents. simpl.
    repeat split; auto.
    + intros q H. now injection H as <-.
    + intros l H. discriminate.
    + intros _. repeat constructor.
  - unfold presents. cbn [Nat.eqb List.length cost cost_values sp_service count
                         min_price max_price].
    repeat split; auto.
    + apply SortFacts.sorted_perm.
    + intros q H. discriminate.
    + intros l _. simpl. lia.
    + apply SortFacts.sorted_ascending.
Qed.

Lemma priced_true (version code : string) (srv_data : json)
    (prices : list PyFloat.float) (total : Z) :
  collect version srv_data = Return (prices, total) -> prices <> [] ->
  priced version (code, srv_data) = true.
Proof.
  intros H Hne. unfold priced. simpl. rewrite H.
  destruct prices; [contradiction|reflexivity].
Qed.

(** The loop over the services of a country. *)
Lemma service_loop_exact (version : string) (l : dict json)
    (acc sm : dict ServicePrice) :
  NoDup (dict_keys l) ->
  (forall k, In k (dict_keys acc) -> ~ In k (dict_keys l)) ->
  for_each l (fun service_map '(srv_code, srv_data) =>
    let! (prices, total_count) := collect version srv_data in
    record_service service_map srv_code prices total_count) acc = Return sm ->
  exists added, sm = (acc ++ added)%list /\ service_map_of version l added.
Proof.
  unfold service_map_of.
  revert acc; induction l as [|[code srv_data] l IH]; intros acc Hd Hacc H.
  - simpl in H. injection H as <-. exists []. rewrite List.app_nil_r.
    split; [reflexivity|constructor].
  - simpl in H. apply NoDup_cons_iff in Hd as [Hcode Hd].
    returns H as acc1 Hbody. returns Hbody as collected Hcollected.
    destruct collected as [prices total]. unfold record_service in Hbody.
    destruct prices as [|p prices].
    + injection Hbody as <-.
      destruct (IH acc Hd) as (added & -> & HF); [|exact H|].
      * intros k Hk Hin. apply (Hacc k Hk). now right.
      * exists added. split; [reflexivity|].
        simpl. unfold priced at 1. simpl. rewrite Hcollected. exact HF.
    + destruct (service_price_presents code (p :: prices) total) as (sp & Hsp & Hpres);
        [discriminate|].
      rewrite Hsp in Hbody. simpl in Hbody. injection Hbody as <-.
      rewrite dict_set_fresh in H by (intros Hk; apply (Hacc code Hk); now left).
      destruct (IH (acc ++ [(code, sp)])%list Hd) as (added & -> & HF); [|exact H|].
      * intros k Hk Hin. unfold dict_keys in Hk. rewrite map_app in Hk.
        apply in_app_or in Hk as [Hk|[<-|[]]]; [|contradiction].
        apply (Hacc k Hk). now right.
      * exists ((code, sp) :: added). rewrite <- List.app_assoc.
        split; [reflexivity|].
        simpl. unfold priced at 1. simpl. rewrite Hcollected.
        constructor; [|exact HF]. simpl. split; [reflexivity|].
        now exists (p :: prices), total.
Qed.

(** The service map is empty exactly when no service has a price. *)
Lemma service_loop_empty (version : string) (l : dict json)
    (acc sm : dict ServicePrice) :
  for_each l (fun service_map '(srv_code, srv_data) =>
    let! (prices, total_count) := collect version srv_data in
    record_service service_map srv_code prices total_count) acc = Return sm ->
  sm = [] <-> (acc = [] /\ existsb (priced version) l = false).
Proof.
  revert acc; induction l as [|[code srv_data] l IH]; intros acc H.
  - simpl in H. injection H as <-. simpl. tauto.
  - simpl in H. returns H as acc1 Hbody. returns Hbody as collected Hcollected.
    destruct collected as [prices total]. unfold record_service in Hbody.
    simpl existsb. unfold priced at 1. simpl. rewrite Hcollected.
    destruct prices as [|p prices].
    + injection Hbody as <-. simpl. now apply IH.
    + returns Hbody as sp Hsp. injection Hbody as <-.
      apply IH in H. simpl. split.
      * intros Hsm. apply H in Hsm as [Habs _].
        unfold dict_set in Habs. destruct acc as [|[k v] acc]; simpl in Habs;
          [discriminate|]. destruct (String.eqb k code); discriminate.
      * intros [_ Habs]. discriminate.
Qed.

Lemma build_service_map_exact (version : string) (svs : dict json)
    (sm : dict ServicePrice) :
  build_service_map version (JDict svs) = Return sm ->
  (sm = [] <-> existsb (priced version) svs = false)
  /\ (NoDup (dict_keys svs) -> service_map_of version svs sm).
Proof.
  unfold build_service_map. cbn [PyVal.items bind_res]. intros H. split.
  - apply service_loop_empty in H. tauto.
  - intros Hd. destruct (service_loop_exact version svs [] sm Hd) as (added & -> & HF);
      [intros k []|exact H|exact HF].
Qed.

(** The loop over the countries. *)
Lemma country_loop_exact (version : string) (l : dict json)
    (acc result : list CountryPrices) :
  for_each l (fun result '(country_id, services) =>
    let! service_map := build_service_map version services in
    record_country result country_id service_map) acc = Return result ->
  exists added, result = (acc ++ added)%list /\ countries_of version l added.
Proof.
  unfold countries_of.
  revert acc; induction l as [|[cid services] l IH]; intros acc H.
  - simpl in H. injection H as <-. exists []. rewrite List.app_nil_r.
    split; [reflexivity|constructor].
  - simpl in H. returns H as acc1 Hbody. returns Hbody as sm Hsm.
    destruct services as [| | | | | |svs];
      try (unfold build_service_map in Hsm; discriminate Hsm).
    destruct (build_service_map_exact version svs sm Hsm) as [Hempty Hexact].
    unfold record_country in Hbody. simpl filter. unfold kept at 1. simpl snd.
    destruct sm as [|entry sm].
    + injection Hbody as <-.
      rewrite (proj1 Hempty eq_refl). exact (IH acc H).
    + returns Hbody as n Hn. injection Hbody as <-.
      destruct (existsb (priced version) svs) eqn:E;
        [|discriminate (proj2 Hempty eq_refl)].
      destruct (IH _ H) as (added & -> & HF).
      exists (mkCountryPrices n (entry :: sm) :: added). rewrite <- List.app_assoc.
      split; [reflexivity|].
      constructor; [|exact HF]. simpl. split; [exact Hn|].
      now exists svs.
Qed.

Lemma parse_complex_prices_exact (data : dict json) (version : string)
    (result : list CountryPrices) :
  _parse_complex_prices (JDict data) version = Return result ->
  countries_of version data result.
Proof.
  unfold _parse_complex_prices. cbn [PyVal.items bind_res]. intros H.
  now destruct (country_loop_exact version data [] result H) as (added & -> & HF).
Qed.

(** A service with a price is in the result. *)
Lemma parse_complex_prices_complete (data : dict json) (version : string)
    (result : list CountryPrices) (cid code : string) (svs : dict json)
    (srv_data : json) (prices : list PyFloat.float) (total : Z) :
  _parse_complex_prices (JDict data) version = Return result ->
  In (cid, JDict svs) data ->
  NoDup (dict_keys svs) ->
  In (code, srv_data) svs ->
  collect version srv_data = Return (prices, total) ->
  prices <> [] ->
  exists cp sp,
    In cp result
    /\ PyLiteral.int_of_str cid = Return (country_id cp)
    /\ dict_get (services cp) code = Some sp
    /\ presents sp code prices total.
Proof.
  intros H Hcountry Hd Hservice Hcollect Hne.
  apply parse_complex_prices_exact in H.
  assert (Hpriced : In (code, srv_data) (filter (priced version) svs)).
  { apply filter_In. split; [exact Hservice|]. eapply priced_true; eauto. }
  assert (Hkept : In (cid, JDict svs) (filter (kept version) data)).
  { apply filter_In. split; [exact Hcountry|]. unfold kept. simpl.
    apply existsb_exists. exists (code, srv_data). split; [exact Hservice|].
    eapply priced_true; eauto. }
  destruct (forall2_in_right _ _ _ _ H Hkept) as (cp & Hcp & Hid & svs' & E & Hmap).
  simpl in Hid, E. injection E as <-. specialize (Hmap Hd).
  destruct (forall2_in_right _ _ _ _ Hmap Hpriced)
    as ([code' sp] & Hentry & Hcode & prices' & total' & Hcollect' & Hpres).
  simpl in Hcode, Hcollect', Hpres. subst code'.
  rewrite Hcollect in Hcollect'. injection Hcollect' as <- <-.
  exists cp, sp. split; [exact Hcp|]. split; [exact Hid|]. split; [|exact Hpres].
  apply dict_get_in; [|exact Hentry].
  assert (Hkeys : dict_keys (services cp) = dict_keys (filter (priced version) svs)).
  { clear -Hmap. unfold service_map_of in Hmap. unfold dict_keys.
    induction Hmap as [|a b l1 l2 [Hab _] _ IH]; simpl; congruence. }
  rewrite Hkeys. now apply nodup_keys_filter.
Qed.

(** A service without price could as well be absent from the payload. *)
Lemma unpriced_service_dropped (version code : string) (srv_data : json)
    (total : Z) (pre post : dict json) :
  collect version srv_data = Return ([], total) ->
  build_service_map version (JDict (pre ++ (code, srv_data) :: post))
  = build_service_map version (JDict (pre ++ post)).
Proof.
  intros H. unfold build_service_map. cbn [PyVal.items bind_res].
  rewrite !for_each_app.
  match goal with
  | |- bind_res ?m _ = _ => destruct m as [sm|e]; [|reflexivity]
  end.
  simpl. now rewrite H.
Qed.

(** A country none of whose services has a price could as well be absent
    from the payload. *)
Lemma unpriced_country_dropped (version cid : string) (svs pre post : dict json) :
  (forall code srv_data, In (code, srv_data) svs ->
     exists total, collect version srv_data = Return ([], total)) ->
  _parse_complex_prices (JDict (pre ++ (cid, JDict svs) :: post)) version
  = _parse_complex_prices (JDict (pre ++ post)) version.
Proof.
  intros H. unfold _parse_complex_prices. cbn [PyVal.items bind_res].
  rewrite !for_each_app.
  match goal with
  | |- bind_res ?m _ = _ => destruct m as [result|e]; [|reflexivity]
  end.
  simpl.
  assert (Hsm : build_service_map version (JDict svs) = Return []).
  { unfold build_service_map. cbn [PyVal.items bind_res].
    apply for_each_idle. intros [code srv_data] Hin.
    destruct (H code srv_data Hin) as (total & ->). reflexivity. }
  now rewrite Hsm.
Qed.

End BowerResult.

(** C6 (amended).  For SMSBower price payloads keyed by country id, then by
    service code:
    - v2, a mapping price-string to count: the prices derived are the floats
      of all the keys, one per key (two keys that denote the same number give
      the price twice), and the count is the sum of the counts;
    - v3, a mapping provider to [{price, count}]: the prices derived are the
      providers' prices, duplicates kept, and the count the sum of the
      providers' counts;
    - from a non-empty list of prices a service price is built that presents
      them: the one price as a scalar cost, or the sorted list, with the
      first and last of it as [min_price] and [max_price]; the list has the
      same prices with the same multiplicities, in ascending order when none
      is NaN;
    - the result of [_parse_complex_prices] holds, in the order of the
      payload, exactly one entry for each country that has a service with a
      price, and the service map of the entry exactly one service price for
      each such service, presenting its prices;
    - so a country and service with prices is in the result under the
      integer of the country key and under the service code;
    - a service without price, and a country without priced service, could
      as well be absent from the payload;
    - a payload whose country ids, price strings, prices and counts can all
      be read gives a result. *)
Theorem bower_prices_derived :
  (forall (kv : dict json) (prices : list PyFloat.float) (counts : list Z),
      PyList.comprehension PyLiteral.float_of_str (dict_keys kv) = Return prices ->
      PyList.comprehension PyVal.to_int (dict_values kv) = Return counts ->
      SMSBowerClient.collect "v2" (JDict kv) = Return (prices, BowerFacts.total counts))
  /\ (forall (version : string) (kv : dict json) (prices : list PyFloat.float)
             (counts : list Z),
      String.eqb version "v2" = false ->
      PyList.comprehension BowerFacts.provider_price (dict_values kv) = Return prices ->
      PyList.comprehension BowerFacts.provider_count (dict_values kv) = Return counts ->
      SMSBowerClient.collect version (JDict kv) = Return (prices, BowerFacts.total counts))
  /\ (forall (srv_code : string) (prices : list PyFloat.float) (total_count : Z),
      prices <> [] ->
      exists sp,
        SMSBowerClient.service_price srv_code prices total_count = Return sp
        /\ BowerResult.presents sp srv_code prices total_count)
  /\ (forall (data : dict json) (version : string) (result : list CountryPrices),
      SMSBowerClient._parse_complex_prices (JDict data) version = Return result ->
      BowerResult.countries_of version data result)
  /\ (forall (data : dict json) (version : string) (result : list CountryPrices)
             (cid code : string) (svs : dict json) (srv_data : json)
             (prices : list PyFloat.float) (total : Z),
      SMSBowerClient._parse_complex_prices (JDict data) version = Return result ->
      In (cid, JDict svs) data ->
      NoDup (dict_keys svs) ->
      In (code, srv_data) svs ->
      SMSBowerClient.collect version srv_data = Return (prices, total) ->
      prices <> [] ->
      exists cp sp,
        In cp result
        /\ PyLiteral.int_of_str cid = Return (country_id cp)
        /\ dict_get (services cp) code = Some sp
        /\ BowerResult.presents sp code prices total)
  /\ (forall (version code : string) (srv_data : json) (total : Z)
             (pre post : dict json),
      SMSBowerClient.collect version srv_data = Return ([], total) ->
      SMSBowerClient.build_service_map version (JDict (pre ++ (code, srv_data) :: post))
      = SMSBowerClient.build_service_map version (JDict (pre ++ post)))
  /\ (forall (version cid : string) (svs pre post : dict json),
      (forall code srv_data, In (code, srv_data) svs ->
         exists total, SMSBowerClient.collect version srv_data = Return ([], total)) ->
      SMSBowerClient._parse_complex_prices (JDict (pre ++ (cid, JDict svs) :: post)) version
      = SMSBowerClient._parse_complex_prices (JDict (pre ++ post)) version)
  /\ (forall (data : dict json) (version : string),
      BowerFacts.readable version data ->
      exists result,
        SMSBowerClient._parse_complex_prices (JDict data) version = Return result).
Proof.
  repeat apply conj.
  - intros kv prices counts Hp Hc.
    unfold SMSBowerClient.collect, SMSBowerClient.collect_v2.
    cbn [String.eqb Ascii.eqb Bool.eqb andb PyVal.items bind_res].
    now rewrite (BowerFacts.v2_loop kv prices [] counts 0).
  - intros version kv prices counts Hv Hp Hc.
    unfold SMSBowerClient.collect, SMSBowerClient.collect_v3. rewrite Hv.
    cbn [PyVal.values bind_res].
    now rewrite (BowerFacts.v3_loop (dict_values kv) prices [] counts 0).
  - apply BowerResult.service_price_presents.
  - apply BowerResult.parse_complex_prices_exact.
  - apply BowerResult.parse_complex_prices_complete.
  - apply BowerResult.unpriced_service_dropped.
  - apply BowerResult.unpriced_country_dropped.
  - apply BowerFacts.parse_complex_prices_total.
Qed.

(** The v2 and v3 payloads of the test suite. *)
Lemma bower_prices_derived_witness :
  SMSBowerClient.collect "v2" (JDict [("10.5", JInt 100); ("15.0", JInt 50)])
  = Return ([PyFloat.of_decimal false 105 (-1); PyFloat.of_decimal false 150 (-1)], 150)
  /\ SMSBowerClient.collect "v3"
       (JDict [("prov1", JDict [("price", JInt 12); ("count", JInt 10)]);
               ("prov2", JDict [("price", JInt 15); ("count", JInt 5)])])
     = Return ([PyFloat.of_decimal false 12 0; PyFloat.of_decimal false 15 0], 15)
  /\ exists cp sp,
       In cp [mkCountryPrices 0
                [("tg", mkServicePrice "tg"
                          (Prices [PyFloat.of_decimal false 105 (-1);
                                   PyFloat.of_decimal false 150 (-1)])
                          (PyFloat.of_decimal false 105 (-1))
                          (PyFloat.of_decimal false 150 (-1)) 150)]]
       /\ PyLiteral.int_of_str "0" = Return (country_id cp)
       /\ dict_get (services cp) "tg" = Some sp
       /\ BowerResult.presents sp "tg"
            [PyFloat.of_decimal false 105 (-1); PyFloat.of_decimal false 150 (-1)] 150.
Proof.
  destruct bower_prices_derived as (Hv2 & Hv3 & _ & _ & Hcomplete & _).
  split; [|split].
  - apply (Hv2 [("10.5", JInt 100); ("15.0", JInt 50)] _ [100; 50]); reflexivity.
  - apply (Hv3 "v3" [("prov1", JDict [("price", JInt 12); ("count", JInt 10)]);
                     ("prov2", JDict [("price", JInt 15); ("count", JInt 5)])]
             _ [10; 5]); reflexivity.
  - apply (Hcomplete [("0", JDict [("tg", JDict [("10.5", JInt 100); ("15.0", JInt 50)])])]
             "v2" _ "0" "tg" [("tg", JDict [("10.5", JInt 100); ("15.0", JInt 50)])]
             (JDict [("10.5", JInt 100); ("15.0", JInt 50)])).
    + reflexivity.
    + simpl. auto.
    + repeat constructor. simpl. tauto.
    + simpl. auto.
    + reflexivity.
    + discriminate.
Defined.

(** C6 (counterexample).  Under v2 the price strings [10.5] and [10.50] are
    two keys for one price: the cost derived is the list with that price
    twice, not the distinct prices (and not the scalar a single distinct
    price would give).  And with the keys [nan] and [1.0] the list derived,
    NaN then 1.0, is not ascending. *)
Lemma same_price_kept_twice :
  SMSBowerClient._parse_complex_prices Scenario.same_price_payload "v2"
  = Return [mkCountryPrices 0
              [("tg", mkServicePrice "tg"
                        (Prices [S754_finite false 5910974510923776 (-49);
                                 S754_finite false 5910974510923776 (-49)])
                        (S754_finite false 5910974510923776 (-49))
                        (S754_finite false 5910974510923776 (-49)) 150)]]
  /\ PyFloat.exactly (S754_finite false 5910974510923776 (-49)) false 105 (-1) = true
  /\ SMSBowerClient._parse_complex_prices Scenario.nan_first_payload "v2"
     = Return [mkCountryPrices 0
                 [("tg", mkServicePrice "tg"
                           (Prices [PyFloat.nan; S754_finite false 4503599627370496 (-52)])
                           PyFloat.nan (S754_finite false 4503599627370496 (-52)) 2)]]
  /\ PyFloat.leb PyFloat.nan (S754_finite false 4503599627370496 (-52)) = false.
Proof. repeat split; vm_compute; reflexivity. Qed.

(* ================================================================= *)
(** * The discipline of requests *)

(** The action names of the vendors' protocol. *)
Definition known_actions : list string :=
  ["getBalance"; "getNumber"; "setStatus"; "getStatus"; "getExtraActivation";
   "getPrices"; "getPricesV2"; "getPricesV3"; "getTopCountriesByService"].

(** A request of the client [self]: sent to its URL, with its API key and
    one of the known actions. *)
Definition addressed_by (self : client) (r : request) : Prop :=
  req_url r = base_url self
  /\ dict_get (req_query r) "api_key" = Some (PStr (api_key self))
  /\ exists action, dict_get (req_query r) "action" = Some (PStr action)
                    /\ In action known_actions.

(** A method keeps the discipline with budget [n] when, from any log, it
    sends at most [n] requests, each satisfying [P], and a request whose
    reply is refused (a transport failure or an error token) is the last it
    sends and decides its outcome. *)
Definition disciplined {A : Type} (P : request -> Prop) (n : nat) (m : IO A) : Prop :=
  forall (net : transport) (log : list request),
  exists rs : list request,
    snd (m net log) = (log ++ rs)%list
    /\ (List.length rs <= n)%nat
    /\ Forall P rs
    /\ forall (i : nat) (r : request) (e : exn),
        nth_error rs i = Some r ->
        ClientBase.read_reply (net (log ++ firstn i rs)%list r) = Raise e ->
        fst (m net log) = Raise e /\ List.length rs = S i.

Section Discipline.
Context {A B : Type} (P : request -> Prop).

Lemma disciplined_pure (n : nat) (x : res A) : disciplined P n (lift x).
Proof.
  intros net log. exists []. simpl. rewrite List.app_nil_r.
  split; [reflexivity|]. split; [lia|]. split; [constructor|].
  intros [|i] r e H; discriminate.
Qed.

Lemma disciplined_ret (n : nat) (a : A) : disciplined P n (ret a).
Proof. exact (disciplined_pure n (Return a)). Qed.

Lemma disciplined_raise (n : nat) (e : exn) : disciplined P n (@raise A e).
Proof. exact (disciplined_pure n (Raise e)). Qed.

Lemma disciplined_bind (n1 n2 : nat) (m : IO A) (k : A -> IO B) :
  disciplined P n1 m -> (forall a, disciplined P n2 (k a)) ->
  disciplined P (n1 + n2) (bind m k).
Proof.
  intros Hm Hk net log. unfold bind.
  destruct (Hm net log) as (rs1 & Hlog1 & Hn1 & HP1 & Herr1).
  destruct (m net log) as [[a|e] log1] eqn:Em; simpl in *; subst log1.
  - destruct (Hk a net (log ++ rs1)%list) as (rs2 & Hlog2 & Hn2 & HP2 & Herr2).
    exists (rs1 ++ rs2)%list. rewrite Hlog2, <- List.app_assoc.
    split; [reflexivity|]. split; [rewrite length_app; lia|].
    split; [now apply Forall_app|].
    intros i r e Hnth Hnet.
    destruct (Nat.lt_ge_cases i (List.length rs1)) as [Hlt|Hge].
    + rewrite nth_error_app1 in Hnth by assumption.
      rewrite firstn_app in Hnet.
      replace (i - List.length rs1)%nat with 0%nat in Hnet by lia.
      simpl in Hnet. rewrite List.app_nil_r in Hnet.
      destruct (Herr1 i r e Hnth Hnet) as [Habs _]. discriminate.
    + rewrite nth_error_app2 in Hnth by assumption.
      rewrite firstn_app, firstn_all2, List.app_assoc in Hnet by assumption.
      destruct (Herr2 _ r e Hnth Hnet) as [Hout Hlen].
      split; [exact Hout|]. rewrite length_app. lia.
  - exists rs1. split; [reflexivity|]. split; [lia|]. split; [exact HP1|].
    intros i r e' Hnth Hnet. destruct (Herr1 i r e' Hnth Hnet) as [Hout Hlen].
    split; [congruence|exact Hlen].
Qed.

End Discipline.

Lemma disciplined_request (P : request -> Prop) (n : nat) (self : client)
    (action : string) (params : dict pval) :
  P (ClientBase.query self action params) ->
  disciplined P (S n) (ClientBase._request self action params).
Proof.
  intros HP net log. rewrite request_run. simpl.
  exists [ClientBase.query self action params].
  split; [reflexivity|]. split; [simpl; lia|]. split; [now repeat constructor|].
  intros [|[|i]] r e Hnth Hnet; try discriminate.
  injection Hnth as <-. simpl in Hnet. rewrite List.app_nil_r in Hnet.
  now split.
Qed.

(** A request first, then what follows with the rest of the budget. *)
Lemma disciplined_after_request {B : Type} (P : request -> Prop) (n : nat)
    (self : client) (action : string) (params : dict pval) (k : string -> IO B) :
  P (ClientBase.query self action params) ->
  (forall response, disciplined P n (k response)) ->
  disciplined P (S n) (bind (ClientBase._request self action params) k).
Proof.
  intros HP Hk.
  apply (disciplined_bind P 1 n); [now apply disciplined_request|exact Hk].
Qed.

(** A step without request first. *)
Lemma disciplined_after_pure {A B : Type} (P : request -> Prop) (n : nat)
    (x : res A) (k : A -> IO B) :
  (forall a, disciplined P n (k a)) -> disciplined P n (bind (lift x) k).
Proof.
  intros Hk. apply (disciplined_bind P 0 n); [apply disciplined_pure|exact Hk].
Qed.

(** [bind] is associative as far as the discipline can tell. *)
Lemma disciplined_assoc {A B C : Type} (P : request -> Prop) (n : nat)
    (m : IO A) (f : A -> IO B) (g : B -> IO C) :
  disciplined P n (bind m (fun a => bind (f a) g)) ->
  disciplined P n (bind (bind m f) g).
Proof.
  intros H net log. specialize (H net log).
  unfold bind in *. destruct (m net log) as [[a|e] log1]; exact H.
Qed.

(** The keyword arguments of the call in [get_new_sms] are refused. *)
Lemma call_get_sms_refused (self : client) (activation_id : string)
    (timeout interval : Z) :
  ClientBase.call_get_sms self activation_id
    [("timeout", PInt timeout); ("interval", PInt interval)]
  = raise TypeError.
Proof. reflexivity. Qed.

(** The requests an operation may send. *)
Definition request_budget (op : operation) : nat :=
  match op with
  | ReactivationNumber _ => 2
  | _ => 1
  end.

Ltac address :=
  unfold ClientBase.get_number_params, SMSBowerClient.price_params;
  repeat match goal with
    | |- context [match ?x with _ => _ end] => destruct x
    end;
  cbn; repeat split; try reflexivity;
  (eexists; (split; [reflexivity|unfold known_actions; simpl; auto 12])).

Ltac discipline :=
  repeat match goal with
    | |- disciplined _ _ (bind (ClientBase._request _ _ _) _) =>
        apply disciplined_after_request; [address|intros ?]
    | |- disciplined _ _ (ClientBase._request _ _ _) =>
        apply disciplined_request; address
    | |- disciplined _ _ (bind (lift _) _) => apply disciplined_after_pure; intros ?
    | |- disciplined _ _ (bind (bind _ _) _) => apply disciplined_assoc
    | |- disciplined _ _ (bind (match ?x with _ => _ end) _) => destruct x
    | |- disciplined _ _ (match ?x with _ => _ end) => destruct x
    | |- disciplined _ _ (bind (ret _) _) => apply (disciplined_after_pure _ _ (Return _)); intros ?
    | |- disciplined _ _ (bind (raise _) _) => apply (disciplined_after_pure _ _ (Raise _)); intros ?
    | |- disciplined _ _ (ret _) => apply disciplined_ret
    | |- disciplined _ _ (raise _) => apply disciplined_raise
    | |- disciplined _ _ (lift _) => apply disciplined_pure
    end.

Section OperationsDiscipline.
Variable json_loads : string -> res json.

Lemma perform_disciplined (self : client) (op : operation) :
  disciplined (addressed_by self) (request_budget op) (perform json_loads self op).
Proof.
  unfold perform. destruct (has_method (cls self) op); [|apply disciplined_raise].
  destruct op; unfold fmap, get_prices, request_budget;
    unfold ClientBase.get_balance, ClientBase.get_number,
      ClientBase.reactivation_number, ClientBase.get_new_sms,
      ClientBase.get_sms, ClientBase.get_status,
      ClientBase.active_status, ClientBase.set_status,
      HeroSMSClient.get_prices, SMSBowerClient.get_prices,
      SMSBowerClient.get_prices_v2, SMSBowerClient.get_prices_v3,
      ClientBase.get_prices, ClientBase.get_top_countries_by_service;
    rewrite ?call_get_sms_refused;
    discipline.
Qed.

End OperationsDiscipline.

(** A vendor that cannot be reached: every request fails. *)
Definition unreachable : transport := fun _ _ => HttpFailure.

Section OperationsOnTheWire.
Variable json_loads : string -> res json.

(** X1.  Every request an operation sends goes to the URL of the client,
    carries the client's API key under [api_key] and one of the nine action
    names of the protocol under [action]: no parameter of a method ever
    overrides either. *)
Theorem every_request_addressed (self : client) (op : operation) (net : transport)
    (r : request) :
  In r (calls (perform json_loads self op) net) -> addressed_by self r.
Proof.
  intros Hin.
  destruct (perform_disciplined json_loads self op net []) as (rs & E & _ & HP & _).
  unfold calls, run in Hin. rewrite E in Hin. simpl in Hin.
  exact (proj1 (Forall_forall _ _) HP r Hin).
Qed.

(** X2.  An operation the client has sends exactly one request, except
    [reactivation_number], which sends one or two: nothing is retried and
    nothing is polled. *)
Theorem one_request_per_operation (self : client) (op : operation)
    (net : transport) :
  has_method (cls self) op = true ->
  (1 <= List.length (calls (perform json_loads self op) net) <= request_budget op)%nat.
Proof.
  intros Hm.
  destruct (perform_disciplined json_loads self op net []) as (rs & E & Hn & _ & _).
  destruct (perform_starts json_loads self op Hm net []) as (r & rs' & E').
  unfold calls, run. rewrite E in E'. simpl in E'. subst rs.
  rewrite E. simpl in *. lia.
Qed.

(** X3.  When the reply to a request is refused, by the transport or
    because the text carries an error token, the operation raises that very
    error, not wrapped in a parse error, and sends no further request. *)
Theorem refused_reply_ends_operation (self : client) (op : operation)
    (net : transport) (i : nat) (r : request) (e : exn) :
  nth_error (calls (perform json_loads self op) net) i = Some r ->
  ClientBase.read_reply (net (firstn i (calls (perform json_loads self op) net)) r)
  = Raise e ->
  outcome (perform json_loads self op) net = Raise e
  /\ List.length (calls (perform json_loads self op) net) = S i.
Proof.
  intros Hnth Hreply.
  destruct (perform_disciplined json_loads self op net []) as (rs & E & _ & _ & Herr).
  unfold calls, outcome, run in *. rewrite E in *. simpl in *.
  exact (Herr i r e Hnth Hreply).
Qed.

End OperationsOnTheWire.

(** [get_balance] on the client of the test suite. *)
Lemma every_request_addressed_witness :
  addressed_by Scenario.hub (ClientBase.query Scenario.hub "getBalance" []).
Proof.
  apply (every_request_addressed (fun _ => Raise JSONDecodeError) Scenario.hub
           GetBalance (Scenario.always "ACCESS_BALANCE:100.50")).
  simpl. auto.
Defined.

(** A reactivation, and a price query. *)
Lemma one_request_per_operation_witness :
  (1 <= List.length (calls (perform (fun _ => Raise JSONDecodeError) Scenario.hub
                              (ReactivationNumber "12345"))
                       (Scenario.always "ACCESS_NUMBER:67890:79990000000")) <= 2)%nat
  /\ (1 <= List.length (calls (perform (Scenario.decodes_to Scenario.v2_payload)
                                 Scenario.bower (GetPrices (Some "tg") None false))
                          (Scenario.always "payload")) <= 1)%nat.
Proof.
  split.
  - apply (one_request_per_operation (fun _ => Raise JSONDecodeError) Scenario.hub
             (ReactivationNumber "12345")). reflexivity.
  - apply (one_request_per_operation (Scenario.decodes_to Scenario.v2_payload)
             Scenario.bower (GetPrices (Some "tg") None false)). reflexivity.
Defined.

(** A price query to a vendor that cannot be reached. *)
Lemma refused_reply_ends_operation_witness :
  outcome (perform (Scenario.decodes_to Scenario.v2_payload) Scenario.bower
             (GetPricesV3 None None)) unreachable = Raise HTTPStatusError
  /\ List.length (calls (perform (Scenario.decodes_to Scenario.v2_payload) Scenario.bower
                           (GetPricesV3 None None)) unreachable) = 1%nat.
Proof.
  apply (refused_reply_ends_operation (Scenario.decodes_to Scenario.v2_payload)
           Scenario.bower (GetPricesV3 None None) unreachable 0
           (ClientBase.query Scenario.bower "getPricesV3" [])); reflexivity.
Defined.

(* ================================================================= *)
(** * Accepted replies *)

Lemma check_errors_passes (errs : list string) (text : string) :
  (forall tok, In tok errs -> PyStr.contains tok text = false) ->
  ClientBase.check_errors errs text = Return tt.
Proof.
  induction errs as [|err errs IH]; intros H; simpl; [reflexivity|].
  rewrite (H err) by now left. apply IH. intros tok Hin. apply H. now right.
Qed.

(** X4.  The body of a 2xx reply is handed to the caller unchanged exactly
    when none of the six error tokens occurs in it; otherwise it is
    refused: the scan has no other effect on the text. *)
Theorem reply_accepted_iff_no_token (text : string) :
  ClientBase.read_reply (HttpBody text) = Return text <-> ~ has_error_token text.
Proof.
  split.
  - intros H Htok. rewrite (read_reply_error text Htok) in H. discriminate.
  - intros H. unfold ClientBase.read_reply.
    rewrite check_errors_passes; [reflexivity|].
    intros tok Hin. destruct (PyStr.contains tok text) eqn:E; [|reflexivity].
    exfalso. apply H. apply PyStrFacts.contains_inv in E as (pre & post & ->).
    now exists tok, pre, post.
Qed.

(* ================================================================= *)
(** * The base URL of a client *)

Module UrlFacts.
Import PyStr.

Definition is_slash (c : ascii) : bool := Ascii.eqb c "/"%char.

Lemma rstrip_app_dropped (drop : ascii -> bool) (s : string) (c : ascii) :
  drop c = true -> rstrip_by drop (s ++ String c "") = rstrip_by drop s.
Proof.
  intros Hc. induction s as [|a s IH]; simpl.
  - now rewrite Hc.
  - now rewrite IH.
Qed.

Lemma rstrip_no_dropped_end (drop : ascii -> bool) (s v : string) (c : ascii) :
  drop c = true -> rstrip_by drop s <> v ++ String c "".
Proof.
  intros Hc. revert v. induction s as [|a s IH]; intros v; simpl.
  - destruct v; discriminate.
  - destruct (rstrip_by drop s) as [|b r] eqn:E.
    + destruct (drop a) eqn:Ea.
      * destruct v; discriminate.
      * destruct v as [|x [|y v]]; simpl; try discriminate.
        intros H. injection H as ->. congruence.
    + destruct v as [|x v]; simpl; [discriminate|].
      intros H. injection H as _ H. exact (IH v H).
Qed.

Lemma rstrip_prefix (drop : ascii -> bool) (s : string) :
  exists tail, s = rstrip_by drop s ++ tail /\ rstrip_by drop tail = "".
Proof.
  induction s as [|a s (tail & Hs & Htail)]; simpl.
  - now exists "".
  - destruct (rstrip_by drop s) as [|b r] eqn:E.
    + destruct (drop a) eqn:Ea.
      * exists (String a s). split; [reflexivity|]. simpl. now rewrite E, Ea.
      * exists tail. simpl in Hs. split; [simpl; congruence|exact Htail].
    + exists tail. split; [|exact Htail].
      change (String a s = String a (String b r ++ tail)). now f_equal.
Qed.

End UrlFacts.

(** X5.  A client is built on its base URL without the slashes that end
    it: the URL it keeps never ends with a slash, is the given URL up to
    slashes at the end, and is the same whether or not one more slash is
    given. *)
Theorem init_strips_trailing_slashes (c : client_class) (key url : string)
    (proxy : option string) (timeout : Z) :
  let kept := base_url (ClientBase_init c key url proxy timeout) in
  (forall v, kept <> v ++ "/")
  /\ (exists tail, url = kept ++ tail /\ PyStr.rstrip_slash tail = "")
  /\ base_url (ClientBase_init c key (url ++ "/") proxy timeout) = kept.
Proof.
  simpl. unfold PyStr.rstrip_slash. split; [|split].
  - intros v. now apply UrlFacts.rstrip_no_dropped_end.
  - apply UrlFacts.rstrip_prefix.
  - now apply UrlFacts.rstrip_app_dropped.
Qed.

(* ================================================================= *)
(** * The fields of a number response *)

(** X6.  [get_number] checks only that the response starts with
    [ACCESS_NUMBER] and reads the second and third colon-separated fields:
    whatever follows the prefix in the first field and whatever follows a
    third colon is ignored.  A response with the prefix but fewer than three
    fields is not refused with the SDK's [ValueError]: the missing field
    raises [IndexError]. *)
Theorem number_fields_by_position (self : client) (service : string)
    (country : option Z) (operator : option string) (net : transport)
    (head id phone : string) :
  let q := ClientBase.query self "getNumber"
             (ClientBase.get_number_params service country operator) in
  PyStr.startswith "ACCESS_NUMBER" head = true ->
  PyStr.has_char ":" head = false ->
  PyStr.has_char ":" id = false ->
  PyStr.has_char ":" phone = false ->
  (ClientBase.read_reply (net [] q) = Return (head ++ ":" ++ id ++ ":" ++ phone) ->
   outcome (ClientBase.get_number self service country operator) net
   = Return (mkNumberActivation id phone service))
  /\ (forall rest : string,
        ClientBase.read_reply (net [] q)
        = Return (head ++ ":" ++ id ++ ":" ++ phone ++ ":" ++ rest) ->
        outcome (ClientBase.get_number self service country operator) net
        = Return (mkNumberActivation id phone service))
  /\ (ClientBase.read_reply (net [] q) = Return (head ++ ":" ++ id) ->
      outcome (ClientBase.get_number self service country operator) net
      = Raise IndexError)
  /\ (ClientBase.read_reply (net [] q) = Return head ->
      outcome (ClientBase.get_number self service country operator) net
      = Raise IndexError).
Proof.
  intros q Hpre Hhead Hid Hphone. split; [|split; [|split]].
  - intros Hreply. rewrite (get_number_outcome _ _ _ _ _ _ Hreply).
    rewrite parse_number_fields by assumption.
    now rewrite PyStrFacts.split_plain by assumption.
  - intros rest Hreply. rewrite (get_number_outcome _ _ _ _ _ _ Hreply).
    rewrite parse_number_fields by assumption.
    change (phone ++ ":" ++ rest) with (phone ++ String ":" rest).
    now rewrite PyStrFacts.split_field by assumption.
  - intros Hreply. rewrite (get_number_outcome _ _ _ _ _ _ Hreply).
    unfold ClientBase.parse_number.
    change (head ++ ":" ++ id) with (head ++ String ":" id).
    assert (Hstart : PyStr.startswith "ACCESS_NUMBER" (head ++ String ":" id) = true).
    { apply PyStrFacts.startswith_inv in Hpre as (t & ->).
      rewrite PyStrFacts.app_assoc. apply PyStrFacts.startswith_app. }
    rewrite Hstart.
    rewrite PyStrFacts.split_field, PyStrFacts.split_plain by assumption.
    reflexivity.
  - intros Hreply. rewrite (get_number_outcome _ _ _ _ _ _ Hreply).
    unfold ClientBase.parse_number.
    rewrite Hpre, PyStrFacts.split_plain by assumption. reflexivity.
Qed.

(** A response with a longer first field and a fourth field, and a short
    one. *)
Lemma number_fields_by_position_witness :
  outcome (ClientBase.get_number Scenario.hub "tg" None None)
          (Scenario.always "ACCESS_NUMBER_OK:12345:79991234567:extra")
  = Return (mkNumberActivation "12345" "79991234567" "tg")
  /\ outcome (ClientBase.get_number Scenario.hub "tg" None None)
             (Scenario.always "ACCESS_NUMBER_OK:12345")
     = Raise IndexError.
Proof.
  split.
  - apply (proj1 (proj2 (number_fields_by_position Scenario.hub "tg" None None
                           (Scenario.always "ACCESS_NUMBER_OK:12345:79991234567:extra")
                           "ACCESS_NUMBER_OK" "12345" "79991234567"
                           eq_refl eq_refl eq_refl eq_refl)) "extra").
    reflexivity.
  - apply (proj1 (proj2 (proj2 (number_fields_by_position Scenario.hub "tg" None None
                                  (Scenario.always "ACCESS_NUMBER_OK:12345")
                                  "ACCESS_NUMBER_OK" "12345" "79991234567"
                                  eq_refl eq_refl eq_refl eq_refl)))).
    reflexivity.
Defined.

(* ================================================================= *)
(** * The parameters of [get_number] *)

(** X7.  The one request of [get_number] always carries the service, even
    when it is empty; it carries the country whenever one is given, also
    country 0; and it carries no operator when the operator is omitted or
    empty. *)
Theorem get_number_optional_parameters (self : client) (service : string)
    (country : option Z) (operator : option string) (net : transport) :
  exists q : dict pval,
    calls (ClientBase.get_number self service country operator) net
    = [mkRequest (base_url self) q]
    /\ dict_get q "service" = Some (PStr service)
    /\ dict_get q "country" = option_map PInt country
    /\ (operator = None \/ operator = Some "" -> dict_get q "operator" = None)
    /\ (forall op, operator = Some op -> op <> "" ->
                   exists sent, dict_get q "operator" = Some (PStr sent)).
Proof.
  exists (req_query (ClientBase.query self "getNumber"
                       (ClientBase.get_number_params service country operator))).
  split.
  - unfold calls, ClientBase.get_number. rewrite single_request_run.
    destruct (ClientBase.read_reply _); reflexivity.
  - unfold ClientBase.get_number_params.
    destruct country as [c|], operator as [[|a op]|]; cbn;
      repeat split; try reflexivity; try (intros [H|H]; congruence);
      try (intros op' H; discriminate H); try (intros op' H Hne; congruence).
    all: try (destruct (negb (c =? 73)); cbn; repeat split; try reflexivity;
              try (intros [H|H]; discriminate H); intros op' H Hne; eauto).
    all: intros op' H Hne; eauto.
Qed.

(* ================================================================= *)
(** * Status responses *)

Lemma split1_inv (sep : ascii) (s h t : string) :
  PyStr.split1 sep s = Some (h, t) ->
  s = h ++ String sep t /\ PyStr.has_char sep h = false.
Proof.
  revert h. induction s as [|a s IH]; intros h; simpl; [discriminate|].
  destruct (Ascii.eqb_spec a sep) as [->|Hne].
  - intros H. injection H as <- <-. auto.
  - destruct (PyStr.split1 sep s) as [[h' t']|]; [|discriminate].
    intros H. injection H as <- <-.
    destruct (IH h' eq_refl) as [-> Hh]. simpl.
    split; [reflexivity|].
    rewrite Hh, orb_false_r. now apply Ascii.eqb_neq.
Qed.

Lemma has_char_split1 (sep : ascii) (s : string) :
  PyStr.has_char sep s = true -> exists h t, PyStr.split1 sep s = Some (h, t).
Proof.
  induction s as [|a s IH]; simpl; [discriminate|].
  destruct (Ascii.eqb a sep); simpl; [eauto|].
  intros H. destruct (IH H) as (h & t & ->). eauto.
Qed.

(** X8.  Reading a status response loses nothing and refuses nothing: the
    status never contains a colon, the response is the status alone when no
    code is read, and the status, a colon and the code otherwise, so a code
    may itself contain colons. *)
Theorem parse_status_lossless (response : string) :
  let st := ClientBase.parse_status response in
  PyStr.has_char ":" (status st) = false
  /\ response = match code st with
                | Some c => status st ++ ":" ++ c
                | None => status st
                end.
Proof.
  unfold ClientBase.parse_status.
  destruct (PyStr.has_char ":" response) eqn:E; [|now split].
  destruct (has_char_split1 _ _ E) as (h & t & Hs). rewrite Hs. simpl.
  apply split1_inv in Hs as [-> Hh]. now split.
Qed.

(* ================================================================= *)
(** * The errors of [get_balance] *)

Lemma float_of_str_error (s : string) (e : exn) :
  PyLiteral.float_of_str s = Raise e -> e = LiteralError.
Proof.
  unfold PyLiteral.float_of_str.
  repeat match goal with
    | |- context [match ?x with _ => _ end] => destruct x
    end; congruence.
Qed.

Lemma split_second_field (sep : ascii) (s : string) :
  PyStr.has_char sep s = true -> exists a b rest, PyStr.split sep s = a :: b :: rest.
Proof.
  induction s as [|c s IH]; simpl; [discriminate|].
  destruct (Ascii.eqb c sep); simpl.
  - intros _. destruct (PyStr.split sep s) as [|b rest] eqn:E.
    + destruct s; simpl in E; [discriminate|].
      destruct (Ascii.eqb _ _); [discriminate|].
      destruct (PyStr.split sep s); discriminate.
    + eauto.
  - intros H. destruct (IH H) as (a & b & rest & ->). eauto.
Qed.

Lemma read_reply_errors (reply : http_reply) (e : exn) :
  ClientBase.read_reply reply = Raise e ->
  e = HTTPStatusError \/ exists text, e = ValueError ("API Error: " ++ text).
Proof.
  destruct reply as [|text]; unfold ClientBase.read_reply.
  - intros H. injection H as <-. now left.
  - intros H. right. exists text.
    assert (Hc : forall errs u, ClientBase.check_errors errs text = Raise u ->
                                u = ValueError ("API Error: " ++ text)).
    { induction errs as [|err errs IH]; simpl; [discriminate|].
      intros u. destruct (PyStr.contains err text); [congruence|apply IH]. }
    destruct (ClientBase.check_errors ClientBase.errors text) as [[]|u] eqn:E;
      [discriminate|].
    simpl in H. injection H as <-. now apply (Hc ClientBase.errors).
Qed.

(** X9.  [get_balance] sends one request and fails in four ways only: the
    transport's error, the vendor's error token, the SDK's [ValueError] for
    a response without colon, and the [ValueError] of [float] for a second
    field that is not a number.  The field it reads always exists, so it
    never raises [IndexError]. *)
Theorem get_balance_errors (self : client) (net : transport) (e : exn) :
  outcome (ClientBase.get_balance self) net = Raise e ->
  e = HTTPStatusError
  \/ (exists text, e = ValueError ("API Error: " ++ text))
  \/ (exists response,
        PyStr.has_char ":" response = false
        /\ e = ValueError ("Unexpected balance response: " ++ response))
  \/ e = LiteralError.
Proof.
  unfold outcome, ClientBase.get_balance. rewrite single_request_run.
  destruct (ClientBase.read_reply _) as [response|e'] eqn:E; simpl.
  - unfold ClientBase.parse_balance.
    destruct (PyStr.has_char ":" response) eqn:Hc.
    + destruct (split_second_field _ _ Hc) as (a & b & rest & ->). simpl.
      destruct (PyLiteral.float_of_str b) as [x|e'] eqn:Ef; simpl; [discriminate|].
      intros H. injection H as <-. right. right. right.
      exact (float_of_str_error b e' Ef).
    + intros H. injection H as <-. right. right. left. now exists response.
  - intros H. injection H as <-.
    destruct (read_reply_errors _ _ E) as [->|Htext]; auto.
Qed.

(** A response without colon. *)
Lemma get_balance_errors_witness :
  ValueError "Unexpected balance response: NO_BALANCE" = HTTPStatusError
  \/ (exists text, ValueError "Unexpected balance response: NO_BALANCE"
                   = ValueError ("API Error: " ++ text))
  \/ (exists response,
        PyStr.has_char ":" response = false
        /\ ValueError "Unexpected balance response: NO_BALANCE"
           = ValueError ("Unexpected balance response: " ++ response))
  \/ ValueError "Unexpected balance response: NO_BALANCE" = LiteralError.
Proof.
  apply (get_balance_errors Scenario.hub (Scenario.always "NO_BALANCE")).
  reflexivity.
Defined.

(* ================================================================= *)
(** * The errors of the price operations *)

Lemma take_length (n : nat) (s : string) : (String.length (PyStr.take n s) <= n)%nat.
Proof.
  revert s; induction n as [|n IH]; intros s; simpl; [lia|].
  destruct s as [|a s]; simpl; [lia|]. specialize (IH s). lia.
Qed.

(** A refused reply, and the error it gives. *)
Lemma read_reply_refused (reply : http_reply) (e : exn) :
  ClientBase.read_reply reply = Raise e ->
  (reply = HttpFailure /\ e = HTTPStatusError)
  \/ exists text, reply = HttpBody text /\ e = ValueError ("API Error: " ++ text).
Proof.
  intros H. destruct reply as [|text].
  - left. injection H as <-. auto.
  - right. exists text. split; [reflexivity|].
    unfold ClientBase.read_reply in H.
    assert (Hc : forall errs u, ClientBase.check_errors errs text = Raise u ->
                                u = ValueError ("API Error: " ++ text)).
    { induction errs as [|err errs IH]; simpl; [discriminate|].
      intros u. destruct (PyStr.contains err text); [congruence|apply IH]. }
    destruct (ClientBase.check_errors ClientBase.errors text) as [[]|u] eqn:E;
      [discriminate|].
    simpl in H. injection H as <-. now apply (Hc ClientBase.errors).
Qed.

(** The failure of a method that decodes the response of its one request and
    parses the data: the error of the request, or what the handler makes of
    the response and of the exception of the decoder or the parser. *)
Lemma decoded_failure {A : Type} (json_loads : string -> res json) (self : client)
    (action : string) (params : dict pval) (parse : json -> res A)
    (handler : string -> exn -> exn) (net : transport) :
  let m := do response <- ClientBase._request self action params;
           lift (try_except (let! data := json_loads response in parse data)
                            (handler response)) in
  let q := ClientBase.query self action params in
  calls m net = [q]
  /\ forall e, outcome m net = Raise e ->
       ClientBase.read_reply (net [] q) = Raise e
       \/ exists response cause,
            ClientBase.read_reply (net [] q) = Return response
            /\ (let! data := json_loads response in parse data) = Raise cause
            /\ e = handler response cause.
Proof.
  intros m q. unfold calls, outcome, m. rewrite single_request_run. fold q.
  destruct (ClientBase.read_reply (net [] q)) as [response|e'] eqn:E.
  - split; [reflexivity|]. intros e H. right. exists response.
    unfold lift in H. cbn [fst] in H.
    destruct (let! data := json_loads response in parse data) as [a|cause];
      [discriminate|].
    cbn [try_except] in H. injection H as <-. now exists cause.
  - split; [reflexivity|]. intros e H. left. simpl in H. congruence.
Qed.

Lemma fmap_run {A B : Type} (f : A -> B) (m : IO A) (net : transport) :
  calls (fmap f m) net = calls m net
  /\ forall e, outcome (fmap f m) net = Raise e -> outcome m net = Raise e.
Proof.
  unfold calls, outcome, run, fmap, bind, ret.
  destruct (m net []) as [[a|e'] log]; simpl; (split; [reflexivity|]);
    intros e H; [discriminate H|now injection H as ->].
Qed.

(** The price operations. *)
Definition is_price_operation (op : operation) : bool :=
  match op with
  | GetPrices _ _ _ | GetTopCountriesByService _ _
  | GetPricesV2 _ _ | GetPricesV3 _ _ => true
  | _ => false
  end.

(** The error a price operation of a client of class [c] raises when the
    response [response] to its request cannot be decoded or walked, [cause]
    being the exception met: the standard call quotes the whole response,
    the others its first 200 characters. *)
Definition price_failure (c : client_class) (op : operation) (response : string)
    (cause : exn) : exn :=
  let quoting := fun label : string =>
    ValueErrorFrom (label ++ PyStr.take 200 response ++ "... Internal error: ") cause in
  match op with
  | GetTopCountriesByService _ _ => quoting "Error parsing top countries: "
  | GetPricesV2 _ _ => quoting "Error parsing prices V2: "
  | GetPricesV3 _ _ => quoting "Error parsing prices V3: "
  | _ =>
      match c with
      | HeroSMSClient => quoting "Error parsing top countries: "
      | SMSBowerClient => quoting "Error parsing prices V2: "
      | _ => ValueError ("Error parsing prices or received error: " ++ response)
      end
  end.

(** The walk of the decoded data that a price operation of a client of
    class [c] makes. *)
Definition price_parser (c : client_class) (op : operation)
  : json -> res (list CountryPrices) :=
  match op with
  | GetTopCountriesByService service _ => ClientBase.parse_top_countries service
  | GetPricesV2 _ _ => fun data => SMSBowerClient._parse_complex_prices data "v2"
  | GetPricesV3 _ _ => fun data => SMSBowerClient._parse_complex_prices data "v3"
  | GetPrices service _ _ =>
      match c with
      | HeroSMSClient => ClientBase.parse_top_countries service
      | SMSBowerClient => fun data => SMSBowerClient._parse_complex_prices data "v2"
      | _ => ClientBase.parse_prices
      end
  | _ => fun _ => Return []
  end.

(** How a method that decodes the response to its request [q] and walks the
    data with [parse] may fail. *)
Definition price_refusal (json_loads : string -> res json)
    (parse : json -> res (list CountryPrices)) (c : client_class) (op : operation)
    (net : transport) (q : request) (e : exn) : Prop :=
  (net [] q = HttpFailure /\ e = HTTPStatusError)
  \/ (exists text,
        net [] q = HttpBody text
        /\ ClientBase.read_reply (net [] q) = Raise e
        /\ e = ValueError ("API Error: " ++ text))
  \/ (exists response cause,
        ClientBase.read_reply (net [] q) = Return response
        /\ (let! data := json_loads response in parse data) = Raise cause
        /\ e = price_failure c op response cause
        /\ (String.length (PyStr.take 200 response) <= 200)%nat).

Lemma decoded_price_failure (json_loads : string -> res json) (self : client)
    (c : client_class) (op : operation) (action : string) (params : dict pval)
    (parse : json -> res (list CountryPrices)) (handler : string -> exn -> exn)
    (net : transport) (e : exn) :
  let m := do response <- ClientBase._request self action params;
           lift (try_except (let! data := json_loads response in parse data)
                            (handler response)) in
  outcome m net = Raise e ->
  (forall response cause, handler response cause = price_failure c op response cause) ->
  exists q : request,
    calls m net = [q] /\ price_refusal json_loads parse c op net q e.
Proof.
  intros m Hout Hhandler.
  destruct (decoded_failure json_loads self action params parse handler net)
    as [Hq Herr].
  exists (ClientBase.query self action params). split; [exact Hq|].
  destruct (Herr e Hout) as [Href|(response & cause & Hreply & Hcause & ->)].
  - destruct (read_reply_refused _ _ Href) as [[Hnet ->]|(text & Hnet & ->)].
    + now left.
    + right. left. now exists text.
  - right. right. exists response, cause.
    split; [exact Hreply|]. split; [exact Hcause|].
    split; [apply Hhandler|apply take_length].
Qed.

Section PriceErrors.
Variable json_loads : string -> res json.

(** X10.  A price operation sends one request.  When it fails, either the
    reply to that request was refused, and the error is the transport's or
    the vendor's, with the text of the reply; or the reply was accepted, the
    decoder or the walk of the data raised, and the error is the SDK's
    [ValueError] that quotes the response, whole for the standard call and
    cut to its first 200 characters for the others.  So no exception of the
    JSON decoder or of the interpreter (a [TypeError], [AttributeError],
    [KeyError], [OverflowError] or [float]'s [ValueError] met while walking
    the payload) reaches the caller as it is. *)
Theorem price_operations_wrap_errors (self : client) (op : operation)
    (net : transport) (e : exn) :
  is_price_operation op = true ->
  has_method (cls self) op = true ->
  outcome (perform json_loads self op) net = Raise e ->
  exists q : request,
    calls (perform json_loads self op) net = [q]
    /\ ((net [] q = HttpFailure /\ e = HTTPStatusError)
        \/ (exists text,
              net [] q = HttpBody text
              /\ ClientBase.read_reply (net [] q) = Raise e
              /\ e = ValueError ("API Error: " ++ text))
        \/ (exists response cause,
              ClientBase.read_reply (net [] q) = Return response
              /\ (let! data := json_loads response in
                  price_parser (cls self) op data) = Raise cause
              /\ e = price_failure (cls self) op response cause
              /\ (String.length (PyStr.take 200 response) <= 200)%nat)).
Proof.
  intros Hop Hm H.
  change (exists q : request,
            calls (perform json_loads self op) net = [q]
            /\ price_refusal json_loads (price_parser (cls self) op) (cls self) op
                 net q e).
  unfold perform in H |- *. rewrite Hm in H |- *.
  destruct op as [|s c o|i st|i|i|i|i|i t n|svc ctry fp|svc fp|svc ctry|svc ctry];
    try discriminate Hop;
    match goal with
    | H : outcome (fmap APrices ?m) net = Raise e |- _ =>
        destruct (fmap_run APrices m net) as [Hc He]; apply He in H;
        rewrite Hc; clear Hc He
    end.
  - (* get_prices *)
    unfold get_prices in H |- *. destruct (cls self).
    + now apply decoded_price_failure.
    + assert (Hrun : run (HeroSMSClient.get_prices json_loads self svc ctry fp) net
                     = (let! all := outcome (ClientBase.get_top_countries_by_service
                                               json_loads self svc fp) net in
                        Return match ctry with
                               | Some c => filter (fun r => country_id r =? c) all
                               | None => all
                               end,
                        calls (ClientBase.get_top_countries_by_service
                                 json_loads self svc fp) net)).
      { unfold HeroSMSClient.get_prices, outcome, calls, run, bind.
        destruct (ClientBase.get_top_countries_by_service _ _ _ _ net [])
          as [[all|e'] log1]; [|reflexivity].
        destruct ctry; reflexivity. }
      unfold outcome in H at 1. unfold calls at 1. rewrite Hrun in H |- *.
      cbn [fst snd] in H |- *.
      destruct (outcome (ClientBase.get_top_countries_by_service _ _ _ _) net)
        as [all|e'] eqn:Etop; [discriminate H|].
      cbn [bind_res] in H. injection H as ->.
      now apply decoded_price_failure.
    + now apply decoded_price_failure.
    + now apply decoded_price_failure.
    + now apply decoded_price_failure.
  - now apply decoded_price_failure.
  - now apply decoded_price_failure.
  - now apply decoded_price_failure.
Qed.

End PriceErrors.

(** A response that is not JSON, to the standard price call. *)
Lemma price_operations_wrap_errors_witness :
  exists q : request,
    calls (perform (fun _ => Raise JSONDecodeError) Scenario.hub (GetPrices None None false))
          (Scenario.always "NO_PRICES") = [q]
    /\ ((Scenario.always "NO_PRICES" [] q = HttpFailure
         /\ ValueError "Error parsing prices or received error: NO_PRICES" = HTTPStatusError)
        \/ (exists text,
              Scenario.always "NO_PRICES" [] q = HttpBody text
              /\ ClientBase.read_reply (Scenario.always "NO_PRICES" [] q)
                 = Raise (ValueError "Error parsing prices or received error: NO_PRICES")
              /\ ValueError "Error parsing prices or received error: NO_PRICES"
                 = ValueError ("API Error: " ++ text))
        \/ (exists response cause,
              ClientBase.read_reply (Scenario.always "NO_PRICES" [] q) = Return response
              /\ (let! data := (fun _ : string => Raise JSONDecodeError) response in
                  price_parser SMSHubClient (GetPrices None None false) data)
                 = Raise cause
              /\ ValueError "Error parsing prices or received error: NO_PRICES"
                 = price_failure SMSHubClient (GetPrices None None false) response cause
              /\ (String.length (PyStr.take 200 response) <= 200)%nat)).
Proof.
  apply (price_operations_wrap_errors (fun _ => Raise JSONDecodeError) Scenario.hub
           (GetPrices None None false) (Scenario.always "NO_PRICES"));
    reflexivity.
Defined.

(* ================================================================= *)
(** * Dictionaries: lookup after update *)

Section AssocFacts.
Context {K V : Type} (eqb : K -> K -> bool).
Hypothesis eqb_spec : forall a b, eqb a b = true <-> a = b.

Lemma assoc_get_set_same (d : list (K * V)) (k : K) (v : V) :
  assoc_get eqb (assoc_set eqb d k v) k = Some v.
Proof.
  induction d as [|[k' v'] d IH]; simpl.
  - now rewrite (proj2 (eqb_spec k k) eq_refl).
  - destruct (eqb k' k) eqn:E; simpl; now rewrite E.
Qed.

Lemma assoc_get_set_other (d : list (K * V)) (k k' : K) (v : V) :
  k' <> k -> assoc_get eqb (assoc_set eqb d k v) k' = assoc_get eqb d k'.
Proof.
  intros Hne. induction d as [|[k0 v0] d IH]; simpl.
  - destruct (eqb k k') eqn:E; [|reflexivity].
    apply eqb_spec in E. congruence.
  - destruct (eqb k0 k) eqn:E; simpl.
    + apply eqb_spec in E. subst k0.
      destruct (eqb k k') eqn:E'; [|reflexivity].
      apply eqb_spec in E'. congruence.
    + now rewrite IH.
Qed.

Lemma assoc_get_none_keys (d : list (K * V)) (k : K) :
  assoc_get eqb d k = None -> ~ In k (map fst d).
Proof.
  induction d as [|[k0 v0] d IH]; simpl; [tauto|].
  destruct (eqb k0 k) eqn:E; [discriminate|].
  intros H [Hk|Hk]; [|exact (IH H Hk)].
  apply (proj2 (eqb_spec k0 k)) in Hk. congruence.
Qed.

(** The keys after an update: the same, or one more at the end. *)
Lemma assoc_set_keys (d : list (K * V)) (k : K) (v : V) :
  map fst (assoc_set eqb d k v)
  = match assoc_get eqb d k with
    | Some _ => map fst d
    | None => (map fst d ++ [k])%list
    end.
Proof.
  induction d as [|[k0 v0] d IH]; simpl; [reflexivity|].
  destruct (eqb k0 k) eqn:E; simpl; [reflexivity|].
  rewrite IH. now destruct (assoc_get eqb d k).
Qed.

Lemma assoc_set_nodup (d : list (K * V)) (k : K) (v : V) :
  NoDup (map fst d) -> NoDup (map fst (assoc_set eqb d k v)).
Proof.
  intros Hd. rewrite assoc_set_keys.
  destruct (assoc_get eqb d k) eqn:E; [exact Hd|].
  apply NoDup_app; [exact Hd|repeat constructor; simpl; tauto|].
  intros x Hx [Hk|[]]. subst x. exact (assoc_get_none_keys d k E Hx).
Qed.

(** With distinct keys, an entry after an update is the new one or an old
    one under another key. *)
Lemma assoc_set_in_nodup (d : list (K * V)) (k0 k : K) (v0 v : V) :
  NoDup (map fst d) ->
  In (k, v) (assoc_set eqb d k0 v0) ->
  (k = k0 /\ v = v0) \/ (In (k, v) d /\ k <> k0).
Proof.
  induction d as [|[k' v'] d IH]; simpl; intros Hd.
  - intros [H|[]]. injection H as <- <-. auto.
  - apply NoDup_cons_iff in Hd as [Hk' Hd].
    destruct (eqb k' k0) eqn:E; simpl.
    + apply eqb_spec in E. subst k'.
      intros [H|H]; [injection H as <- <-; auto|].
      right. split; [auto|]. intros ->. apply Hk'.
      now apply (in_map fst) in H.
    + intros [H|H].
      * injection H as <- <-. right. split; [auto|].
        intros ->. rewrite (proj2 (eqb_spec k0 k0) eq_refl) in E. discriminate.
      * destruct (IH Hd H) as [?|[? ?]]; auto.
Qed.

End AssocFacts.

Lemma string_eqb_iff (a b : string) : String.eqb a b = true <-> a = b.
Proof. apply String.eqb_eq. Qed.

Lemma z_eqb_iff (a b : Z) : Z.eqb a b = true <-> a = b.
Proof. apply Z.eqb_eq. Qed.

(* ================================================================= *)
(** * Well-formed price results *)

(** Every entry of a service map is filed under its own service code. *)
Definition keyed (d : dict ServicePrice) : Prop :=
  forall code sp, In (code, sp) d -> sp_service sp = code.

(** Countries with at least one service, each filed under its code. *)
Definition well_formed (l : list CountryPrices) : Prop :=
  forall cp, In cp l -> services cp <> [] /\ keyed (services cp).

Lemma keyed_set (d : dict ServicePrice) (code : string) (sp : ServicePrice) :
  keyed d -> sp_service sp = code -> keyed (dict_set d code sp).
Proof.
  intros Hd Hsp k sp' Hin.
  apply BowerFacts.dict_set_in in Hin as [Hin|[-> ->]]; auto.
Qed.

Lemma dict_set_nonempty {V : Type} (d : dict V) (k : string) (v : V) :
  dict_set d k v <> [].
Proof.
  unfold dict_set. destruct d as [|[k' v'] d]; simpl; [discriminate|].
  destruct (String.eqb k' k); discriminate.
Qed.

Lemma well_formed_add (l : list CountryPrices) (cid : Z) (d : dict ServicePrice) :
  well_formed l -> d <> [] -> keyed d ->
  well_formed (l ++ [mkCountryPrices cid d]).
Proof.
  intros Hl Hne Hd cp Hin. apply in_app_or in Hin as [Hin|[<-|[]]]; auto.
Qed.

Lemma service_price_code (code : string) (srv_data : dict json) (sp : ServicePrice) :
  ClientBase.service_price code srv_data = Return sp -> sp_service sp = code.
Proof.
  unfold ClientBase.service_price. intros H.
  returns H as base Hbase. returns H as derived Hderived.
  destruct derived as [[c lo] hi]. returns H as n Hn. now injection H as <-.
Qed.

Lemma parse_prices_well_formed (data : json) (result : list CountryPrices) :
  ClientBase.parse_prices data = Return result -> well_formed result.
Proof.
  unfold ClientBase.parse_prices.
  set (data' := match data with JList (JDict d0 :: _) => JDict d0 | _ => data end).
  destruct data' as [| | | | | |d];
    try (intros H; injection H as <-; intros cp []).
  apply for_each_invariant; [intros cp []|].
  intros result0 [country svs] result1 _ Hres H.
  destruct svs as [| | | | | |svs]; try (injection H as <-; exact Hres).
  returns H as sm Hsm.
  assert (Hmap : keyed sm).
  { revert Hsm. apply for_each_invariant; [intros code sp []|].
    intros sm0 [code srv_data] sm1 _ Hsm0 Hbody.
    destruct srv_data as [| | | | | |srv_data]; try (injection Hbody as <-; exact Hsm0).
    returns Hbody as sp Hsp. injection Hbody as <-.
    apply keyed_set; [exact Hsm0|]. eapply service_price_code; eassumption. }
  destruct sm as [|entry sm]; [injection H as <-; exact Hres|].
  returns H as cid Hcid. injection H as <-.
  apply well_formed_add; [exact Hres|discriminate|exact Hmap].
Qed.

Lemma parse_complex_prices_well_formed (data : json) (version : string)
    (result : list CountryPrices) :
  SMSBowerClient._parse_complex_prices data version = Return result ->
  well_formed result.
Proof.
  intros H cp Hcp.
  destruct data as [| | | | | |d];
    try (unfold SMSBowerClient._parse_complex_prices in H; discriminate H).
  destruct (BowerFacts.parse_complex_prices_provenance d version result H cp Hcp)
    as (Hne & cid & svs & _ & _ & Hfrom).
  split; [exact Hne|].
  intros code sp Hin.
  destruct (Hfrom code sp Hin) as (srv_data & prices & total & _ & _ & Hp & Hsp).
  destruct (BowerFacts.service_price_built code prices total Hp)
    as (lo & hi & _ & _ & Hbuilt).
  rewrite Hbuilt in Hsp. now injection Hsp as <-.
Qed.

(** ** The map of countries of the top-countries parser *)

(** Distinct country ids, and under each a service map that is filed by
    code and, except perhaps under [pending], not empty. *)
Definition country_map_ok (pending : option Z) (m : int_dict (dict ServicePrice))
  : Prop :=
  NoDup (map fst m)
  /\ forall cid srvs, In (cid, srvs) m ->
       keyed srvs /\ (Some cid <> pending -> srvs <> []).

Lemma country_map_ok_weaken (c : Z) (m : int_dict (dict ServicePrice)) :
  country_map_ok None m -> country_map_ok (Some c) m.
Proof.
  intros [Hd Hm]. split; [exact Hd|].
  intros cid srvs Hin. destruct (Hm cid srvs Hin) as [Hk Hne].
  split; [exact Hk|]. intros _. apply Hne. discriminate.
Qed.

Lemma pending_map_ok (cm : int_dict (dict ServicePrice)) (c : Z) :
  country_map_ok None cm ->
  country_map_ok (Some c)
    match int_dict_get cm c with
    | None => int_dict_set cm c []
    | Some _ => cm
    end.
Proof.
  intros Hcm. destruct (int_dict_get cm c) eqn:Eget;
    [now apply country_map_ok_weaken|].
  destruct Hcm as [Hd Hm]. split.
  - now apply (assoc_set_nodup Z.eqb z_eqb_iff).
  - intros cid srvs Hin.
    apply (assoc_set_in_nodup Z.eqb z_eqb_iff _ _ _ _ _ Hd) in Hin
      as [[-> ->]|[Hin Hne]].
    + split; [intros k sp []|]. intros Habs. congruence.
    + destruct (Hm cid srvs Hin) as [Hk Hn]. split; [exact Hk|].
      intros _. apply Hn. discriminate.
Qed.

Lemma process_entry_ok (cm : int_dict (dict ServicePrice)) (code : string)
    (entry : json) (cm' : int_dict (dict ServicePrice)) :
  country_map_ok None cm ->
  ClientBase.process_entry cm code entry = Return cm' ->
  country_map_ok None cm'.
Proof.
  intros Hcm H. unfold ClientBase.process_entry in H.
  returns H as country Hcountry.
  assert (Hgo : forall c_id : json,
    (let! c_id := PyVal.to_int c_id in
     let country_map :=
       match int_dict_get cm c_id with
       | None => int_dict_set cm c_id []
       | Some _ => cm
       end in
     let! price := PyVal.get entry "price" (JInt 0) in
     let! cost0 := PyVal.get entry "cost" (JInt 0) in
     let! base_cost :=
       PyVal.to_float (PyVal.or_else (PyVal.or_else price cost0) (JInt 0)) in
     let! free_price_map := PyVal.get entry "freePriceMap" JNull in
     let! (cost, min_p, max_p) := ClientBase.derive_cost base_cost free_price_map in
     let! cnt0 := PyVal.get entry "count" (JInt 0) in
     let! count := PyVal.to_int (PyVal.or_else cnt0 (JInt 0)) in
     match int_dict_get country_map c_id with
     | Some srvs =>
         Return (int_dict_set country_map c_id
                   (dict_set srvs code (mkServicePrice code cost min_p max_p count)))
     | None => Raise KeyError
     end) = Return cm' -> country_map_ok None cm').
  { clear H. intros c_id H. returns H as c Hc.
    set (cm1 := match int_dict_get cm c with
                | None => int_dict_set cm c []
                | Some _ => cm
                end) in H.
    assert (Hcm1 : country_map_ok (Some c) cm1) by apply (pending_map_ok cm c Hcm).
    clearbody cm1.
    returns H as price Hprice. returns H as cost0 Hcost0.
    returns H as base Hbase. returns H as fpm Hfpm.
    returns H as derived Hderived. destruct derived as [[cst lo] hi].
    returns H as cnt0 Hcnt0. returns H as n Hn.
    destruct (int_dict_get cm1 c) as [srvs|] eqn:Eget; [|discriminate].
    injection H as <-. destruct Hcm1 as [Hd Hm]. split.
    - now apply (assoc_set_nodup Z.eqb z_eqb_iff).
    - intros cid srvs' Hin.
      apply (assoc_set_in_nodup Z.eqb z_eqb_iff _ _ _ _ _ Hd) in Hin
        as [[-> ->]|[Hin Hne]].
      + split; [|intros _; apply dict_set_nonempty].
        apply keyed_set; [|reflexivity].
        apply assoc_get_in in Eget as (k' & Hk'). exact (proj1 (Hm k' srvs Hk')).
      + destruct (Hm cid srvs' Hin) as [Hk Hn']. split; [exact Hk|].
        intros _. apply Hn'. congruence. }
  destruct country as [|b|n|x|s|l|d];
    [ now injection H as <-
    | apply (Hgo (JBool b)) | apply (Hgo (JInt n)) | apply (Hgo (JFloat x))
    | apply (Hgo (JStr s)) | apply (Hgo (JList l)) | apply (Hgo (JDict d)) ];
    exact H.
Qed.

Lemma process_entries_ok (guarded : bool) (code : string) (entries : json)
    (cm cm' : int_dict (dict ServicePrice)) :
  country_map_ok None cm ->
  ClientBase.process_entries guarded code entries cm = Return cm' ->
  country_map_ok None cm'.
Proof.
  intros Hcm. unfold ClientBase.process_entries.
  assert (Hbody : forall (s0 : int_dict (dict ServicePrice)) (x : json)
                         (s1 : int_dict (dict ServicePrice)),
             country_map_ok None s0 ->
             (if (guarded && negb (PyVal.is_dict x))%bool then Return s0
              else ClientBase.process_entry s0 code x) = Return s1 ->
             country_map_ok None s1).
  { intros s0 x s1 Hs0 H. destruct (guarded && negb (PyVal.is_dict x))%bool.
    - now injection H as <-.
    - eapply process_entry_ok; eassumption. }
  destruct entries; try (intros H; injection H as <-; exact Hcm);
    apply for_each_invariant; eauto.
Qed.

Lemma parse_top_countries_ok (service : option string) (data : json)
    (result : list CountryPrices) :
  ClientBase.parse_top_countries service data = Return result ->
  NoDup (map country_id result) /\ well_formed result.
Proof.
  unfold ClientBase.parse_top_countries. intros H. returns H as cm Hcm.
  injection H as <-.
  assert (Hok : country_map_ok None cm).
  { assert (Hnil : country_map_ok None []).
    { split; [constructor|intros cid srvs []]. }
    assert (Hper : forall (m : int_dict (dict ServicePrice)) (x : string * json)
                          (m' : int_dict (dict ServicePrice)),
               country_map_ok None m ->
               (let '(srv_code, entries) := x in
                ClientBase.process_entries false srv_code entries m) = Return m' ->
               country_map_ok None m').
    { intros m [code entries] m' Hm H. eapply process_entries_ok; eassumption. }
    destruct service as [[|c s]|].
    - destruct data; try (injection Hcm as <-; exact Hnil);
        revert Hcm; apply for_each_invariant; eauto.
      intros m item m' _ Hm H.
      destruct item; try (injection H as <-; exact Hm).
      revert H. apply for_each_invariant; eauto.
    - eapply process_entries_ok; eassumption.
    - destruct data; try (injection Hcm as <-; exact Hnil);
        revert Hcm; apply for_each_invariant; eauto.
      intros m item m' _ Hm H.
      destruct item; try (injection H as <-; exact Hm).
      revert H. apply for_each_invariant; eauto. }
  destruct Hok as [Hd Hm]. split.
  - rewrite map_map.
    replace (map (fun x => country_id (let '(cid, srvs) := x in mkCountryPrices cid srvs)) cm)
      with (map fst cm); [exact Hd|].
    apply map_ext. now intros [cid srvs].
  - intros cp Hin. apply in_map_iff in Hin as ([cid srvs] & <- & Hin).
    destruct (Hm cid srvs Hin) as [Hk Hne]. simpl.
    split; [apply Hne; discriminate|exact Hk].
Qed.

Lemma well_formed_filter (f : CountryPrices -> bool) (l : list CountryPrices) :
  well_formed l -> well_formed (filter f l).
Proof. intros H cp Hin. apply filter_In in Hin as [Hin _]. auto. Qed.

Lemma nodup_map_filter {A B : Type} (g : A -> B) (f : A -> bool) (l : list A) :
  NoDup (map g l) -> NoDup (map g (filter f l)).
Proof.
  induction l as [|a l IH]; simpl; [auto|].
  intros H. apply NoDup_cons_iff in H as [Ha Hl].
  destruct (f a); simpl; [|auto].
  constructor; [|auto]. intros Hin. apply Ha.
  apply in_map_iff in Hin as (x & Hx & Hin). apply filter_In in Hin as [Hin _].
  apply in_map_iff. eauto.
Qed.

Section PriceResults.
Variable json_loads : string -> res json.

(** X11.  Whatever price operation returned it, a result lists only
    countries that have at least one service, and files every service
    price under the code it carries in its own [service] field. *)
Theorem price_results_well_formed (self : client) (op : operation) (net : transport)
    (result : list CountryPrices) (cp : CountryPrices) :
  outcome (perform json_loads self op) net = Return (APrices result) ->
  In cp result ->
  services cp <> []
  /\ forall code sp, In (code, sp) (services cp) -> sp_service sp = code.
Proof.
  intros H. revert cp. change (well_formed result).
  unfold outcome, run in H.
  destruct (perform json_loads self op net []) as [out log'] eqn:E.
  simpl in H. subst out. unfold perform in E.
  destruct (has_method (cls self) op); [|discriminate].
  destruct op; unfold fmap in E; apply bind_returns in E as (a & log1 & Hm & Hret);
    unfold ret in Hret; try discriminate Hret; injection Hret as -> _.
  - unfold get_prices in Hm. destruct (cls self).
    + apply decoded_result in Hm as (data & Hp).
      eapply parse_prices_well_formed; eauto.
    + apply bind_returns in Hm as (all & log2 & Hm & Hret).
      apply decoded_result in Hm as (data & Hp).
      apply parse_top_countries_ok in Hp as [_ Hp].
      destruct country; unfold ret in Hret; injection Hret as <- _; [|exact Hp].
      now apply well_formed_filter.
    + apply decoded_result in Hm as (data & Hp).
      eapply parse_prices_well_formed; eauto.
    + apply decoded_result in Hm as (data & Hp).
      eapply parse_complex_prices_well_formed; eauto.
    + apply decoded_result in Hm as (data & Hp).
      eapply parse_prices_well_formed; eauto.
  - apply decoded_result in Hm as (data & Hp).
    now apply parse_top_countries_ok in Hp as [_ Hp].
  - apply decoded_result in Hm as (data & Hp).
    eapply parse_complex_prices_well_formed; eauto.
  - apply decoded_result in Hm as (data & Hp).
    eapply parse_complex_prices_well_formed; eauto.
Qed.

(** X12.  [get_top_countries_by_service] gathers the entries by country:
    its result, and the result of the HeroSMS [get_prices] built on it,
    never lists a country id twice. *)
Theorem top_countries_listed_once (self : client) (service : option string)
    (country : option Z) (free_price : bool) (net : transport) :
  (forall result,
      outcome (ClientBase.get_top_countries_by_service json_loads self service free_price)
              net = Return result ->
      NoDup (map country_id result))
  /\ (forall result,
      outcome (HeroSMSClient.get_prices json_loads self service country free_price)
              net = Return result ->
      NoDup (map country_id result)).
Proof.
  assert (Htop : forall log result log',
             ClientBase.get_top_countries_by_service json_loads self service free_price
               net log = (Return result, log') ->
             NoDup (map country_id result)).
  { intros log result log' H. apply decoded_result in H as (data & Hp).
    now apply parse_top_countries_ok in Hp as [Hd _]. }
  split; intros result H; unfold outcome, run in H.
  - destruct (ClientBase.get_top_countries_by_service _ _ _ _ net []) as [out log'] eqn:E.
    simpl in H. subst out. eapply Htop; eauto.
  - destruct (HeroSMSClient.get_prices _ _ _ _ _ net []) as [out log'] eqn:E.
    simpl in H. subst out. unfold HeroSMSClient.get_prices in E.
    apply bind_returns in E as (all & log1 & Hm & Hret).
    apply Htop in Hm.
    destruct country; unfold ret in Hret; injection Hret as <- _; [|exact Hm].
    now apply nodup_map_filter.
Qed.

(** X13.  The HeroSMS [get_prices] sends the request of
    [get_top_countries_by_service] for the same service, so the country is
    never sent to the vendor; it returns what that call returns, reduced,
    when a country is given, to the entries of that country. *)
Theorem hero_prices_filter_top_countries (self : client) (service : option string)
    (country : option Z) (free_price : bool) (net : transport) :
  calls (HeroSMSClient.get_prices json_loads self service country free_price) net
  = calls (ClientBase.get_top_countries_by_service json_loads self service free_price) net
  /\ outcome (HeroSMSClient.get_prices json_loads self service country free_price) net
     = (let! all := outcome (ClientBase.get_top_countries_by_service
                               json_loads self service free_price) net in
        Return match country with
               | Some c => filter (fun r => country_id r =? c) all
               | None => all
               end)
  /\ (forall c result cp,
        country = Some c ->
        outcome (HeroSMSClient.get_prices json_loads self service country free_price) net
        = Return result ->
        In cp result -> country_id cp = c)
  /\ (forall r,
        In r (calls (HeroSMSClient.get_prices json_loads self service country free_price)
                net) ->
        dict_get (req_query r) "country" = None
        /\ dict_get (req_query r) "action" = Some (PStr "getTopCountriesByService")).
Proof.
  assert (Hrun : run (HeroSMSClient.get_prices json_loads self service country free_price) net
                 = (let! all := outcome (ClientBase.get_top_countries_by_service
                                           json_loads self service free_price) net in
                    Return match country with
                           | Some c => filter (fun r => country_id r =? c) all
                           | None => all
                           end,
                    calls (ClientBase.get_top_countries_by_service
                             json_loads self service free_price) net)).
  { unfold HeroSMSClient.get_prices, outcome, calls, run, bind.
    destruct (ClientBase.get_top_countries_by_service _ _ _ _ net []) as [[all|e] log1];
      [|reflexivity].
    destruct country; reflexivity. }
  assert (Hcalls : calls (HeroSMSClient.get_prices json_loads self service country
                            free_price) net
                   = calls (ClientBase.get_top_countries_by_service
                              json_loads self service free_price) net).
  { unfold calls at 1. now rewrite Hrun. }
  split; [exact Hcalls|]. split; [unfold outcome at 1; now rewrite Hrun|]. split.
  - intros c result cp -> H Hin. unfold outcome at 1 in H. rewrite Hrun in H.
    simpl in H. destruct (outcome _ net) as [all|e]; [|discriminate].
    simpl in H. injection H as <-. apply filter_In in Hin as [_ Hc].
    now apply Z.eqb_eq.
  - intros r Hin. rewrite Hcalls in Hin.
    unfold calls, ClientBase.get_top_countries_by_service in Hin.
    rewrite single_request_run in Hin.
    assert (Hr : r = ClientBase.query self "getTopCountriesByService"
                       (if free_price
                        then dict_set match service with
                                      | Some (String c s) =>
                                          dict_set [] "service" (PStr (String c s))
                                      | _ => []
                                      end "freePrice" (PBool true)
                        else match service with
                             | Some (String c s) =>
                                 dict_set [] "service" (PStr (String c s))
                             | _ => []
                             end)).
    { destruct (ClientBase.read_reply _); destruct Hin as [<-|[]]; reflexivity. }
    subst r. destruct free_price, service as [[|c s]|]; split; reflexivity.
Qed.

End PriceResults.

(** The HeroSMS client and payload of the test suite. *)
Definition hero : client :=
  ClientBase_init HeroSMSClient "test_key" HeroSMSClient.default_base_url None 30.

Definition top_payload : json :=
  JDict [("tg", JDict [("0", JDict [("country", JInt 0); ("price", JInt 10);
                                    ("count", JInt 100)])])].

Definition top_price : ServicePrice :=
  mkServicePrice "tg" (Scalar (PyFloat.of_decimal false 10 0))
    (PyFloat.of_decimal false 10 0) (PyFloat.of_decimal false 10 0) 100.

(** The HeroSMS test of the test suite. *)
Lemma price_results_well_formed_witness :
  services (mkCountryPrices 0 [("tg", top_price)]) <> []
  /\ forall code sp,
       In (code, sp) (services (mkCountryPrices 0 [("tg", top_price)])) ->
       sp_service sp = code.
Proof.
  apply (price_results_well_formed (Scenario.decodes_to top_payload) hero
           (GetPrices (Some "tg") None true) (Scenario.always "payload")
           [mkCountryPrices 0 [("tg", top_price)]]).
  - reflexivity.
  - simpl. auto.
Defined.

Lemma top_countries_listed_once_witness :
  NoDup (map country_id [mkCountryPrices 0 [("tg", top_price)]]).
Proof.
  apply (proj2 (top_countries_listed_once (Scenario.decodes_to top_payload) hero
                  (Some "tg") (Some 0) true (Scenario.always "payload"))).
  reflexivity.
Defined.

Lemma hero_prices_filter_top_countries_witness :
  outcome (HeroSMSClient.get_prices (Scenario.decodes_to top_payload) hero
             (Some "tg") (Some 7) true) (Scenario.always "payload")
  = Return [].
Proof.
  rewrite (proj1 (proj2 (hero_prices_filter_top_countries
                           (Scenario.decodes_to top_payload) hero
                           (Some "tg") (Some 7) true (Scenario.always "payload")))).
  reflexivity.
Defined.

(* ================================================================= *)
(** * Gathering entries by country *)

(** What a successful [process_entry] did for an entry with a country. *)
Lemma process_entry_filed (cm : int_dict (dict ServicePrice)) (code : string)
    (entry : dict json) (cm' : int_dict (dict ServicePrice)) (v : json) :
  ClientBase.process_entry cm code (JDict entry) = Return cm' ->
  dict_get entry "country" = Some v ->
  v <> JNull ->
  exists c srvs0 sp,
    PyVal.to_int v = Return c
    /\ sp_service sp = code
    /\ int_dict_get match int_dict_get cm c with
                    | None => int_dict_set cm c []
                    | Some _ => cm
                    end c = Some srvs0
    /\ cm' = int_dict_set match int_dict_get cm c with
                          | None => int_dict_set cm c []
                          | Some _ => cm
                          end c (dict_set srvs0 code sp).
Proof.
  intros H Hv Hnn. unfold ClientBase.process_entry in H.
  cbn [PyVal.get bind_res] in H. unfold PyVal.dget in H. rewrite Hv in H.
  destruct v; [contradiction|..];
    (returns H as c0 Hc0; exists c0;
     returns H as base0 Hbase0; returns H as derived Hderived;
     destruct derived as [[cst lo] hi]; returns H as n0 Hn0;
     match type of H with
     | match ?g with _ => _ end = _ => destruct g as [srvs0|] eqn:Eget; [|discriminate]
     end;
     injection H as <-;
     exists srvs0, (mkServicePrice code cst lo hi n0);
     repeat split; auto).
Qed.

(** X15.  [process_entry] files the price of an entry under its country
    and service: after it, the country is in the map with that service, the
    other services of the country and all other countries are as before, so
    a later entry for the same country and service replaces the earlier
    one.  An entry without a country (absent or [null]) changes nothing. *)
Theorem process_entry_files_service (cm : int_dict (dict ServicePrice))
    (code : string) (entry : dict json) :
  (forall (cm' : int_dict (dict ServicePrice)) (v : json),
      ClientBase.process_entry cm code (JDict entry) = Return cm' ->
      dict_get entry "country" = Some v ->
      v <> JNull ->
      exists c srvs sp,
        PyVal.to_int v = Return c
        /\ int_dict_get cm' c = Some srvs
        /\ dict_get srvs code = Some sp
        /\ sp_service sp = code
        /\ (forall c', c' <> c -> int_dict_get cm' c' = int_dict_get cm c')
        /\ (forall code', code' <> code ->
              dict_get srvs code'
              = match int_dict_get cm c with
                | Some old => dict_get old code'
                | None => None
                end))
  /\ (dict_get entry "country" = None \/ dict_get entry "country" = Some JNull ->
      ClientBase.process_entry cm code (JDict entry) = Return cm).
Proof.
  split.
  - intros cm' v H Hv Hnn.
    destruct (process_entry_filed cm code entry cm' v H Hv Hnn)
      as (c & srvs0 & sp & Hc & Hsp & Hget & ->).
    exists c, (dict_set srvs0 code sp), sp.
    assert (Hcm1 : (forall c', c' <> c ->
                      int_dict_get match int_dict_get cm c with
                                   | None => int_dict_set cm c []
                                   | Some _ => cm
                                   end c' = int_dict_get cm c')
                   /\ forall code', dict_get srvs0 code'
                                    = match int_dict_get cm c with
                                      | Some old => dict_get old code'
                                      | None => None
                                      end).
    { destruct (int_dict_get cm c) as [old|] eqn:Eget.
      - split; [reflexivity|]. rewrite Eget in Hget. now injection Hget as <-.
      - split.
        + intros c' Hc'. now apply (assoc_get_set_other Z.eqb z_eqb_iff).
        + unfold int_dict_get, int_dict_set in Hget.
          rewrite (assoc_get_set_same Z.eqb z_eqb_iff) in Hget.
          now injection Hget as <-. }
    destruct Hcm1 as [Hother Hsame].
    split; [exact Hc|]. split.
    { apply (assoc_get_set_same Z.eqb z_eqb_iff). }
    split.
    { apply (assoc_get_set_same String.eqb string_eqb_iff). }
    split; [exact Hsp|]. split.
    + intros c' Hc'. unfold int_dict_get, int_dict_set.
      rewrite (assoc_get_set_other Z.eqb z_eqb_iff) by assumption.
      now apply Hother.
    + intros code' Hcode'. unfold dict_get, dict_set.
      rewrite (assoc_get_set_other String.eqb string_eqb_iff) by assumption.
      apply Hsame.
  - intros Hv. unfold ClientBase.process_entry.
    cbn [PyVal.get bind_res]. unfold PyVal.dget at 1.
    destruct Hv as [-> | ->]; reflexivity.
Qed.

(** The entry of the HeroSMS test, filed in an empty map. *)
Lemma process_entry_files_service_witness :
  exists c srvs sp,
    PyVal.to_int (JInt 0) = Return c
    /\ int_dict_get [(0, [("tg", top_price)])] c = Some srvs
    /\ dict_get srvs "tg" = Some sp
    /\ sp_service sp = "tg"
    /\ (forall c', c' <> c -> int_dict_get [(0, [("tg", top_price)])] c'
                              = int_dict_get [] c')
    /\ (forall code', code' <> "tg" ->
          dict_get srvs code'
          = match int_dict_get ([] : int_dict (dict ServicePrice)) c with
            | Some old => dict_get old code'
            | None => None
            end).
Proof.
  apply (proj1 (process_entry_files_service []
                  "tg" [("country", JInt 0); ("price", JInt 10); ("count", JInt 100)])
           [(0, [("tg", top_price)])] (JInt 0)).
  - reflexivity.
  - reflexivity.
  - discriminate.
Defined.

(* ================================================================= *)
(** * The clients the factory builds *)

(** The classes of the registry. *)
Definition registered (c : client_class) : Prop :=
  c = SMSHubClient \/ c = HeroSMSClient \/ c = SMSActivateClient \/ c = SMSBowerClient.

Lemma registry_classes (key : string) (c : client_class) :
  dict_get PyHub._providers key = Some c -> registered c.
Proof.
  unfold PyHub._providers, dict_get, registered. simpl.
  repeat match goal with
    | |- context [if ?b then _ else _] => destruct b
    end; intros H; try discriminate H; injection H as <-; auto.
Qed.

(** X16.  With no provider name, any non-empty base URL resolves: the
    client is of the class of the first pattern found in the lowercased URL,
    an SMSHub client when none is found, and it is built on the given URL.
    Resolution by URL never fails. *)
Theorem url_resolution_never_fails (key url : string) (provider proxy : option string)
    (timeout : Z) :
  provider = None \/ provider = Some "" ->
  url <> "" ->
  let l := PyStr.lower url in
  PyHub.get_client key provider (Some url) proxy timeout []
  = Return (ClientBase_init
              (if PyStr.contains "smshub.org" l then SMSHubClient
               else if PyStr.contains "hero-sms.com" l then HeroSMSClient
               else if PyStr.contains "sms-activate" l then SMSActivateClient
               else if PyStr.contains "smsbower" l then SMSBowerClient
               else SMSHubClient)
              key url proxy timeout).
Proof.
  intros Hp Hu l. destruct url as [|a u]; [contradiction|].
  assert (Hkey : PyHub.provider_key provider (Some (String a u))
                 = Some (PyHub.detect PyHub._url_patterns l)).
  { destruct Hp as [-> | ->]; reflexivity. }
  unfold PyHub.get_client. rewrite Hkey.
  unfold PyHub._url_patterns, PyHub.detect.
  destruct (PyStr.contains "smshub.org" l); [reflexivity|].
  destruct (PyStr.contains "hero-sms.com" l); [reflexivity|].
  destruct (PyStr.contains "sms-activate" l); [reflexivity|].
  destruct (PyStr.contains "smsbower" l); reflexivity.
Qed.

(** The factory test of the test suite, with the URL in capitals. *)
Lemma url_resolution_never_fails_witness :
  PyHub.get_client "test_key" None (Some "https://HERO-SMS.com/stubs/handler_api.php")
    None 30 []
  = Return (mkClient HeroSMSClient "test_key"
              "https://HERO-SMS.com/stubs/handler_api.php" None 30).
Proof.
  apply (url_resolution_never_fails "test_key"
           "https://HERO-SMS.com/stubs/handler_api.php" None None 30);
    [now left|discriminate].
Defined.

(** X17.  A client the factory returns is of one of the four registered
    classes, never an [SMS24HClient], which no name and no URL reaches; it
    holds the key, proxy and timeout given, and its base URL, without final
    slash, is the URL given or else the default URL of its class. *)
Theorem factory_clients (key : string) (provider url given_proxy : option string)
    (given_timeout : Z) (kwargs : dict pval) (made : client) :
  dict_get kwargs "base_url" = None ->
  PyHub.get_client key provider url given_proxy given_timeout kwargs = Return made ->
  registered (cls made)
  /\ api_key made = key /\ proxy made = given_proxy /\ timeout made = given_timeout
  /\ base_url made
     = PyStr.rstrip_slash match url with
                          | Some (String a u) => String a u
                          | _ => PyHub.default_base_url (cls made)
                          end
  /\ forall v, base_url made <> v ++ "/".
Proof.
  intros Hkw H. unfold PyHub.get_client in H.
  destruct (PyHub.provider_key provider url) as [[|k0 k]|]; try discriminate H.
  destruct (dict_get PyHub._providers (String k0 k)) as [c|] eqn:Ereg;
    [|discriminate H].
  apply registry_classes in Ereg.
  assert (Hmade : made = ClientBase_init c key
                           match url with
                           | Some (String a u) => String a u
                           | _ => PyHub.default_base_url c
                           end given_proxy given_timeout).
  { unfold PyHub.instantiate in H.
    destruct (forallb _ _); [|discriminate H].
    destruct url as [[|a u]|].
    - rewrite Hkw in H. now injection H as <-.
    - unfold dict_get, dict_set in H.
      rewrite (assoc_get_set_same String.eqb string_eqb_iff) in H.
      now injection H as <-.
    - rewrite Hkw in H. now injection H as <-. }
  subst made. simpl. repeat split; auto.
  intros v. now apply UrlFacts.rstrip_no_dropped_end.
Qed.

(** The client the factory makes for the name [SMS_Bower] on a URL of the
    caller. *)
Definition mirror_client : client :=
  mkClient SMSBowerClient "k" "https://mirror.example/api" (Some "p") 10.

Lemma factory_clients_witness :
  registered (cls mirror_client)
  /\ api_key mirror_client = "k"
  /\ proxy mirror_client = Some "p"
  /\ timeout mirror_client = 10
  /\ base_url mirror_client = PyStr.rstrip_slash "https://mirror.example/api//"
  /\ forall v, base_url mirror_client <> v ++ "/".
Proof.
  apply (factory_clients "k" (Some "SMS_Bower") (Some "https://mirror.example/api//")
           (Some "p") 10 [] mirror_client); reflexivity.
Defined.

(** X18.  A provider name decides the class whatever the base URL says:
    when the normalised name is a key of the registry the client is of the
    registered class, built on the base URL when one is given and on the
    default URL of the class otherwise.  The keys of the registry are their
    own normal forms, so each of them resolves. *)
Theorem name_decides_class (key name : string) (url given_proxy : option string)
    (given_timeout : Z) (c : client_class) :
  name <> "" ->
  dict_get PyHub._providers (PyHub.normalize name) = Some c ->
  PyHub.get_client key (Some name) url given_proxy given_timeout []
  = Return (ClientBase_init c key
              match url with
              | Some (String a u) => String a u
              | _ => PyHub.default_base_url c
              end given_proxy given_timeout)
  /\ forall registered_name,
       In registered_name (dict_keys PyHub._providers) ->
       PyHub.normalize registered_name = registered_name.
Proof.
  intros Hname Hreg. split.
  - unfold PyHub.get_client, PyHub.provider_key.
    destruct name as [|a n]; [contradiction|].
    destruct (PyHub.normalize (String a n)) as [|k0 k] eqn:En; [discriminate Hreg|].
    rewrite Hreg. destruct url as [[|b u]|]; reflexivity.
  - intros rn Hin. simpl in Hin.
    repeat (destruct Hin as [<-|Hin]; [reflexivity|]). contradiction.
Qed.

(** The name of one provider with the URL of another. *)
Lemma name_decides_class_witness :
  PyHub.get_client "test_key" (Some "Hero-SMS") (Some "https://smshub.org/api") None 30 []
  = Return (mkClient HeroSMSClient "test_key" "https://smshub.org/api" None 30).
Proof.
  apply (name_decides_class "test_key" "Hero-SMS" (Some "https://smshub.org/api")
           None 30 HeroSMSClient); [discriminate|reflexivity].
Defined.

Lemma dict_set_keeps_keys {V : Type} (d : dict V) (k0 k : string) (v : V) :
  In k (dict_keys d) -> In k (dict_keys (dict_set d k0 v)).
Proof.
  unfold dict_keys, dict_set. rewrite (assoc_set_keys String.eqb).
  destruct (assoc_get String.eqb d k0); [auto|]. intros H. apply in_or_app. now left.
Qed.

(** X19.  The factory accepts no further keyword argument: once the
    provider is resolved, any keyword besides the named parameters makes the
    construction of the client raise [TypeError]. *)
Theorem extra_keywords_refused (key : string) (provider url given_proxy : option string)
    (given_timeout : Z) (kwargs : dict pval) (k kw : string) (c : client_class) :
  PyHub.provider_key provider url = Some k ->
  dict_get PyHub._providers k = Some c ->
  In kw (dict_keys kwargs) ->
  kw <> "base_url" ->
  PyHub.get_client key provider url given_proxy given_timeout kwargs = Raise TypeError.
Proof.
  intros Hk Hreg Hin Hne. unfold PyHub.get_client. rewrite Hk.
  destruct k as [|k0 k]; [discriminate Hreg|]. rewrite Hreg.
  unfold PyHub.instantiate.
  assert (Hall : forall d : dict pval,
             In kw (dict_keys d) ->
             forallb (fun x => String.eqb x "base_url") (dict_keys d) = false).
  { intros d Hd. destruct (forallb _ _) eqn:E; [|reflexivity].
    rewrite forallb_forall in E. apply E in Hd. apply String.eqb_eq in Hd.
    contradiction. }
  destruct url as [[|a u]|]; rewrite Hall; auto.
  now apply dict_set_keeps_keys.
Qed.

(** A keyword [retries] passed to the factory. *)
Lemma extra_keywords_refused_witness :
  PyHub.get_client "test_key" (Some "smshub") None None 30 [("retries", PInt 3)]
  = Raise TypeError.
Proof.
  apply (extra_keywords_refused "test_key" (Some "smshub") None None 30
           [("retries", PInt 3)] "smshub" "retries" SMSHubClient);
    [reflexivity|reflexivity|simpl; auto|discriminate].
Defined.

(* ================================================================= *)
(** * Payloads of mixed shape *)

(** Elements a loop passes over can be removed beforehand. *)
Lemma for_each_skip {A S : Type} (keep : A -> bool) (l : list A)
    (body : S -> A -> res S) (s : S) :
  (forall s0 x, keep x = false -> body s0 x = Return s0) ->
  for_each l body s = for_each (filter keep l) body s.
Proof.
  intros Hskip. revert s; induction l as [|x l IH]; intros s; simpl; [reflexivity|].
  destruct (keep x) eqn:E; simpl.
  - destruct (body s x); simpl; auto.
  - rewrite (Hskip s x E). simpl. apply IH.
Qed.

(** An element on which the body always raises makes the loop raise. *)
Lemma for_each_raises {A S : Type} (l : list A) (body : S -> A -> res S) (s : S)
    (x : A) :
  In x l -> (forall s0, exists e, body s0 x = Raise e) ->
  exists e, for_each l body s = Raise e.
Proof.
  intros Hin Hx. revert s; induction l as [|y l IH]; intros s; [contradiction|].
  simpl. destruct Hin as [->|Hin].
  - destruct (Hx s) as (e & ->). simpl. eauto.
  - destruct (body s y) as [s'|e]; simpl; [now apply IH|eauto].
Qed.

(** Two bodies that agree give the same loop. *)
Lemma for_each_ext {A S : Type} (l : list A) (body body' : S -> A -> res S) (s : S) :
  (forall s0 x, In x l -> body s0 x = body' s0 x) ->
  for_each l body s = for_each l body' s.
Proof.
  revert s; induction l as [|x l IH]; intros s H; simpl; [reflexivity|].
  rewrite (H s x) by now left.
  destruct (body' s x) as [s1|e]; simpl; [|reflexivity].
  apply IH. intros s0 y Hy. apply H. now right.
Qed.

Lemma for_each_map {A B S : Type} (g : A -> B) (l : list A) (body : S -> B -> res S)
    (s : S) :
  for_each (map g l) body s = for_each l (fun s0 x => body s0 (g x)) s.
Proof.
  revert s; induction l as [|x l IH]; intros s; simpl; [reflexivity|].
  destruct (body s (g x)); simpl; auto.
Qed.

(** The value of an item is a dict. *)
Definition dict_valued (kv : string * json) : bool := PyVal.is_dict (snd kv).

(** The services of a country without those whose value is not a dict. *)
Definition prune_services (services : json) : json :=
  match services with
  | JDict svs => JDict (filter dict_valued svs)
  | _ => services
  end.

(** A payload without the countries whose value is not a dict and, in the
    countries left, without the services whose value is not a dict. *)
Definition prune (d : dict json) : dict json :=
  map (fun kv => (fst kv, prune_services (snd kv))) (filter dict_valued d).

(** X20.  The standard price parser passes over what is not a dict: the
    countries whose value is not a dict, and in any country the services
    whose value is not a dict, could as well be absent from the payload. *)
Theorem standard_parser_skips_non_dicts :
  (forall d : dict json,
      ClientBase.parse_prices (JDict d)
      = ClientBase.parse_prices (JDict (filter dict_valued d)))
  /\ (forall (country_id : string) (services pre post : dict json),
      ClientBase.parse_prices (JDict (pre ++ (country_id, JDict services) :: post))
      = ClientBase.parse_prices
          (JDict (pre ++ (country_id, JDict (filter dict_valued services)) :: post)))
  /\ (forall d : dict json,
      ClientBase.parse_prices (JDict d) = ClientBase.parse_prices (JDict (prune d))).
Proof.
  assert (Hcountries : forall d : dict json,
             ClientBase.parse_prices (JDict d)
             = ClientBase.parse_prices (JDict (filter dict_valued d))).
  { intros d. unfold ClientBase.parse_prices. apply for_each_skip.
    intros result [cid v] Hv. unfold dict_valued in Hv. simpl in Hv.
    destruct v; try reflexivity. discriminate. }
  assert (Hservices : forall (svs : dict json) (sm : dict ServicePrice),
             for_each svs (fun service_map '(srv_code, srv_data) =>
               match srv_data with
               | JDict srv_data =>
                   let! sp := ClientBase.service_price srv_code srv_data in
                   Return (dict_set service_map srv_code sp)
               | _ => Return service_map
               end) sm
             = for_each (filter dict_valued svs) (fun service_map '(srv_code, srv_data) =>
               match srv_data with
               | JDict srv_data =>
                   let! sp := ClientBase.service_price srv_code srv_data in
                   Return (dict_set service_map srv_code sp)
               | _ => Return service_map
               end) sm).
  { intros svs sm. apply for_each_skip.
    intros sm0 [code v] Hv. unfold dict_valued in Hv. simpl in Hv.
    destruct v; try reflexivity. discriminate. }
  split; [exact Hcountries|]. split.
  - intros cid svs pre post. unfold ClientBase.parse_prices.
    rewrite !for_each_app.
    match goal with
    | |- bind_res ?m _ = _ => destruct m as [result|e]; [|reflexivity]
    end.
    cbn [bind_res for_each]. now rewrite Hservices.
  - intros d. rewrite (Hcountries d). unfold prune, ClientBase.parse_prices.
    rewrite for_each_map. apply for_each_ext.
    intros result [cid v] _. cbn [fst snd]. unfold prune_services.
    destruct v; try reflexivity. now rewrite Hservices.
Qed.

(** X21.  The SMSBower parser returns all or nothing: if the services of
    one country of the payload cannot be read, because they are not a dict
    or because a price or a count in them is not a number, no result is
    returned for any country. *)
Theorem bower_parser_all_or_nothing (data : dict json) (version cid : string)
    (services : json) (e : exn) :
  In (cid, services) data ->
  SMSBowerClient.build_service_map version services = Raise e ->
  exists e', SMSBowerClient._parse_complex_prices (JDict data) version = Raise e'.
Proof.
  intros Hin He. unfold SMSBowerClient._parse_complex_prices.
  cbn [PyVal.items bind_res].
  apply (for_each_raises data _ [] (cid, services) Hin).
  intros result. rewrite He. simpl. eauto.
Qed.

(** A payload whose second country has a list for services. *)
Lemma bower_parser_all_or_nothing_witness :
  exists e',
    SMSBowerClient._parse_complex_prices
      (JDict [("0", JDict [("tg", JDict [("10.5", JInt 100)])]); ("1", JList [])]) "v2"
    = Raise e'.
Proof.
  apply (bower_parser_all_or_nothing
           [("0", JDict [("tg", JDict [("10.5", JInt 100)])]); ("1", JList [])]
           "v2" "1" (JList []) AttributeError).
  - simpl. auto.
  - reflexivity.
Defined.

(* ================================================================= *)
(** * Free price maps *)















Section FreePrices.
Variable json_loads : string -> res json.



End FreePrices.


